(** * IPMI message codec and confidentiality-layer selection (kuiwang02/bmc)

    A shallow embedding of the Go sources

    - [pkg/ipmi] message layer: [Message], [DecodeFromBytes],
      [SerializeTo], [checksum];
    - [pkg/ipmi] operations: [Operation], [operationLayerTypes],
      [NextLayerType];
    - [bmc] confidentiality: [algorithmCipher].

    Go's [uint8] and [uint32] values are integers in [Z] with the
    wrap-around of every arithmetic operation written out; byte slices are
    lists of such integers; slice indexing and re-slicing are partial and
    a failed bounds check is the outcome [Panic]. *)

From stdpp Require Import base numbers option list gmap countable strings.

Local Open Scope Z_scope.

(** ** Machine integers *)

Definition uint8 (x : Z) : Z := x mod 256.
Definition uint32 (x : Z) : Z := x mod 2 ^ 32.

(** [x << n] and [-x] on a [uint8]. *)
Definition shl8 (x n : Z) : Z := uint8 (Z.shiftl x n).
Definition neg8 (x : Z) : Z := uint8 (- x).

(** [x << n] on a [uint32]. *)
Definition shl32 (x n : Z) : Z := uint32 (Z.shiftl x n).

(** ** The checksum primitive *)

(** [  c := uint8(0)
       for _, b := range data { c += uint8(b) }
       return -c  ]
    The loop is a left fold over the slice with an 8-bit accumulator. *)
Definition checksum_loop (c : Z) (data : list Z) : Z :=
  fold_left (fun c b => uint8 (c + uint8 b)) data c.

Definition checksum (data : list Z) : Z := neg8 (checksum_loop 0 data).

(** The mathematical sum of the bytes, without wrap-around. *)
Definition byte_sum (data : list Z) : Z := fold_right Z.add 0 data.

(** ** Outcomes and the state-and-error monad

    A Go call returns normally, returns a non-nil [error], or panics on a
    failed bounds check. Mutations made before an error or a panic stay
    in the state, as they do through a pointer receiver. *)

Inductive RuntimeError : Type :=
| IndexOutOfRange (i : Z) (len : nat)
| SliceBoundsOutOfRange (lo hi : Z) (len : nat)
| NegativeCount (num : Z).

Inductive outcome (E A : Type) : Type :=
| Return (a : A)
| Error (e : E)
| Panic (r : RuntimeError).
Arguments Return {E A} a.
Arguments Error {E A} e.
Arguments Panic {E A} r.

Definition ST (S E A : Type) : Type := S -> S * outcome E A.

Definition ret {S E A} (a : A) : ST S E A := fun s => (s, Return a).

Definition bind {S E A B} (c : ST S E A) (k : A -> ST S E B) : ST S E B :=
  fun s =>
    match c s with
    | (s', Return a) => k a s'
    | (s', Error e) => (s', Error e)
    | (s', Panic r) => (s', Panic r)
    end.

Definition fail {S E A} (e : E) : ST S E A := fun s => (s, Error e).
Definition panic {S E A} (r : RuntimeError) : ST S E A := fun s => (s, Panic r).
Definition modify {S E} (f : S -> S) : ST S E unit := fun s => (f s, Return tt).

Declare Scope go_scope.
Delimit Scope go_scope with go.
Notation "x <- c ;; k" := (bind c (fun x => k))
  (at level 100, c at next level, right associativity) : go_scope.
Notation "c ;; k" := (bind c (fun _ => k))
  (at level 100, right associativity) : go_scope.

(** [data[i]]: a bounds-checked read. *)
Definition index {S E} (data : list Z) (i : Z) : ST S E Z :=
  if 0 <=? i then
    match data !! Z.to_nat i with
    | Some b => ret b
    | None => panic (IndexOutOfRange i (length data))
    end
  else panic (IndexOutOfRange i (length data)).

(** The elements at [lo], ..., [hi - 1]. *)
Definition subslice (data : list Z) (lo hi : Z) : list Z :=
  take (Z.to_nat (hi - lo)) (drop (Z.to_nat lo) data).

(** [data[lo:hi]]: Go requires [0 <= lo <= hi <= cap(data)]. The bound
    used here is [len(data)]: no slice of the codec is extended into its
    spare capacity, every upper bound it computes is at most the length. *)
Definition slice {S E} (data : list Z) (lo hi : Z) : ST S E (list Z) :=
  if (0 <=? lo) && (lo <=? hi) && (hi <=? Z.of_nat (length data)) then
    ret (subslice data lo hi)
  else panic (SliceBoundsOutOfRange lo hi (length data)).

(** ** Data model *)

Definition Address : Type := Z.          (* uint8 *)
Definition LUN : Type := Z.              (* uint8 *)
Definition NetworkFunction : Type := Z.  (* uint8 *)
Definition BodyCode : Type := Z.         (* uint8 *)
Definition CommandNumber : Type := Z.    (* uint8 *)
Definition CompletionCode : Type := Z.   (* uint8 *)
Definition iana_Enterprise : Type := Z.  (* uint32 *)

(** The network function codes are declared in a file of [pkg/ipmi] that
    is not part of the sources at hand; the codec only compares against
    them, so they are taken as parameters. *)
Class NetworkFunctionCodes : Type := {
  NetworkFunctionChassisRsp : NetworkFunction;
  NetworkFunctionSensorRsp : NetworkFunction;
  NetworkFunctionAppRsp : NetworkFunction;
  NetworkFunctionStorageRsp : NetworkFunction;
  NetworkFunctionGroupReq : NetworkFunction;
  NetworkFunctionGroupRsp : NetworkFunction;
  NetworkFunctionOEMReq : NetworkFunction;
  NetworkFunctionOEMRsp : NetworkFunction
}.

(** The codes of the IPMI v2.0 specification, table 5-1. *)
Definition ipmi_v2_codes : NetworkFunctionCodes := {|
  NetworkFunctionChassisRsp := 0x01;
  NetworkFunctionSensorRsp := 0x05;
  NetworkFunctionAppRsp := 0x07;
  NetworkFunctionStorageRsp := 0x0b;
  NetworkFunctionGroupReq := 0x2c;
  NetworkFunctionGroupRsp := 0x2d;
  NetworkFunctionOEMReq := 0x2e;
  NetworkFunctionOEMRsp := 0x2f
|}.

(** Modelled from the spec: [NetworkFunction.IsRequest] is declared
    outside the sources at hand; the spec gives it as "true iff the
    function code is even". *)
Definition IsRequest (n : NetworkFunction) : bool := Z.even n.

(** Modelled from the spec: [CompletionCodeNormal] is declared outside the
    sources at hand; it is the "normal (zero) sentinel", which
    [decodeRequest] writes as the literal [0]. *)
Definition CompletionCodeNormal : CompletionCode := 0.

Record Operation : Type := mkOperation {
  Function : NetworkFunction;
  Body : BodyCode;
  Enterprise : iana_Enterprise;
  Command : CommandNumber
}.

(** [layers.BaseLayer] of gopacket. *)
Record BaseLayer : Type := mkBaseLayer {
  Contents : list Z;
  Payload : list Z
}.

(** [Message]; the embedded structs [layers.BaseLayer] and [Operation] and
    the embedded [CompletionCode] are the fields [mBaseLayer],
    [mOperation] and [mCompletionCode]. *)
Record Message : Type := mkMessage {
  mBaseLayer : BaseLayer;
  mOperation : Operation;
  RemoteAddress : Address;
  RemoteLUN : LUN;
  Checksum1 : Z;
  LocalAddress : Address;
  LocalLUN : LUN;
  Sequence : Z;
  mCompletionCode : CompletionCode;
  Checksum2 : Z
}.

(** Field assignments [m.F = v]. *)
Definition set_Function (v : NetworkFunction) (m : Message) : Message :=
  let o := mOperation m in
  mkMessage (mBaseLayer m) (mkOperation v (Body o) (Enterprise o) (Command o))
    (RemoteAddress m) (RemoteLUN m) (Checksum1 m) (LocalAddress m)
    (LocalLUN m) (Sequence m) (mCompletionCode m) (Checksum2 m).

Definition set_Body (v : BodyCode) (m : Message) : Message :=
  let o := mOperation m in
  mkMessage (mBaseLayer m) (mkOperation (Function o) v (Enterprise o) (Command o))
    (RemoteAddress m) (RemoteLUN m) (Checksum1 m) (LocalAddress m)
    (LocalLUN m) (Sequence m) (mCompletionCode m) (Checksum2 m).

Definition set_Enterprise (v : iana_Enterprise) (m : Message) : Message :=
  let o := mOperation m in
  mkMessage (mBaseLayer m) (mkOperation (Function o) (Body o) v (Command o))
    (RemoteAddress m) (RemoteLUN m) (Checksum1 m) (LocalAddress m)
    (LocalLUN m) (Sequence m) (mCompletionCode m) (Checksum2 m).

Definition set_Command (v : CommandNumber) (m : Message) : Message :=
  let o := mOperation m in
  mkMessage (mBaseLayer m) (mkOperation (Function o) (Body o) (Enterprise o) v)
    (RemoteAddress m) (RemoteLUN m) (Checksum1 m) (LocalAddress m)
    (LocalLUN m) (Sequence m) (mCompletionCode m) (Checksum2 m).

Definition set_RemoteAddress (v : Address) (m : Message) : Message :=
  mkMessage (mBaseLayer m) (mOperation m) v (RemoteLUN m) (Checksum1 m)
    (LocalAddress m) (LocalLUN m) (Sequence m) (mCompletionCode m)
    (Checksum2 m).

Definition set_RemoteLUN (v : LUN) (m : Message) : Message :=
  mkMessage (mBaseLayer m) (mOperation m) (RemoteAddress m) v (Checksum1 m)
    (LocalAddress m) (LocalLUN m) (Sequence m) (mCompletionCode m)
    (Checksum2 m).

Definition set_Checksum1 (v : Z) (m : Message) : Message :=
  mkMessage (mBaseLayer m) (mOperation m) (RemoteAddress m) (RemoteLUN m) v
    (LocalAddress m) (LocalLUN m) (Sequence m) (mCompletionCode m)
    (Checksum2 m).

Definition set_LocalAddress (v : Address) (m : Message) : Message :=
  mkMessage (mBaseLayer m) (mOperation m) (RemoteAddress m) (RemoteLUN m)
    (Checksum1 m) v (LocalLUN m) (Sequence m) (mCompletionCode m)
    (Checksum2 m).

Definition set_LocalLUN (v : LUN) (m : Message) : Message :=
  mkMessage (mBaseLayer m) (mOperation m) (RemoteAddress m) (RemoteLUN m)
    (Checksum1 m) (LocalAddress m) v (Sequence m) (mCompletionCode m)
    (Checksum2 m).

Definition set_Sequence (v : Z) (m : Message) : Message :=
  mkMessage (mBaseLayer m) (mOperation m) (RemoteAddress m) (RemoteLUN m)
    (Checksum1 m) (LocalAddress m) (LocalLUN m) v (mCompletionCode m)
    (Checksum2 m).

Definition set_CompletionCode (v : CompletionCode) (m : Message) : Message :=
  mkMessage (mBaseLayer m) (mOperation m) (RemoteAddress m) (RemoteLUN m)
    (Checksum1 m) (LocalAddress m) (LocalLUN m) (Sequence m) v
    (Checksum2 m).

Definition set_Checksum2 (v : Z) (m : Message) : Message :=
  mkMessage (mBaseLayer m) (mOperation m) (RemoteAddress m) (RemoteLUN m)
    (Checksum1 m) (LocalAddress m) (LocalLUN m) (Sequence m)
    (mCompletionCode m) v.

Definition set_Contents (v : list Z) (m : Message) : Message :=
  mkMessage (mkBaseLayer v (Payload (mBaseLayer m))) (mOperation m)
    (RemoteAddress m) (RemoteLUN m) (Checksum1 m) (LocalAddress m)
    (LocalLUN m) (Sequence m) (mCompletionCode m) (Checksum2 m).

Definition set_Payload (v : list Z) (m : Message) : Message :=
  mkMessage (mkBaseLayer (Contents (mBaseLayer m)) v) (mOperation m)
    (RemoteAddress m) (RemoteLUN m) (Checksum1 m) (LocalAddress m)
    (LocalLUN m) (Sequence m) (mCompletionCode m) (Checksum2 m).

(** ** Operations and the next-layer table *)

(** The layer types registered by [pkg/ipmi] (and gopacket's
    [LayerTypePayload]); their registration is outside the sources at
    hand, only their names are used here. *)
Inductive LayerType : Type :=
| LayerTypePayload
| LayerTypeMessage
| LayerTypeGetDeviceIDRsp
| LayerTypeGetChassisStatusRsp
| LayerTypeGetSystemGUIDRsp
| LayerTypeGetChannelAuthenticationCapabilitiesRsp
| LayerTypeGetSDRRepositoryInfoRsp
| LayerTypeGetSDRRsp
| LayerTypeGetSensorReadingRsp
| LayerTypeGetSessionInfoRsp.

#[global] Instance Operation_eq_dec : EqDecision Operation.
Proof. solve_decision. Defined.

#[global] Instance Operation_countable : Countable Operation.
Proof.
  refine (inj_countable'
            (fun o => (Function o, Body o, Enterprise o, Command o))
            (fun t => match t with (f, b, e, c) => mkOperation f b e c end) _).
  intros []; reflexivity.
Defined.

Section Codec.
Context `{codes : NetworkFunctionCodes}.

Definition OperationGetChassisStatusRsp : Operation :=
  mkOperation NetworkFunctionChassisRsp 0 0 0x01.
Definition OperationGetDeviceIDRsp : Operation :=
  mkOperation NetworkFunctionAppRsp 0 0 0x01.
Definition OperationGetSystemGUIDRsp : Operation :=
  mkOperation NetworkFunctionAppRsp 0 0 0x37.
Definition OperationGetChannelAuthenticationCapabilitiesRsp : Operation :=
  mkOperation NetworkFunctionAppRsp 0 0 0x38.
Definition OperationGetSDRRepositoryInfoRsp : Operation :=
  mkOperation NetworkFunctionStorageRsp 0 0 0x20.
Definition OperationGetSDRRsp : Operation :=
  mkOperation NetworkFunctionStorageRsp 0 0 0x23.
Definition OperationGetSensorReadingRsp : Operation :=
  mkOperation NetworkFunctionSensorRsp 0 0 0x2d.
Definition OperationGetSessionInfoRsp : Operation :=
  mkOperation NetworkFunctionAppRsp 0 0 0x3d.

(** The entries of the map literal, in source order. *)
Definition operationLayerTypes_entries : list (Operation * LayerType) :=
  [ (OperationGetDeviceIDRsp, LayerTypeGetDeviceIDRsp);
    (OperationGetChassisStatusRsp, LayerTypeGetChassisStatusRsp);
    (OperationGetSystemGUIDRsp, LayerTypeGetSystemGUIDRsp);
    (OperationGetChannelAuthenticationCapabilitiesRsp,
     LayerTypeGetChannelAuthenticationCapabilitiesRsp);
    (OperationGetSDRRepositoryInfoRsp, LayerTypeGetSDRRepositoryInfoRsp);
    (OperationGetSDRRsp, LayerTypeGetSDRRsp);
    (OperationGetSensorReadingRsp, LayerTypeGetSensorReadingRsp);
    (OperationGetSessionInfoRsp, LayerTypeGetSessionInfoRsp) ].

(** A map literal with non-constant keys stores its entries one after the
    other. *)
Definition operationLayerTypes : gmap Operation LayerType :=
  foldl (fun t kv => <[kv.1 := kv.2]> t) ∅ operationLayerTypes_entries.

(** [Operation.NextLayerType] *)
Definition Operation_NextLayerType (o : Operation) : LayerType :=
  match operationLayerTypes !! o with
  | Some layer => layer
  | None => LayerTypePayload
  end.

(** [Message.NextLayerType] *)
Definition NextLayerType (m : Message) : LayerType :=
  if negb (mCompletionCode m =? CompletionCodeNormal) then LayerTypePayload
  else Operation_NextLayerType (mOperation m).

(** ** Decoding *)

(** The [error] values of the decoder, one constructor per [fmt.Errorf]
    call, carrying the values that are formatted into the message. *)
Inductive DecodeError : Type :=
| ErrTooShort (got : nat)         (* "must be at least 7 bytes, got %v" *)
| ErrChecksum1 (got want : Z)     (* "invalid checksum1: got %v, want %v" *)
| ErrChecksum2 (got want : Z)     (* "invalid checksum2: got %v, want %v" *)
| ErrBodyCode                     (* "data too short for body code" *)
| ErrOEMEN.                       (* "data too short for OEM EN" *)

(** [gopacket.DecodeFeedback]: whether [SetTruncated] has been called. *)
Definition DecodeFeedback : Type := bool.

(** The decoder mutates its receiver [m] and the feedback [df]. *)
Definition Decoder (A : Type) : Type :=
  ST (Message * DecodeFeedback) DecodeError A.

Definition assign {E B} (f : Message -> Message) : ST (Message * B) E unit :=
  modify (fun s => (f s.1, s.2)).
Definition self {E B} : ST (Message * B) E Message :=
  fun s => (s, Return s.1).
Definition SetTruncated : Decoder unit :=
  modify (fun s => (s.1, true)).

Definition len (data : list Z) : Z := Z.of_nat (length data).

Definition is_Group (f : NetworkFunction) : bool :=
  (f =? NetworkFunctionGroupReq) || (f =? NetworkFunctionGroupRsp).
Definition is_OEM (f : NetworkFunction) : bool :=
  (f =? NetworkFunctionOEMReq) || (f =? NetworkFunctionOEMRsp).

Definition decodeSpecialNetFns (data : list Z) : Decoder Z :=
  (assign (set_Body 0) ;;
   assign (set_Enterprise 0) ;;
   m <- self ;;
   if is_Group (Function (mOperation m)) then
     if len data <? 1 then
       SetTruncated ;;
       fail ErrBodyCode
     else
       d0 <- index data 0 ;;
       assign (set_Body (uint8 d0)) ;;
       ret 1
   else if is_OEM (Function (mOperation m)) then
     if len data <? 3 then
       SetTruncated ;;
       fail ErrOEMEN
     else
       d0 <- index data 0 ;;
       d1 <- index data 1 ;;
       d2 <- index data 2 ;;
       assign (set_Enterprise
                 (Z.lor (Z.lor (uint32 d0) (shl32 (uint32 d1) 8))
                        (shl32 (uint32 d2) 16))) ;;
       ret 3
   else ret 0)%go.

Definition decodeDataHeader (data : list Z) (start : Z) : Decoder unit :=
  (region <- slice data start (len data - 1) ;;
   consumed <- decodeSpecialNetFns region ;;
   contents <- slice data 0 (start + consumed) ;;
   assign (set_Contents contents) ;;
   payload <- slice data (start + consumed) (len data - 1) ;;
   assign (set_Payload payload) ;;
   ret tt)%go.

Definition decodeRequest (data : list Z) : Decoder unit :=
  (assign (set_CompletionCode 0) ;;
   decodeDataHeader data 6)%go.

Definition decodeResponse (data : list Z) : Decoder unit :=
  (d6 <- index data 6 ;;
   assign (set_CompletionCode (uint8 d6)) ;;
   decodeDataHeader data 7)%go.

Definition DecodeFromBytes (data : list Z) : Decoder unit :=
  (if len data <? 7 then
     SetTruncated ;;
     fail (ErrTooShort (length data))
   else
     d0 <- index data 0 ;;
     assign (set_RemoteAddress (uint8 d0)) ;;
     d1 <- index data 1 ;;
     assign (set_Function (uint8 (Z.shiftr d1 2))) ;;
     d1 <- index data 1 ;;
     assign (set_RemoteLUN (uint8 (Z.land d1 0x3))) ;;
     d2 <- index data 2 ;;
     assign (set_Checksum1 (uint8 d2)) ;;
     span1 <- slice data 0 2 ;;
     m <- self ;;
     if negb (Checksum1 m =? checksum span1) then
       fail (ErrChecksum1 (Checksum1 m) (checksum span1))
     else
       d3 <- index data 3 ;;
       assign (set_LocalAddress (uint8 d3)) ;;
       d4 <- index data 4 ;;
       assign (set_Sequence (uint8 (Z.shiftr d4 2))) ;;
       d4 <- index data 4 ;;
       assign (set_LocalLUN (uint8 (Z.land d4 0x3))) ;;
       d5 <- index data 5 ;;
       assign (set_Command (uint8 d5)) ;;
       dl <- index data (len data - 1) ;;
       assign (set_Checksum2 (uint8 dl)) ;;
       span2 <- slice data 3 (len data - 1) ;;
       m <- self ;;
       if negb (Checksum2 m =? checksum span2) then
         fail (ErrChecksum2 (Checksum2 m) (checksum span2))
       else
         m <- self ;;
         if IsRequest (Function (mOperation m)) then decodeRequest data
         else decodeResponse data)%go.

(** ** Serialization *)

(** gopacket's [SerializeBuffer]: [Bytes] is the live region; [front] and
    [back] are the unused parts of the backing array next to it, whose
    contents are whatever earlier uses left there. *)
Record SerializeBuffer : Type := mkSerializeBuffer {
  front : list Z;
  Bytes : list Z;
  back : list Z
}.

Record SerializeOptions : Type := mkSerializeOptions {
  FixLengths : bool;
  ComputeChecksums : bool
}.

Definition Serializer (A : Type) : Type :=
  ST (Message * SerializeBuffer) Empty_set A.

(** A slice returned by the buffer aliases a window of [Bytes], counted
    from the start of the live region. *)
Record window : Type := mkWindow { w_off : nat; w_len : nat }.

Definition buffer : Serializer SerializeBuffer := fun s => (s, Return s.2).
Definition set_buffer (b : SerializeBuffer) : Serializer unit :=
  modify (fun s => (s.1, b)).

(** [b.PrependBytes(num)]: the live region grows to the front by [num]
    bytes; they "start in an indeterminate state": stale bytes of the
    backing array, or zeroes when it had to be reallocated. The standard
    buffer never returns an error and panics on a negative count. *)
Definition PrependBytes (num : Z) : Serializer window :=
  (if num <? 0 then panic (NegativeCount num)
   else
     b <- buffer ;;
     let n := Z.to_nat num in
     let keep := (length (front b) - n)%nat in
     (if (n <=? length (front b))%nat then
        set_buffer (mkSerializeBuffer (take keep (front b))
                      (drop keep (front b) ++ Bytes b) (back b))
      else
        set_buffer (mkSerializeBuffer [] (replicate n 0 ++ Bytes b) (back b))) ;;
     ret (mkWindow 0 n))%go.

(** [b.AppendBytes(num)], likewise at the back. *)
Definition AppendBytes (num : Z) : Serializer window :=
  (if num <? 0 then panic (NegativeCount num)
   else
     b <- buffer ;;
     let n := Z.to_nat num in
     (if (n <=? length (back b))%nat then
        set_buffer (mkSerializeBuffer (front b)
                      (Bytes b ++ take n (back b)) (drop n (back b)))
      else
        set_buffer (mkSerializeBuffer (front b)
                      (Bytes b ++ replicate n 0) [])) ;;
     ret (mkWindow (length (Bytes b)) n))%go.

(** [w[i] = x] *)
Definition store (w : window) (i x : Z) : Serializer unit :=
  (if (0 <=? i) && (i <? Z.of_nat (w_len w)) then
     b <- buffer ;;
     set_buffer (mkSerializeBuffer (front b)
                   (<[(w_off w + Z.to_nat i)%nat := x]> (Bytes b)) (back b))
   else panic (IndexOutOfRange i (w_len w)))%go.

(** [w[lo:hi]], read at once. *)
Definition window_slice (w : window) (lo hi : Z) : Serializer (list Z) :=
  (b <- buffer ;;
   slice (take (w_len w) (drop (w_off w) (Bytes b))) lo hi)%go.

Definition serializeLength (m : Message) : Z :=
  let length := 6 in
  let length :=
    if negb (IsRequest (Function (mOperation m))) then length + 1
    else length in
  if is_Group (Function (mOperation m)) then length + 1
  else if is_OEM (Function (mOperation m)) then length + 3
  else length.

Definition SerializeTo (opts : SerializeOptions) : Serializer unit :=
  (m <- self ;;
   header <- PrependBytes (serializeLength m) ;;
   m <- self ;;
   store header 0 (uint8 (RemoteAddress m)) ;;
   store header 1 (Z.lor (shl8 (uint8 (Function (mOperation m))) 2)
                         (uint8 (RemoteLUN m))) ;;
   (if ComputeChecksums opts then
      span1 <- window_slice header 0 2 ;;
      assign (set_Checksum1 (checksum span1))
    else ret tt) ;;
   m <- self ;;
   store header 2 (Checksum1 m) ;;
   store header 3 (uint8 (LocalAddress m)) ;;
   store header 4 (Z.lor (shl8 (uint8 (Sequence m)) 2) (uint8 (LocalLUN m))) ;;
   store header 5 (uint8 (Command (mOperation m))) ;;
   offset <- (if negb (IsRequest (Function (mOperation m))) then
                store header 6 (uint8 (mCompletionCode m)) ;;
                ret 7
              else ret 6) ;;
   (if is_Group (Function (mOperation m)) then
      store header offset (uint8 (Body (mOperation m)))
    else if is_OEM (Function (mOperation m)) then
      let enterprise := uint32 (Enterprise (mOperation m)) in
      store header offset (uint8 enterprise) ;;
      store header (offset + 1) (uint8 (Z.shiftr enterprise 8)) ;;
      store header (offset + 2) (uint8 (Z.shiftr enterprise 16))
    else ret tt) ;;
   (if ComputeChecksums opts then
      b <- buffer ;;
      span2 <- slice (Bytes b) 3 (len (Bytes b)) ;;
      assign (set_Checksum2 (checksum span2))
    else ret tt) ;;
   trailer <- AppendBytes 1 ;;
   m <- self ;;
   store trailer 0 (Checksum2 m) ;;
   ret tt)%go.

End Codec.

(** ** Confidentiality-layer selection *)

(** [copy(dst, src)] copies [min(len(dst), len(src))] elements. *)
Definition copy (dst src : list Z) : list Z :=
  take (length dst) src ++ drop (length src) dst.

(** The [error] values of [algorithmCipher]: its own [fmt.Errorf]
    ("unsupported confidentiality algorithm: %v"), or whatever the cipher
    constructor returns. *)
Inductive CipherError (E : Type) : Type :=
| ErrUnsupportedAlgorithm (a : Z)
| ErrConstructor (e : E).
Arguments ErrUnsupportedAlgorithm {E} a.
Arguments ErrConstructor {E} e.

(** [AdditionalKeyMaterialGenerator]: the interface with the one method
    [K(n int) []byte]. *)
Record AdditionalKeyMaterialGenerator : Type := mkGenerator {
  K : Z -> list Z
}.

Section Confidentiality.

(** Declarations of [pkg/ipmi] and [pkg/layerexts] outside the sources at
    hand: the two algorithm identifiers, the layers
    ([layerexts.SerializableDecodingLayer]) and the cipher constructor
    [ipmi.NewAES128CBC], which takes the [[16]byte] key and returns a
    layer and an [error]. *)
Variable ConfidentialityAlgorithmNone : Z.
Variable ConfidentialityAlgorithmAESCBC128 : Z.
Variable Layer : Type.
Variable E : Type.
Variable NewAES128CBC : list Z -> option Layer * option E.

Definition algorithmCipher (a : Z) (g : AdditionalKeyMaterialGenerator)
  : option Layer * option (CipherError E) :=
  if a =? ConfidentialityAlgorithmNone then (None, None)
  else if a =? ConfidentialityAlgorithmAESCBC128 then
    let key := replicate 16 0 in
    let key := copy key (K g 2) in
    match NewAES128CBC key with
    | (l, None) => (l, None)
    | (l, Some e) => (l, Some (ErrConstructor e))
    end
  else (None, Some (ErrUnsupportedAlgorithm a)).

End Confidentiality.

(** ** Dialling, response validation and the command table

    [bmc.go] and the chassis-control tool. Go strings are [string]s of
    8-bit characters. *)

(** [strings.Contains(s, substr)]: [substr] starts at some offset of [s]
    (the empty string is contained in every string). *)
Fixpoint Contains (s substr : string) : bool :=
  String.prefix substr s
  || match s with
     | EmptyString => false
     | String _ s' => Contains s' substr
     end.

(** [strings.HasSuffix(s, suffix)]:
    [len(s) >= len(suffix) && s[len(s)-len(suffix):] == suffix]. *)
Definition HasSuffix (s suffix : string) : bool :=
  (String.length suffix <=? String.length s)%nat
  && String.eqb
       (String.substring (String.length s - String.length suffix)
          (String.length suffix) s)
       suffix.

(** The address [newTransport] passes on: port 623 is appended to an
    address without a colon, or ending in a closing bracket. *)
Definition with_default_port (addr : string) : string :=
  if negb (Contains addr ":") || HasSuffix addr "]" then
    String.append addr ":623"
  else addr.

(** The three Prometheus metrics [DialV2] touches; each [Inc] adds one. *)
Record Metrics : Type := mkMetrics {
  v2ConnectionOpenAttempts : nat;
  v2ConnectionOpenFailures : nat;
  v2ConnectionsOpen : nat
}.

(** [time.Second], in nanoseconds. *)
Definition time_Second : Z := 1000000000.

Section Dial.

(** Declarations outside the sources at hand: the transport package
    ([transport.Transport], [transport.New]) and the sessionless layer
    ([V2Sessionless], [newV2Sessionless]). [transport.New] opens a
    socket; what it returns for an address is a parameter. *)
Variable Transport : Type.
Variable Err : Type.
Variable V2Sessionless : Type.
Variable transport_New : string -> Transport * option Err.
Variable newV2Sessionless : Transport -> Z -> V2Sessionless.

Record V2SessionlessTransport : Type := mkV2SessionlessTransport {
  tTransport : Transport;
  tV2Sessionless : V2Sessionless
}.

Definition newTransport (addr : string) : Transport * option Err :=
  transport_New (with_default_port addr).

Definition newV2SessionlessTransport (t : Transport)
  : V2SessionlessTransport :=
  mkV2SessionlessTransport t (newV2Sessionless t time_Second).

Definition DialV2 (addr : string) (mt : Metrics)
  : Metrics * (option V2SessionlessTransport * option Err) :=
  let mt := mkMetrics (S (v2ConnectionOpenAttempts mt))
              (v2ConnectionOpenFailures mt) (v2ConnectionsOpen mt) in
  match newTransport addr with
  | (_, Some err) =>
      (mkMetrics (v2ConnectionOpenAttempts mt)
         (S (v2ConnectionOpenFailures mt)) (v2ConnectionsOpen mt),
       (None, Some err))
  | (t, None) =>
      (mkMetrics (v2ConnectionOpenAttempts mt) (v2ConnectionOpenFailures mt)
         (S (v2ConnectionsOpen mt)),
       (Some (newV2SessionlessTransport t), None))
  end.

(** [Dial] ignores its context. *)
Definition Dial {Context : Type} (_ : Context) (addr : string)
    (mt : Metrics)
  : Metrics * (option V2SessionlessTransport * option Err) :=
  DialV2 addr mt.

End Dial.

(** The [error] values of [ValidateResponse]: the error it was given, or
    its own "received non-normal completion code: %v". *)
Inductive ResponseError (E : Type) : Type :=
| ErrGiven (e : E)
| ErrNonNormalCompletionCode (c : CompletionCode).
Arguments ErrGiven {E} e.
Arguments ErrNonNormalCompletionCode {E} c.

Definition ValidateResponse {E : Type} (c : CompletionCode) (err : option E)
  : option (ResponseError E) :=
  match err with
  | Some e => Some (ErrGiven e)
  | None =>
      if negb (c =? CompletionCodeNormal) then
        Some (ErrNonNormalCompletionCode c)
      else None
  end.

(** [ipmi.ChassisControl]: the six values the tool refers to; their
    declaration is outside the sources at hand. *)
Inductive ChassisControl : Type :=
| ChassisControlPowerOff
| ChassisControlPowerOn
| ChassisControlPowerCycle
| ChassisControlHardReset
| ChassisControlDiagnosticInterrupt
| ChassisControlSoftPowerOff.

(** The entries of the [cmdControls] literal, in source order. *)
Definition cmdControls_entries : list (string * ChassisControl) :=
  [ ("off"%string, ChassisControlPowerOff);
    ("on"%string, ChassisControlPowerOn);
    ("cycle"%string, ChassisControlPowerCycle);
    ("reset"%string, ChassisControlHardReset);
    ("interrupt"%string, ChassisControlDiagnosticInterrupt);
    ("softoff"%string, ChassisControlSoftPowerOff) ].

Definition cmdControls : gmap string ChassisControl :=
  foldl (fun t kv => <[kv.1 := kv.2]> t) ∅ cmdControls_entries.

(** "invalid command: %v" *)
Inductive CommandError : Type :=
| ErrInvalidCommand (cmd : string).

Definition lookupCommand (cmd : string) : ChassisControl * option CommandError :=
  match cmdControls !! cmd with
  | Some ctrl => (ctrl, None)
  | None => (ChassisControlPowerOff, Some (ErrInvalidCommand cmd))
  end.

(** A sequence of [DialV2] calls, each with what [transport.New] returns
    at that moment. *)
Fixpoint dial_all {Transport Err V2Sessionless : Type}
    (newV2Sessionless : Transport -> Z -> V2Sessionless)
    (calls : list ((string -> Transport * option Err) * string))
    (mt : Metrics) : Metrics :=
  match calls with
  | [] => mt
  | (transport_New, addr) :: calls =>
      dial_all newV2Sessionless calls
        (DialV2 Transport Err V2Sessionless transport_New newV2Sessionless
           addr mt).1
  end.

(** How many of the calls end without an error. *)
Definition dial_successes {Transport Err : Type}
    (calls : list ((string -> Transport * option Err) * string)) : nat :=
  length (List.filter
            (fun c => match (c.1 (with_default_port c.2)).2 with
                      | None => true
                      | Some _ => false
                      end) calls).

(** ** Closed forms

    What the decoder's stages compute, written without the monad; the
    evaluation lemmas below relate them to the code. *)

Section ClosedForms.
Context `{codes : NetworkFunctionCodes}.

(** The effect of [decodeSpecialNetFns] in closed form. *)
Definition special_result (region : list Z) (m : Message) (df : DecodeFeedback)
  : (Message * DecodeFeedback) * outcome DecodeError Z :=
  let m0 := set_Enterprise 0 (set_Body 0 m) in
  if is_Group (Function (mOperation m)) then
    match region with
    | [] => ((m0, true), Error ErrBodyCode)
    | b :: _ => ((set_Body (uint8 b) m0, df), Return 1)
    end
  else if is_OEM (Function (mOperation m)) then
    match region with
    | e0 :: e1 :: e2 :: _ =>
        ((set_Enterprise
            (Z.lor (Z.lor (uint32 e0) (shl32 (uint32 e1) 8))
                   (shl32 (uint32 e2) 16)) m0, df), Return 3)
    | _ => ((m0, true), Error ErrOEMEN)
    end
  else ((m0, df), Return 0).

(** The fields assigned before the first checksum test. *)
Definition header1 (d0 d1 d2 : Z) (m : Message) : Message :=
  set_Checksum1 (uint8 d2)
    (set_RemoteLUN (uint8 (Z.land d1 0x3))
       (set_Function (uint8 (Z.shiftr d1 2))
          (set_RemoteAddress (uint8 d0) m))).

(** The fields assigned between the two checksum tests. *)
Definition header2 (d3 d4 d5 l : Z) (m : Message) : Message :=
  set_Checksum2 (uint8 l)
    (set_Command (uint8 d5)
       (set_LocalLUN (uint8 (Z.land d4 0x3))
          (set_Sequence (uint8 (Z.shiftr d4 2))
             (set_LocalAddress (uint8 d3) m)))).

(** The bytes [SerializeTo] writes for the Group or OEM extension. *)
Definition special_bytes (o : Operation) : list Z :=
  if is_Group (Function o) then [uint8 (Body o)]
  else if is_OEM (Function o) then
    let enterprise := uint32 (Enterprise o) in
    [uint8 enterprise; uint8 (Z.shiftr enterprise 8);
     uint8 (Z.shiftr enterprise 16)]
  else [].

(** The header [SerializeTo] writes for a message, with the message's
    own [Checksum1]. *)
Definition header_bytes (m : Message) : list Z :=
  [uint8 (RemoteAddress m);
   Z.lor (shl8 (uint8 (Function (mOperation m))) 2) (uint8 (RemoteLUN m));
   Checksum1 m;
   uint8 (LocalAddress m);
   Z.lor (shl8 (uint8 (Sequence m)) 2) (uint8 (LocalLUN m));
   uint8 (Command (mOperation m))]
  ++ (if IsRequest (Function (mOperation m)) then []
      else [uint8 (mCompletionCode m)])
  ++ special_bytes (mOperation m).

(** The message after [SerializeTo] in front of [payload]. *)
Definition fix_checksums (payload : list Z) (m : Message) : Message :=
  let m1 := set_Checksum1 (checksum (take 2 (header_bytes m))) m in
  set_Checksum2 (checksum (drop 3 (header_bytes m1) ++ payload)) m1.

Definition serialized (opts : SerializeOptions) (payload : list Z)
    (m : Message) : Message :=
  if ComputeChecksums opts then fix_checksums payload m else m.

(** The bytes on the wire for a message and its payload. *)
Definition wire (m : Message) (payload : list Z) : list Z :=
  header_bytes m ++ payload ++ [Checksum2 m].

(** The stale bytes that [PrependBytes] and [AppendBytes 1] expose. *)
Definition prepend_region (num : Z) (b : SerializeBuffer) : list Z :=
  let n := Z.to_nat num in
  if (n <=? length (front b))%nat then drop (length (front b) - n) (front b)
  else replicate n 0.

Definition append_byte (b : SerializeBuffer) : Z :=
  match back b with
  | [] => 0
  | t :: _ => t
  end.

(** What the wire format can carry of a message: the fields have the
    width of their place on the wire, a request has the normal completion
    code, and Body and Enterprise are zero unless the function is the one
    that carries them (the switch tests Group before OEM). *)
Definition consistent (m : Message) : Prop :=
  let o := mOperation m in
  0 <= RemoteAddress m < 256
  /\ 0 <= Function o < 64
  /\ 0 <= RemoteLUN m < 4
  /\ 0 <= LocalAddress m < 256
  /\ 0 <= Sequence m < 64
  /\ 0 <= LocalLUN m < 4
  /\ 0 <= Command o < 256
  /\ 0 <= mCompletionCode m < 256
  /\ 0 <= Body o < 256
  /\ 0 <= Enterprise o < 2 ^ 24
  /\ (IsRequest (Function o) = true -> mCompletionCode m = CompletionCodeNormal)
  /\ (is_Group (Function o) = false -> Body o = 0)
  /\ (is_Group (Function o) = true \/ is_OEM (Function o) = false ->
      Enterprise o = 0).

End ClosedForms.

(** ** The wire format as a relation

    [parses data m] says that [data] is a well-formed message and [m]
    the content it carries; the decoder is proved below to succeed
    exactly on such data, with exactly that content. *)

Definition is_bytes (data : list Z) : Prop :=
  Forall (fun b => 0 <= b < 256) data.

Section WireFormat.
Context `{codes : NetworkFunctionCodes}.

(** The bytes between the fixed header and the payload, with the body
    code and enterprise number they stand for. *)
Inductive special_part (f : NetworkFunction)
  : list Z -> BodyCode -> iana_Enterprise -> Prop :=
| special_group (b : Z) :
    is_Group f = true ->
    special_part f [b] (uint8 b) 0
| special_oem (e0 e1 e2 : Z) :
    is_Group f = false -> is_OEM f = true ->
    special_part f [e0; e1; e2] 0
      (Z.lor (Z.lor (uint32 e0) (shl32 (uint32 e1) 8)) (shl32 (uint32 e2) 16))
| special_none :
    is_Group f = false -> is_OEM f = false ->
    special_part f [] 0 0.

Inductive parses : list Z -> Message -> Prop :=
| parses_request (d0 d1 d2 d3 d4 d5 l : Z) (sp payload : list Z)
    (body : BodyCode) (ent : iana_Enterprise) :
    uint8 d2 = checksum [d0; d1] ->
    uint8 l = checksum (d3 :: d4 :: d5 :: sp ++ payload) ->
    IsRequest (uint8 (Z.shiftr d1 2)) = true ->
    special_part (uint8 (Z.shiftr d1 2)) sp body ent ->
    parses (d0 :: d1 :: d2 :: d3 :: d4 :: d5 :: (sp ++ payload) ++ [l])
      (mkMessage (mkBaseLayer ([d0; d1; d2; d3; d4; d5] ++ sp) payload)
         (mkOperation (uint8 (Z.shiftr d1 2)) body ent (uint8 d5))
         (uint8 d0) (uint8 (Z.land d1 0x3)) (uint8 d2) (uint8 d3)
         (uint8 (Z.land d4 0x3)) (uint8 (Z.shiftr d4 2)) 0 (uint8 l))
| parses_response (d0 d1 d2 d3 d4 d5 c l : Z) (sp payload : list Z)
    (body : BodyCode) (ent : iana_Enterprise) :
    uint8 d2 = checksum [d0; d1] ->
    uint8 l = checksum (d3 :: d4 :: d5 :: c :: sp ++ payload) ->
    IsRequest (uint8 (Z.shiftr d1 2)) = false ->
    special_part (uint8 (Z.shiftr d1 2)) sp body ent ->
    parses (d0 :: d1 :: d2 :: d3 :: d4 :: d5 :: c :: (sp ++ payload) ++ [l])
      (mkMessage (mkBaseLayer ([d0; d1; d2; d3; d4; d5; c] ++ sp) payload)
         (mkOperation (uint8 (Z.shiftr d1 2)) body ent (uint8 d5))
         (uint8 d0) (uint8 (Z.land d1 0x3)) (uint8 d2) (uint8 d3)
         (uint8 (Z.land d4 0x3)) (uint8 (Z.shiftr d4 2)) (uint8 c) (uint8 l)).

(** The errors that come with [SetTruncated]. *)
Definition is_truncation (e : DecodeError) : bool :=
  match e with
  | ErrTooShort _ | ErrBodyCode | ErrOEMEN => true
  | ErrChecksum1 _ _ | ErrChecksum2 _ _ => false
  end.

End WireFormat.

(** ** Concrete inputs

    The scenario of the specification (a Get Channel Authentication
    Capabilities request) and inputs around it, with the function codes
    of the IPMI specification. *)

Definition zero_message : Message :=
  mkMessage (mkBaseLayer [] []) (mkOperation 0 0 0 0) 0 0 0 0 0 0 0 0.

(** A message left over from an earlier decode of a failed OEM response. *)
Definition stale_message : Message :=
  mkMessage (mkBaseLayer [0x01] [0x02]) (mkOperation 0x2f 0x09 0x1c4f 0x40)
    0x20 0 0xb7 0x81 0 3 0xc1 0x5a.

(** RemoteAddress 0x20, App request (0x06), LocalAddress 0x81, Sequence 5,
    Command 0x38, both LUNs 0; the checksum fields are not filled in. *)
Definition scenario_A : Message :=
  mkMessage (mkBaseLayer [] []) (mkOperation 0x06 0 0 0x38) 0x20 0 0 0x81 0 5
    0 0.

Definition empty_buffer : SerializeBuffer := mkSerializeBuffer [] [] [].

(** The seven bytes of [scenario_A] on the wire. *)
Definition scenario_A_wire : list Z := [0x20; 0x18; 0xc8; 0x81; 0x14; 0x38; 0x33].

(** The same with a wrong Checksum1. *)
Definition bad_checksum1_wire : list Z :=
  [0x20; 0x18; 0x00; 0x81; 0x14; 0x38; 0x33].

(** A Get Device ID response (App response 0x07, command 0x01) with
    completion code 0xc1, "invalid command". *)
Definition failed_get_device_id : Message :=
  mkMessage (mkBaseLayer [] []) (mkOperation 0x07 0 0 0x01) 0x81 0 0 0x20 0 5
    0xc1 0.

(** A Group request (0x2c) before its data header is decoded. *)
Definition group_request : Message :=
  mkMessage (mkBaseLayer [] []) (mkOperation 0x2c 0 0 0x01) 0x20 0 0 0x81 0 5
    0 0.

(** A generator whose [K(n)] is twenty bytes [0x40 + n], and a cipher
    constructor that keeps the key. *)
Definition sample_generator : AdditionalKeyMaterialGenerator :=
  mkGenerator (fun n => replicate 20 (0x40 + n)).

Definition sample_NewAES128CBC (key : list Z) : option (list Z) * option unit :=
  (Some key, None).

(** An OEM response (0x2f) with completion code 0xc9, enterprise number
    0x00a2b3 and a two-byte payload; and a Group request (0x2c) with body
    code 0xdc and a one-byte payload. *)
Definition oem_response : Message :=
  mkMessage (mkBaseLayer [] []) (mkOperation 0x2f 0 0x00a2b3 0x02) 0x81 1 0
    0x20 2 0x3f 0xc9 0.

Definition dcmi_request : Message :=
  mkMessage (mkBaseLayer [] []) (mkOperation 0x2c 0xdc 0 0x01) 0x20 0 0 0x81 0
    7 0 0.

(** What decoding [scenario_A_wire] yields. *)
Definition scenario_A_decoded : Message :=
  mkMessage (mkBaseLayer [0x20; 0x18; 0xc8; 0x81; 0x14; 0x38] [])
    (mkOperation 0x06 0 0 0x38) 0x20 0 0xc8 0x81 0 5 0 0x33.

(** A generator whose [K(n)] has only eight bytes, and a cipher
    constructor that rejects every key. *)
Definition short_generator : AdditionalKeyMaterialGenerator :=
  mkGenerator (fun n => replicate 8 (0x40 + n)).

Definition rejecting_NewAES128CBC (key : list Z)
  : option (list Z) * option unit :=
  (None, Some tt).

(** [oem_response] on the wire with its two-byte payload, and what
    decoding those bytes yields. *)
Definition oem_response_wire : list Z :=
  [0x81; 0xbd; 0xc2; 0x20; 0xfe; 0x02; 0xc9; 0xb3; 0xa2; 0x00; 0x11; 0x22;
   0x8f].

Definition oem_response_decoded : Message :=
  mkMessage
    (mkBaseLayer [0x81; 0xbd; 0xc2; 0x20; 0xfe; 0x02; 0xc9; 0xb3; 0xa2; 0x00]
       [0x11; 0x22])
    (mkOperation 0x2f 0 0x00a2b3 0x02) 0x81 1 0xc2 0x20 2 0x3f 0xc9 0x8f.

(** A buffer holding one payload byte among stale bytes. *)
Definition used_buffer : SerializeBuffer :=
  mkSerializeBuffer [0xaa; 0xbb; 0xcc; 0xdd; 0xee; 0xff; 0x11; 0x22] [0x05]
    [0x99; 0x98].

(** * Properties *)

(** ** The checksum *)

Lemma uint8_range (x : Z) : 0 <= uint8 x < 256.
Proof. unfold uint8. apply Z.mod_pos_bound. lia. Qed.

Lemma uint8_small (x : Z) : 0 <= x < 256 -> uint8 x = x.
Proof. intros Hx. unfold uint8. apply Z.mod_small. exact Hx. Qed.

Lemma uint8_idemp (x : Z) : uint8 (uint8 x) = uint8 x.
Proof. apply uint8_small, uint8_range. Qed.

Lemma checksum_loop_sum (data : list Z) (c : Z) :
  uint8 (checksum_loop c data) = uint8 (c + byte_sum data).
Proof.
  revert c. induction data as [|b data IH]; intros c.
  - simpl. f_equal. lia.
  - change (checksum_loop c (b :: data))
      with (checksum_loop (uint8 (c + uint8 b)) data).
    rewrite IH.
    change (byte_sum (b :: data)) with (b + byte_sum data).
    unfold uint8. rewrite Zplus_mod_idemp_l.
    replace (c + b mod 256 + byte_sum data)
      with (b mod 256 + (c + byte_sum data)) by lia.
    rewrite Zplus_mod_idemp_l. f_equal. lia.
Qed.

Lemma checksum_range (data : list Z) : 0 <= checksum data < 256.
Proof. apply uint8_range. Qed.

(** C5. For every byte sequence, [checksum data] is the two's complement
    of the 8-bit sum of the bytes: it is a [uint8], it equals the negation
    modulo 256 of the sum modulo 256, and the sum of all bytes plus the
    checksum is zero modulo 256. *)
Theorem checksum_twos_complement (data : list Z) :
  0 <= checksum data < 256 /\
  checksum data = (- (byte_sum data mod 256)) mod 256 /\
  (byte_sum data + checksum data) mod 256 = 0.
Proof.
  assert (Hc : checksum data = (- (byte_sum data mod 256)) mod 256).
  { unfold checksum, neg8.
    pose proof (checksum_loop_sum data 0) as H.
    unfold uint8 in *. rewrite Z.add_0_l in H.
    rewrite <- (Z.sub_0_l (checksum_loop 0 data)).
    rewrite <- (Z.sub_0_l (byte_sum data mod 256)).
    rewrite <- (Zminus_mod_idemp_r 0 (checksum_loop 0 data)).
    rewrite H. reflexivity. }
  split; [apply checksum_range|]. split; [exact Hc|].
  rewrite Hc. rewrite Zplus_mod_idemp_r.
  rewrite <- Zplus_mod_idemp_l.
  replace (byte_sum data mod 256 + - (byte_sum data mod 256)) with 0 by lia.
  reflexivity.
Qed.

(** ** Bit packing *)

Lemma uint32_small (x : Z) : 0 <= x < 2 ^ 32 -> uint32 x = x.
Proof. intros Hx. unfold uint32. apply Z.mod_small. exact Hx. Qed.

(** Or-ing into the zero bits below a shifted value is an addition. *)
Lemma lor_shifted_add (a b n : Z) :
  0 <= n -> 0 <= b < 2 ^ n -> Z.lor (a * 2 ^ n) b = a * 2 ^ n + b.
Proof.
  intros Hn Hb. rewrite <- Z.add_lor_land.
  assert (Hland : Z.land (a * 2 ^ n) b = 0).
  { apply Z.bits_inj'. intros i Hi.
    rewrite Z.land_spec, Z.bits_0.
    destruct (Z.ltb_spec i n) as [Hlt|Hge].
    - rewrite Z.mul_pow2_bits_low by lia. reflexivity.
    - rewrite <- (Z.mod_small b (2 ^ n)) by assumption.
      rewrite Z.mod_pow2_bits_high by lia. apply andb_false_r. }
  rewrite Hland. lia.
Qed.

(** The two fields packed into byte 1 or byte 4 of the header: six bits
    above two bits. *)
Lemma pack6_2 (hi lo : Z) :
  0 <= hi < 64 -> 0 <= lo < 4 ->
  Z.lor (shl8 (uint8 hi) 2) (uint8 lo) = hi * 4 + lo.
Proof.
  intros Hhi Hlo. unfold shl8.
  rewrite (uint8_small hi), (uint8_small lo) by lia.
  rewrite Z.shiftl_mul_pow2 by lia. change (2 ^ 2) with 4.
  rewrite uint8_small by lia.
  apply (lor_shifted_add hi lo 2); [lia|exact Hlo].
Qed.

Lemma unpack6 (hi lo : Z) :
  0 <= hi < 64 -> 0 <= lo < 4 -> uint8 (Z.shiftr (hi * 4 + lo) 2) = hi.
Proof.
  intros Hhi Hlo. rewrite Z.shiftr_div_pow2 by lia. change (2 ^ 2) with 4.
  replace ((hi * 4 + lo) / 4) with hi by (Z.div_mod_to_equations; lia).
  apply uint8_small. lia.
Qed.

Lemma unpack2 (hi lo : Z) :
  0 <= hi < 64 -> 0 <= lo < 4 -> uint8 (Z.land (hi * 4 + lo) 0x3) = lo.
Proof.
  intros Hhi Hlo. change 0x3 with (Z.ones 2).
  rewrite Z.land_ones by lia. change (2 ^ 2) with 4.
  replace ((hi * 4 + lo) mod 4) with lo by (Z.div_mod_to_equations; lia).
  apply uint8_small. lia.
Qed.

(** Three bytes, least significant first, as a 24-bit number. *)
Lemma enterprise_little_endian (e0 e1 e2 : Z) :
  0 <= e0 < 256 -> 0 <= e1 < 256 -> 0 <= e2 < 256 ->
  Z.lor (Z.lor (uint32 e0) (shl32 (uint32 e1) 8)) (shl32 (uint32 e2) 16)
  = e0 + 256 * e1 + 65536 * e2.
Proof.
  intros H0 H1 H2. unfold shl32.
  rewrite (uint32_small e0), (uint32_small e1), (uint32_small e2) by lia.
  rewrite !Z.shiftl_mul_pow2 by lia.
  rewrite !uint32_small by lia.
  rewrite (Z.lor_comm e0).
  rewrite (lor_shifted_add e1 e0 8) by lia.
  rewrite Z.lor_comm.
  rewrite (lor_shifted_add e2 (e1 * 2 ^ 8 + e0) 16) by lia.
  lia.
Qed.

(** The three bytes written for an enterprise number read back as it. *)
Lemma enterprise_bytes (e : Z) :
  0 <= e < 2 ^ 24 ->
  let x := uint32 e in
  uint8 x + 256 * uint8 (Z.shiftr x 8) + 65536 * uint8 (Z.shiftr x 16) = e.
Proof.
  intros He x. unfold x. rewrite uint32_small by lia.
  rewrite !Z.shiftr_div_pow2 by lia. unfold uint8.
  change (2 ^ 8) with 256. change (2 ^ 16) with 65536.
  Z.div_mod_to_equations. lia.
Qed.

(** ** Evaluation lemmas for the monad *)

Arguments uint8 : simpl never.
Arguments uint32 : simpl never.
Arguments shl8 : simpl never.
Arguments shl32 : simpl never.
Arguments checksum : simpl never.

Lemma len_cons (b : Z) (data : list Z) : len (b :: data) = 1 + len data.
Proof. unfold len. simpl length. lia. Qed.

Lemma len_app (l1 l2 : list Z) : len (l1 ++ l2) = len l1 + len l2.
Proof. unfold len. rewrite length_app. lia. Qed.

Lemma len_nil : len [] = 0.
Proof. reflexivity. Qed.

Lemma len_nonneg (data : list Z) : 0 <= len data.
Proof. unfold len. lia. Qed.

Lemma slice_ok {S E} (data : list Z) (lo hi : Z) (s : S) :
  0 <= lo <= hi -> hi <= len data ->
  @slice S E data lo hi s =
    (s, Return (subslice data lo hi)).
Proof.
  intros [Hlo Hhi] Hlen. unfold slice, len in *.
  rewrite (proj2 (Z.leb_le 0 lo)), (proj2 (Z.leb_le lo hi)),
    (proj2 (Z.leb_le hi _)) by assumption.
  reflexivity.
Qed.

Lemma slice_panics {S E} (data : list Z) (lo hi : Z) (s : S) :
  hi < lo ->
  @slice S E data lo hi s =
    (s, Panic (SliceBoundsOutOfRange lo hi (length data))).
Proof.
  intros Hlt. unfold slice.
  rewrite (proj2 (Z.leb_gt lo hi)) by assumption.
  rewrite andb_false_r. reflexivity.
Qed.

Lemma index_last {S E} (init : list Z) (l : Z) (s : S) :
  @index S E (init ++ [l]) (len (init ++ [l]) - 1) s = (s, Return l).
Proof.
  unfold index. rewrite len_app, len_cons, len_nil.
  pose proof (len_nonneg init) as Hn.
  rewrite (proj2 (Z.leb_le 0 _)) by lia.
  replace (Z.to_nat (len init + (1 + 0) - 1)) with (length init + 0)%nat
    by (unfold len; lia).
  rewrite lookup_app_r by lia.
  replace (length init + 0 - length init)%nat with 0%nat by lia.
  reflexivity.
Qed.

Lemma bind_index_ok {S E B} (data : list Z) (i b : Z)
    (k : Z -> ST S E B) (s : S) :
  0 <= i -> data !! Z.to_nat i = Some b ->
  bind (index data i) k s = k b s.
Proof.
  intros Hi Hb. unfold bind, index.
  rewrite (proj2 (Z.leb_le 0 i)) by assumption. rewrite Hb. reflexivity.
Qed.

Lemma bind_index_last {S E B} (init : list Z) (l : Z)
    (k : Z -> ST S E B) (s : S) :
  bind (index (init ++ [l]) (len (init ++ [l]) - 1)) k s = k l s.
Proof. unfold bind. rewrite index_last. reflexivity. Qed.

Lemma bind_slice_ok {S E B} (data : list Z) (lo hi : Z)
    (k : list Z -> ST S E B) (s : S) :
  0 <= lo <= hi -> hi <= len data ->
  bind (slice data lo hi) k s = k (subslice data lo hi) s.
Proof. intros H1 H2. unfold bind. rewrite slice_ok by assumption. reflexivity. Qed.

Lemma bind_assign {E B C} (f : Message -> Message)
    (k : unit -> ST (Message * C) E B) (m : Message) (x : C) :
  bind (assign f) k (m, x) = k tt (f m, x).
Proof. reflexivity. Qed.

Lemma bind_self {E B C} (k : Message -> ST (Message * C) E B)
    (m : Message) (x : C) :
  bind self k (m, x) = k m (m, x).
Proof. reflexivity. Qed.

Lemma bind_assoc {S E A B C} (c : ST S E A) (f : A -> ST S E B)
    (k : B -> ST S E C) (s : S) :
  bind (bind c f) k s = bind c (fun a => bind (f a) k) s.
Proof. unfold bind. destruct (c s) as [s' [a|e|r]]; reflexivity. Qed.

Lemma bind_ret {S E A B} (a : A) (k : A -> ST S E B) (s : S) :
  bind (ret a) k s = k a s.
Proof. reflexivity. Qed.

Section CodecProperties.
Context `{codes : NetworkFunctionCodes}.

Lemma decodeSpecialNetFns_eval (region : list Z) (m : Message)
    (df : DecodeFeedback) :
  decodeSpecialNetFns region (m, df) = special_result region m df.
Proof.
  unfold decodeSpecialNetFns, special_result.
  cbn [bind assign modify self fst snd set_Body set_Enterprise
       mOperation Function].
  destruct (is_Group (Function (mOperation m))).
  - destruct region as [|b region]; [reflexivity|].
    rewrite len_cons.
    rewrite (proj2 (Z.ltb_ge _ _)) by (pose proof (len_nonneg region); lia).
    reflexivity.
  - destruct (is_OEM (Function (mOperation m))); [|reflexivity].
    destruct region as [|e0 [|e1 [|e2 region]]];
      rewrite ?len_cons, ?len_nil; try reflexivity.
    rewrite (proj2 (Z.ltb_ge _ _)) by (pose proof (len_nonneg region); lia).
    reflexivity.
Qed.

Lemma subslice_prefix (l1 l2 : list Z) :
  subslice (l1 ++ l2) 0 (len l1) = l1.
Proof.
  unfold subslice, len. rewrite Z.sub_0_r, Nat2Z.id.
  change (Z.to_nat 0) with 0%nat. rewrite drop_0, take_app_length.
  reflexivity.
Qed.

Lemma subslice_middle (l1 l2 l3 : list Z) (lo hi : Z) :
  lo = len l1 -> hi = len l1 + len l2 ->
  subslice (l1 ++ l2 ++ l3) lo hi = l2.
Proof.
  intros -> ->. unfold subslice, len.
  replace (Z.to_nat (Z.of_nat (length l1) + Z.of_nat (length l2)
                     - Z.of_nat (length l1))) with (length l2) by lia.
  rewrite Nat2Z.id, drop_app_length, take_app_length. reflexivity.
Qed.

Lemma DecodeFromBytes_eval (d0 d1 d2 d3 d4 d5 l : Z) (mid : list Z)
    (m : Message) (df : DecodeFeedback) :
  let data := d0 :: d1 :: d2 :: d3 :: d4 :: d5 :: mid ++ [l] in
  DecodeFromBytes data (m, df) =
    let m1 := header1 d0 d1 d2 m in
    if negb (uint8 d2 =? checksum [d0; d1]) then
      ((m1, df), Error (ErrChecksum1 (uint8 d2) (checksum [d0; d1])))
    else
      let m2 := header2 d3 d4 d5 l m1 in
      if negb (uint8 l =? checksum (d3 :: d4 :: d5 :: mid)) then
        ((m2, df),
         Error (ErrChecksum2 (uint8 l) (checksum (d3 :: d4 :: d5 :: mid))))
      else if IsRequest (uint8 (Z.shiftr d1 2)) then decodeRequest data (m2, df)
      else decodeResponse data (m2, df).
Proof.
  intros data. unfold DecodeFromBytes.
  assert (Hlen : len data = 7 + len mid).
  { unfold data. rewrite !len_cons, len_app, len_cons, len_nil. lia. }
  pose proof (len_nonneg mid) as Hmid.
  rewrite (proj2 (Z.ltb_ge _ _)) by lia.
  rewrite (bind_index_ok data 0 d0), bind_assign by (lia || reflexivity).
  rewrite (bind_index_ok data 1 d1), bind_assign by (lia || reflexivity).
  rewrite (bind_index_ok data 1 d1), bind_assign by (lia || reflexivity).
  rewrite (bind_index_ok data 2 d2), bind_assign by (lia || reflexivity).
  rewrite bind_slice_ok, bind_self by lia.
  change (subslice data 0 2) with [d0; d1].
  change (Checksum1 _) with (uint8 d2).
  fold (header1 d0 d1 d2 m).
  destruct (negb (uint8 d2 =? checksum [d0; d1])); [reflexivity|].
  rewrite (bind_index_ok data 3 d3), bind_assign by (lia || reflexivity).
  rewrite (bind_index_ok data 4 d4), bind_assign by (lia || reflexivity).
  rewrite (bind_index_ok data 4 d4), bind_assign by (lia || reflexivity).
  rewrite (bind_index_ok data 5 d5), bind_assign by (lia || reflexivity).
  change data with ((d0 :: d1 :: d2 :: d3 :: d4 :: d5 :: mid) ++ [l]) at 1 2.
  rewrite bind_index_last, bind_assign.
  rewrite bind_slice_ok, bind_self by lia.
  replace (subslice data 3 (len data - 1)) with (d3 :: d4 :: d5 :: mid).
  2:{ symmetry.
      apply (subslice_middle [d0; d1; d2] (d3 :: d4 :: d5 :: mid) [l]).
      - reflexivity.
      - rewrite Hlen, !len_cons, len_nil. lia. }
  change (Checksum2 _) with (uint8 l).
  fold (header2 d3 d4 d5 l (header1 d0 d1 d2 m)).
  destruct (negb (uint8 l =? checksum (d3 :: d4 :: d5 :: mid))); [reflexivity|].
  rewrite bind_self.
  change (Function (mOperation (header2 d3 d4 d5 l (header1 d0 d1 d2 m))))
    with (uint8 (Z.shiftr d1 2)).
  destruct (IsRequest (uint8 (Z.shiftr d1 2))); reflexivity.
Qed.

Lemma long_shape (data : list Z) :
  (7 <= length data)%nat ->
  exists d0 d1 d2 d3 d4 d5 mid l,
    data = d0 :: d1 :: d2 :: d3 :: d4 :: d5 :: mid ++ [l].
Proof.
  intros Hlen.
  destruct data as [|d0 [|d1 [|d2 [|d3 [|d4 [|d5 rest]]]]]];
    simpl in Hlen; try lia.
  destruct (exists_last (l := rest)) as [mid [l ->]].
  { intros ->. simpl in Hlen. lia. }
  exists d0, d1, d2, d3, d4, d5, mid, l. reflexivity.
Qed.

(** ** Truncated input *)

Lemma DecodeFromBytes_short (data : list Z) (m : Message)
    (df : DecodeFeedback) :
  (length data < 7)%nat ->
  DecodeFromBytes data (m, df) = ((m, true), Error (ErrTooShort (length data))).
Proof.
  intros Hlen. unfold DecodeFromBytes, len.
  rewrite (proj2 (Z.ltb_lt _ _)) by lia.
  reflexivity.
Qed.

(** C4. For every input shorter than 7 bytes, decoding returns the
    "must be at least 7 bytes" error with the truncated flag set; the
    outcome is neither a checksum error nor a panic, and the message is
    not touched. *)
Theorem decode_short_is_truncated (data : list Z) (m : Message)
    (df : DecodeFeedback) :
  (length data < 7)%nat ->
  exists e,
    DecodeFromBytes data (m, df) = ((m, true), Error e)
    /\ e = ErrTooShort (length data)
    /\ (forall got want, e <> ErrChecksum1 got want)
    /\ (forall got want, e <> ErrChecksum2 got want).
Proof.
  intros Hlen. exists (ErrTooShort (length data)).
  split; [apply DecodeFromBytes_short; exact Hlen|].
  split; [reflexivity|]. split; discriminate.
Qed.

(** ** The data header *)

(** [decodeDataHeader] in closed form, for a [start] within the message:
    the special-function bytes are read from [data[start:len-1]], and
    the boundaries of [Contents] and [Payload] follow the count they
    return. *)
Lemma decodeDataHeader_eval (data : list Z) (start : Z) (m : Message)
    (df : DecodeFeedback) :
  0 <= start <= len data - 1 ->
  decodeDataHeader data start (m, df) =
    match special_result (subslice data start (len data - 1)) m df with
    | ((m', df'), Return consumed) =>
        ((set_Payload (subslice data (start + consumed) (len data - 1))
            (set_Contents (subslice data 0 (start + consumed)) m'), df'),
         Return tt)
    | (s, Error e) => (s, Error e)
    | (s, Panic r) => (s, Panic r)
    end.
Proof.
  intros Hstart. unfold decodeDataHeader.
  rewrite bind_slice_ok by lia.
  unfold bind at 1. rewrite decodeSpecialNetFns_eval.
  assert (Hreg : len (subslice data start (len data - 1))
                 = len data - 1 - start).
  { unfold subslice, len in *. rewrite length_take, length_drop. lia. }
  revert Hreg. generalize (subslice data start (len data - 1)) as region.
  intros region Hreg. unfold special_result.
  destruct (is_Group (Function (mOperation m))).
  - destruct region as [|b region]; [reflexivity|].
    rewrite len_cons in Hreg. pose proof (len_nonneg region).
    rewrite bind_slice_ok, bind_assign, bind_slice_ok, bind_assign by lia.
    reflexivity.
  - destruct (is_OEM (Function (mOperation m))).
    + destruct region as [|e0 [|e1 [|e2 region]]]; try reflexivity.
      rewrite !len_cons in Hreg. pose proof (len_nonneg region).
      rewrite bind_slice_ok, bind_assign, bind_slice_ok, bind_assign by lia.
      reflexivity.
    + pose proof (len_nonneg region).
      rewrite bind_slice_ok, bind_assign, bind_slice_ok, bind_assign by lia.
      reflexivity.
Qed.

(** A 7-byte message has no room for a response's data header:
    [data[7:6]] is evaluated. *)
Lemma decodeDataHeader_7_of_7 (data : list Z) (m : Message)
    (df : DecodeFeedback) :
  length data = 7%nat ->
  decodeDataHeader data 7 (m, df) =
    ((m, df), Panic (SliceBoundsOutOfRange 7 6 7)).
Proof.
  intros Hlen. unfold decodeDataHeader, bind.
  rewrite slice_panics by (unfold len; lia).
  unfold len. rewrite Hlen. reflexivity.
Qed.

Lemma special_result_no_panic (region : list Z) (m : Message)
    (df : DecodeFeedback) (r : RuntimeError) :
  (special_result region m df).2 <> Panic r.
Proof.
  unfold special_result.
  destruct (is_Group _); [destruct region; discriminate|].
  destruct (is_OEM _); [|discriminate].
  destruct region as [|e0 [|e1 [|e2 region]]]; discriminate.
Qed.

Lemma decodeDataHeader_no_panic (data : list Z) (start : Z) (m : Message)
    (df : DecodeFeedback) (r : RuntimeError) :
  0 <= start <= len data - 1 ->
  (decodeDataHeader data start (m, df)).2 <> Panic r.
Proof.
  intros Hstart. rewrite decodeDataHeader_eval by assumption.
  pose proof (special_result_no_panic
                (subslice data start (len data - 1)) m df r) as Hsp.
  destruct (special_result _ m df) as [[m' df'] [consumed|e|r']];
    simpl in *; congruence.
Qed.

Lemma decodeRequest_eval (data : list Z) (m : Message) (df : DecodeFeedback) :
  decodeRequest data (m, df) =
    decodeDataHeader data 6 (set_CompletionCode 0 m, df).
Proof. reflexivity. Qed.

Lemma decodeResponse_eval (data : list Z) (d6 : Z) (m : Message)
    (df : DecodeFeedback) :
  data !! 6%nat = Some d6 ->
  decodeResponse data (m, df) =
    decodeDataHeader data 7 (set_CompletionCode (uint8 d6) m, df).
Proof.
  intros Hd6. unfold decodeResponse.
  rewrite (bind_index_ok data 6 d6), bind_assign by (lia || exact Hd6).
  reflexivity.
Qed.

(** ** Responses of exactly seven bytes *)

(** C2. A 7-byte input whose function code is odd (a response) and
    whose two checksums are valid passes the length test, has its byte 6
    read as completion code, and then panics on [data[7:6]]: the outcome
    is neither success nor a truncation or checksum error. Here the input
    is a Get Channel Authentication Capabilities response (function 0x07)
    cut after the command byte. *)
Theorem decode_response_of_7_bytes_panics (m : Message)
    (df : DecodeFeedback) :
  (DecodeFromBytes [0x20; 0x1c; 0xc4; 0x81; 0x14; 0x38; 0x33] (m, df)).2
  = Panic (SliceBoundsOutOfRange 7 6 7).
Proof.
  rewrite (DecodeFromBytes_eval 0x20 0x1c 0xc4 0x81 0x14 0x38 0x33 []).
  cbv zeta.
  change (negb (uint8 0xc4 =? checksum [0x20; 0x1c])) with false.
  change (negb (uint8 0x33 =? checksum [0x81; 0x14; 0x38])) with false.
  change (IsRequest (uint8 (Z.shiftr 0x1c 2))) with false.
  cbv iota.
  rewrite (decodeResponse_eval _ 0x33) by reflexivity.
  rewrite decodeDataHeader_7_of_7 by reflexivity.
  reflexivity.
Qed.

(** The fault is not particular to one input: every 7-byte input with
    valid checksums and an odd function code panics. *)
Lemma decode_7_byte_response_panics (d0 d1 d2 d3 d4 d5 l : Z) (m : Message)
    (df : DecodeFeedback) :
  uint8 d2 = checksum [d0; d1] ->
  uint8 l = checksum [d3; d4; d5] ->
  IsRequest (uint8 (Z.shiftr d1 2)) = false ->
  (DecodeFromBytes [d0; d1; d2; d3; d4; d5; l] (m, df)).2
  = Panic (SliceBoundsOutOfRange 7 6 7).
Proof.
  intros H1 H2 Hrsp.
  rewrite (DecodeFromBytes_eval d0 d1 d2 d3 d4 d5 l []). cbv zeta.
  rewrite H1, Z.eqb_refl. cbn [negb].
  change (d3 :: d4 :: d5 :: []) with [d3; d4; d5].
  rewrite H2, Z.eqb_refl. cbn [negb]. rewrite Hrsp.
  rewrite (decodeResponse_eval _ l) by reflexivity.
  rewrite decodeDataHeader_7_of_7 by reflexivity.
  reflexivity.
Qed.

(** Every input of at least eight bytes decodes without a panic, and so
    does every 7-byte request: the fault above needs a response of
    exactly seven bytes with valid checksums. *)
Lemma decode_no_panic (data : list Z) (m : Message) (df : DecodeFeedback)
    (r : RuntimeError) :
  (8 <= length data)%nat \/
  ((7 <= length data)%nat /\
   IsRequest (uint8 (Z.shiftr (nth 1 data 0) 2)) = true) ->
  (DecodeFromBytes data (m, df)).2 <> Panic r.
Proof.
  intros Hlen.
  destruct (long_shape data) as (d0 & d1 & d2 & d3 & d4 & d5 & mid & l & ->);
    [lia|].
  rewrite DecodeFromBytes_eval. cbv zeta.
  destruct (negb _); [discriminate|].
  destruct (negb _); [discriminate|].
  change (nth 1 (d0 :: d1 :: d2 :: d3 :: d4 :: d5 :: mid ++ [l]) 0)
    with d1 in Hlen.
  assert (Hl : len (d0 :: d1 :: d2 :: d3 :: d4 :: d5 :: mid ++ [l])
               = 7 + len mid).
  { rewrite !len_cons, len_app, len_cons, len_nil. lia. }
  pose proof (len_nonneg mid) as Hmid.
  destruct (IsRequest (uint8 (Z.shiftr d1 2))) eqn:Hreq.
  - rewrite decodeRequest_eval. apply decodeDataHeader_no_panic. lia.
  - destruct Hlen as [Hlen|[_ Hlen]]; [|discriminate].
    destruct mid as [|c mid].
    { simpl in Hlen. lia. }
    rewrite (decodeResponse_eval _ c) by reflexivity.
    apply decodeDataHeader_no_panic.
    clear Hl. rewrite !len_cons, len_app, !len_cons, len_nil.
    pose proof (len_nonneg mid). lia.
Qed.

(** ** Checksum failures *)

(** C3 (as amended). For an input of at least 7 bytes: if Checksum1 does
    not match, decoding stops with the checksum1 error carrying the byte
    found and the value computed; otherwise, if Checksum2 does not match,
    it stops with the checksum2 error likewise. The truncated flag is left
    alone. The message is not rolled back: the fields parsed before the
    failing test hold the input's values ([header1], then [header2]);
    only the fields not reached yet (BaseLayer, Body, Enterprise,
    CompletionCode, and before the first test also the fields of bytes 3
    to 5 and Checksum2) are as they were. *)
Theorem checksum_failure_stops_decoding (data : list Z) (m : Message)
    (df : DecodeFeedback) :
  (7 <= length data)%nat ->
  let d i := nth i data 0 in
  let last_byte := List.last data 0 in
  let got1 := uint8 (d 2%nat) in
  let want1 := checksum (subslice data 0 2) in
  let got2 := uint8 last_byte in
  let want2 := checksum (subslice data 3 (len data - 1)) in
  let m1 := header1 (d 0%nat) (d 1%nat) (d 2%nat) m in
  let m2 := header2 (d 3%nat) (d 4%nat) (d 5%nat) last_byte m1 in
  (got1 <> want1 ->
   DecodeFromBytes data (m, df) = ((m1, df), Error (ErrChecksum1 got1 want1)))
  /\ (got1 = want1 -> got2 <> want2 ->
      DecodeFromBytes data (m, df)
      = ((m2, df), Error (ErrChecksum2 got2 want2)))
  /\ (mBaseLayer m1 = mBaseLayer m
      /\ Body (mOperation m1) = Body (mOperation m)
      /\ Enterprise (mOperation m1) = Enterprise (mOperation m)
      /\ Command (mOperation m1) = Command (mOperation m)
      /\ LocalAddress m1 = LocalAddress m
      /\ LocalLUN m1 = LocalLUN m
      /\ Sequence m1 = Sequence m
      /\ mCompletionCode m1 = mCompletionCode m
      /\ Checksum2 m1 = Checksum2 m)
  /\ (mBaseLayer m2 = mBaseLayer m
      /\ Body (mOperation m2) = Body (mOperation m)
      /\ Enterprise (mOperation m2) = Enterprise (mOperation m)
      /\ mCompletionCode m2 = mCompletionCode m).
Proof.
  intros Hlen.
  destruct (long_shape data Hlen)
    as (d0 & d1 & d2 & d3 & d4 & d5 & mid & l & ->).
  intros d last_byte got1 want1 got2 want2 m1 m2.
  assert (Hlast : last_byte = l).
  { unfold last_byte.
    change (d0 :: d1 :: d2 :: d3 :: d4 :: d5 :: mid ++ [l])
      with ((d0 :: d1 :: d2 :: d3 :: d4 :: d5 :: mid) ++ [l]).
    apply List.last_last. }
  assert (Hw1 : want1 = checksum [d0; d1]) by reflexivity.
  assert (Hw2 : want2 = checksum (d3 :: d4 :: d5 :: mid)).
  { unfold want2. f_equal.
    apply (subslice_middle [d0; d1; d2] (d3 :: d4 :: d5 :: mid) [l]).
    - reflexivity.
    - rewrite !len_cons, len_app, !len_cons, len_nil. lia. }
  assert (Hg1 : got1 = uint8 d2) by reflexivity.
  assert (Hg2 : got2 = uint8 l) by (unfold got2; rewrite Hlast; reflexivity).
  assert (Hm1 : m1 = header1 d0 d1 d2 m) by reflexivity.
  assert (Hm2 : m2 = header2 d3 d4 d5 l m1)
    by (unfold m2; rewrite Hlast; reflexivity).
  clearbody got1 want1 got2 want2 m1 m2. subst got1 want1 got2 want2 m2 m1.
  rewrite DecodeFromBytes_eval. cbv zeta.
  split; [|split; [|split]].
  - intros Hne.
    rewrite (proj2 (Z.eqb_neq _ _) Hne). reflexivity.
  - intros Heq Hne.
    rewrite (proj2 (Z.eqb_eq _ _) Heq), (proj2 (Z.eqb_neq _ _) Hne).
    reflexivity.
  - repeat split.
  - repeat split.
Qed.

(** ** Group and OEM functions *)

Lemma is_Group_true (f : NetworkFunction) :
  is_Group f = true <->
  f = NetworkFunctionGroupReq \/ f = NetworkFunctionGroupRsp.
Proof. unfold is_Group. rewrite orb_true_iff, !Z.eqb_eq. reflexivity. Qed.

Lemma is_OEM_true (f : NetworkFunction) :
  is_OEM f = true <->
  f = NetworkFunctionOEMReq \/ f = NetworkFunctionOEMRsp.
Proof. unfold is_OEM. rewrite orb_true_iff, !Z.eqb_eq. reflexivity. Qed.

Lemma is_Group_false (f : NetworkFunction) :
  is_Group f = false <->
  f <> NetworkFunctionGroupReq /\ f <> NetworkFunctionGroupRsp.
Proof. unfold is_Group. rewrite orb_false_iff, !Z.eqb_neq. reflexivity. Qed.

Lemma is_OEM_false (f : NetworkFunction) :
  is_OEM f = false <->
  f <> NetworkFunctionOEMReq /\ f <> NetworkFunctionOEMRsp.
Proof. unfold is_OEM. rewrite orb_false_iff, !Z.eqb_neq. reflexivity. Qed.

(** C7. With the Group and OEM codes distinct (they are cases of one
    switch): a Group request or response consumes exactly 1 byte of the
    data region, the body code, and fails with the truncated flag set when
    the region is empty; an OEM request or response consumes exactly 3
    bytes, the enterprise number least significant byte first, and fails
    with the truncated flag set when the region has fewer than 3 bytes;
    every other function consumes 0. [decodeDataHeader] places the end of
    [Contents] and the start of [Payload] exactly that many bytes after
    [start], and passes the failure on instead of computing them. *)
Theorem special_functions_consume (region : list Z) (m : Message)
    (df : DecodeFeedback) :
  NetworkFunctionOEMReq <> NetworkFunctionGroupReq ->
  NetworkFunctionOEMReq <> NetworkFunctionGroupRsp ->
  NetworkFunctionOEMRsp <> NetworkFunctionGroupReq ->
  NetworkFunctionOEMRsp <> NetworkFunctionGroupRsp ->
  let f := Function (mOperation m) in
  let m0 := set_Enterprise 0 (set_Body 0 m) in
  (f = NetworkFunctionGroupReq \/ f = NetworkFunctionGroupRsp ->
   match region with
   | [] =>
       decodeSpecialNetFns region (m, df) = ((m0, true), Error ErrBodyCode)
   | b :: _ =>
       decodeSpecialNetFns region (m, df)
       = ((set_Body (uint8 b) m0, df), Return 1)
   end)
  /\ (f = NetworkFunctionOEMReq \/ f = NetworkFunctionOEMRsp ->
      match region with
      | e0 :: e1 :: e2 :: _ =>
          exists en,
            decodeSpecialNetFns region (m, df)
            = ((set_Enterprise en m0, df), Return 3)
            /\ (0 <= e0 < 256 -> 0 <= e1 < 256 -> 0 <= e2 < 256 ->
                en = e0 + 256 * e1 + 65536 * e2)
      | _ =>
          decodeSpecialNetFns region (m, df) = ((m0, true), Error ErrOEMEN)
      end)
  /\ (f <> NetworkFunctionGroupReq -> f <> NetworkFunctionGroupRsp ->
      f <> NetworkFunctionOEMReq -> f <> NetworkFunctionOEMRsp ->
      decodeSpecialNetFns region (m, df) = ((m0, df), Return 0))
  /\ (forall (data : list Z) (start : Z),
        0 <= start <= len data - 1 ->
        region = subslice data start (len data - 1) ->
        (forall m' df' consumed,
            decodeSpecialNetFns region (m, df) = ((m', df'), Return consumed) ->
            decodeDataHeader data start (m, df)
            = ((set_Payload (subslice data (start + consumed) (len data - 1))
                  (set_Contents (subslice data 0 (start + consumed)) m'), df'),
               Return tt))
        /\ (forall s e,
               decodeSpecialNetFns region (m, df) = (s, Error e) ->
               decodeDataHeader data start (m, df) = (s, Error e))).
Proof.
  intros H1 H2 H3 H4 f m0.
  rewrite decodeSpecialNetFns_eval. unfold special_result.
  fold f. fold m0.
  split; [|split; [|split]].
  - intros Hf. rewrite (proj2 (is_Group_true f) Hf).
    destruct region; reflexivity.
  - intros Hf.
    assert (Hg : is_Group f = false).
    { apply is_Group_false. destruct Hf as [-> | ->]; split; assumption. }
    rewrite Hg, (proj2 (is_OEM_true f) Hf).
    destruct region as [|e0 [|e1 [|e2 region]]]; try reflexivity.
    eexists. split; [reflexivity|].
    intros. apply enterprise_little_endian; assumption.
  - intros Hf1 Hf2 Hf3 Hf4.
    rewrite (proj2 (is_Group_false f)), (proj2 (is_OEM_false f))
      by (split; assumption).
    reflexivity.
  - intros data start Hstart ->. split.
    + intros m' df' consumed Hsp.
      rewrite decodeDataHeader_eval by assumption.
      unfold special_result. fold f. fold m0. rewrite Hsp. reflexivity.
    + intros [m' df'] e Hsp.
      rewrite decodeDataHeader_eval by assumption.
      unfold special_result. fold f. fold m0. rewrite Hsp. reflexivity.
Qed.

(** ** Conditional fields after a successful decode *)

Lemma decodeDataHeader_fields (data : list Z) (start : Z) (m m' : Message)
    (df df' : DecodeFeedback) :
  0 <= start <= len data - 1 ->
  decodeDataHeader data start (m, df) = ((m', df'), Return tt) ->
  Function (mOperation m') = Function (mOperation m)
  /\ mCompletionCode m' = mCompletionCode m
  /\ (is_Group (Function (mOperation m)) = false -> Body (mOperation m') = 0)
  /\ (is_OEM (Function (mOperation m)) = false ->
      Enterprise (mOperation m') = 0).
Proof.
  intros Hstart. rewrite decodeDataHeader_eval by assumption.
  unfold special_result.
  destruct (is_Group (Function (mOperation m))) eqn:Hg.
  - destruct (subslice data start (len data - 1)) as [|b region];
      [discriminate|].
    intros [= <- <-]. repeat split; first [reflexivity | intros; discriminate | intros; reflexivity].
  - destruct (is_OEM (Function (mOperation m))) eqn:Ho.
    + destruct (subslice data start (len data - 1))
        as [|e0 [|e1 [|e2 region]]]; try discriminate.
      intros [= <- <-]. repeat split; first [reflexivity | intros; discriminate | intros; reflexivity].
    + intros [= <- <-]. repeat split; first [reflexivity | intros; discriminate | intros; reflexivity].
Qed.

(** C10. After every successful decode, whatever the message held
    before: Body is 0 unless the function is Group request or response,
    Enterprise is 0 unless the function is OEM request or response, and
    CompletionCode is the normal (zero) code when the function is a
    request. *)
Theorem decode_resets_conditional_fields (data : list Z) (m m' : Message)
    (df df' : DecodeFeedback) :
  DecodeFromBytes data (m, df) = ((m', df'), Return tt) ->
  let f := Function (mOperation m') in
  (f <> NetworkFunctionGroupReq -> f <> NetworkFunctionGroupRsp ->
   Body (mOperation m') = 0)
  /\ (f <> NetworkFunctionOEMReq -> f <> NetworkFunctionOEMRsp ->
      Enterprise (mOperation m') = 0)
  /\ (IsRequest f = true -> mCompletionCode m' = CompletionCodeNormal).
Proof.
  intros Hdec.
  destruct (Nat.lt_ge_cases (length data) 7) as [Hshort|Hlong].
  { rewrite DecodeFromBytes_short in Hdec by assumption. discriminate. }
  destruct (long_shape data Hlong)
    as (d0 & d1 & d2 & d3 & d4 & d5 & mid & l & ->).
  rewrite DecodeFromBytes_eval in Hdec. cbv zeta in Hdec.
  destruct (negb _); [discriminate|].
  destruct (negb _); [discriminate|].
  assert (Hl : len (d0 :: d1 :: d2 :: d3 :: d4 :: d5 :: mid ++ [l])
               = 7 + len mid).
  { rewrite !len_cons, len_app, len_cons, len_nil. lia. }
  pose proof (len_nonneg mid) as Hmid.
  destruct (IsRequest (uint8 (Z.shiftr d1 2))) eqn:Hreq.
  - rewrite decodeRequest_eval in Hdec.
    apply decodeDataHeader_fields in Hdec; [|lia].
    destruct Hdec as (Hf & Hcc & Hb & He). cbv zeta. rewrite Hf.
    split; [|split].
    + intros. apply Hb, is_Group_false. split; assumption.
    + intros. apply He, is_OEM_false. split; assumption.
    + intros _. rewrite Hcc. reflexivity.
  - destruct mid as [|c mid].
    { rewrite (decodeResponse_eval _ l) in Hdec by reflexivity.
      rewrite decodeDataHeader_7_of_7 in Hdec by reflexivity.
      discriminate. }
    rewrite (decodeResponse_eval _ c) in Hdec by reflexivity.
    apply decodeDataHeader_fields in Hdec.
    2:{ clear Hl. rewrite !len_cons, len_app, !len_cons, len_nil.
        pose proof (len_nonneg mid). lia. }
    destruct Hdec as (Hf & Hcc & Hb & He). cbv zeta. rewrite Hf.
    split; [|split].
    + intros. apply Hb, is_Group_false. split; assumption.
    + intros. apply He, is_OEM_false. split; assumption.
    + change (Function (mOperation _)) with (uint8 (Z.shiftr d1 2)).
      rewrite Hreq. discriminate.
Qed.

(** ** Serialization *)

Lemma bind_buffer {B} (k : SerializeBuffer -> Serializer B) (m : Message)
    (b : SerializeBuffer) :
  bind buffer k (m, b) = k b (m, b).
Proof. reflexivity. Qed.

Lemma bind_store_ok {B} (w : window) (i x : Z) (k : unit -> Serializer B)
    (m : Message) (b : SerializeBuffer) :
  0 <= i < Z.of_nat (w_len w) ->
  bind (store w i x) k (m, b)
  = k tt (m, mkSerializeBuffer (front b)
               (<[(w_off w + Z.to_nat i)%nat := x]> (Bytes b)) (back b)).
Proof.
  intros [Hlo Hhi]. unfold store.
  rewrite (proj2 (Z.leb_le 0 i)), (proj2 (Z.ltb_lt i _)) by assumption.
  reflexivity.
Qed.

Lemma prepend_region_length (num : Z) (b : SerializeBuffer) :
  length (prepend_region num b) = Z.to_nat num.
Proof.
  unfold prepend_region. cbv zeta.
  destruct (Nat.leb_spec (Z.to_nat num) (length (front b))) as [Hle|Hgt].
  - rewrite length_drop. lia.
  - apply length_replicate.
Qed.

Lemma bind_PrependBytes {B} (num : Z) (k : window -> Serializer B)
    (m : Message) (b : SerializeBuffer) :
  0 <= num ->
  bind (PrependBytes num) k (m, b)
  = k (mkWindow 0 (Z.to_nat num))
      (m, mkSerializeBuffer
            (take (length (front b) - Z.to_nat num) (front b))
            (prepend_region num b ++ Bytes b) (back b)).
Proof.
  intros Hnum. unfold PrependBytes, prepend_region.
  rewrite (proj2 (Z.ltb_ge num 0)) by assumption.
  rewrite bind_assoc, bind_buffer. cbv beta zeta.
  destruct (Nat.leb_spec (Z.to_nat num) (length (front b))) as [Hle|Hgt].
  - reflexivity.
  - replace (length (front b) - Z.to_nat num)%nat with 0%nat by lia.
    reflexivity.
Qed.

Lemma bind_AppendBytes_1 {B} (k : window -> Serializer B)
    (m : Message) (b : SerializeBuffer) :
  bind (AppendBytes 1) k (m, b)
  = k (mkWindow (length (Bytes b)) 1)
      (m, mkSerializeBuffer (front b) (Bytes b ++ [append_byte b])
            (drop 1 (back b))).
Proof.
  unfold AppendBytes, append_byte. change (1 <? 0) with false. cbv iota.
  rewrite bind_assoc, bind_buffer. cbv beta.
  change (Z.to_nat 1) with 1%nat.
  destruct (back b) as [|t bk]; reflexivity.
Qed.

Lemma serializeLength_nonneg (m : Message) : 0 <= serializeLength m.
Proof.
  unfold serializeLength.
  destruct (negb (IsRequest (Function (mOperation m)))),
    (is_Group (Function (mOperation m))),
    (is_OEM (Function (mOperation m))); lia.
Qed.

Lemma subslice_to_end (data : list Z) (lo : Z) :
  subslice data lo (len data) = drop (Z.to_nat lo) data.
Proof.
  unfold subslice, len. apply take_ge. rewrite length_drop. lia.
Qed.

Lemma bind_store_last {B} (k : unit -> Serializer B) (m : Message)
    (fr l bk : list Z) (t x : Z) :
  bind (store (mkWindow (length l) 1) 0 x) k
    (m, mkSerializeBuffer fr (l ++ [t]) bk)
  = k tt (m, mkSerializeBuffer fr (l ++ [x]) bk).
Proof.
  rewrite bind_store_ok by (simpl; lia).
  cbn [front Bytes back w_off]. change (Z.to_nat 0) with 0%nat.
  rewrite Nat.add_0_r, insert_app_r_alt by lia.
  rewrite Nat.sub_diag. reflexivity.
Qed.

Lemma bind_window_slice {B} (w : window) (lo hi : Z)
    (k : list Z -> Serializer B) (m : Message) (b : SerializeBuffer) :
  0 <= lo <= hi -> hi <= len (take (w_len w) (drop (w_off w) (Bytes b))) ->
  bind (window_slice w lo hi) k (m, b)
  = k (subslice (take (w_len w) (drop (w_off w) (Bytes b))) lo hi) (m, b).
Proof.
  intros H1 H2. unfold window_slice.
  rewrite bind_assoc, bind_buffer. cbv beta.
  rewrite bind_slice_ok by assumption. reflexivity.
Qed.

#[local] Arguments Z.shiftr : simpl never.
#[local] Arguments Z.lor : simpl never.
#[local] Arguments Z.land : simpl never.

Ltac ser_norm :=
  cbv beta;
  cbn [mBaseLayer mOperation RemoteAddress RemoteLUN Checksum1 LocalAddress
       LocalLUN Sequence mCompletionCode Checksum2 Function Body Enterprise
       Command front Bytes back set_Checksum1 set_Checksum2];
  repeat match goal with
         | H : IsRequest _ = _ |- _ => rewrite !H
         | H : is_Group _ = _ |- _ => rewrite !H
         | H : is_OEM _ = _ |- _ => rewrite !H
         end;
  cbn [negb].

Ltac ser_step :=
  first
    [ rewrite bind_self
    | rewrite bind_assign
    | rewrite bind_ret
    | rewrite bind_buffer
    | rewrite bind_store_last
    | rewrite bind_store_ok by (simpl; lia)
    | rewrite bind_window_slice by (unfold len; simpl; lia)
    | rewrite bind_slice_ok
        by (unfold len; rewrite ?length_insert, ?length_app; simpl; lia)
    | rewrite bind_AppendBytes_1
    | rewrite bind_assoc ];
  ser_norm.

(** [SerializeTo] in closed form: the message becomes [serialized], the
    live region becomes [wire], and nothing of the stale bytes exposed by
    the buffer survives. *)
Lemma SerializeTo_eval (opts : SerializeOptions) (m : Message)
    (b : SerializeBuffer) :
  let m' := serialized opts (Bytes b) m in
  SerializeTo opts (m, b)
  = ((m', mkSerializeBuffer
            (take (length (front b) - Z.to_nat (serializeLength m)) (front b))
            (wire m' (Bytes b)) (drop 1 (back b))),
     Return tt).
Proof.
  intros m'. unfold SerializeTo.
  rewrite bind_self. cbv beta.
  rewrite bind_PrependBytes by apply serializeLength_nonneg.
  pose proof (prepend_region_length (serializeLength m) b) as Hlen.
  revert Hlen. generalize (prepend_region (serializeLength m) b) as region.
  subst m'. unfold serialized, fix_checksums, wire, header_bytes,
    special_bytes, serializeLength.
  destruct m as [bl [f body ent cmd] ra rl c1 la ll sq cc c2].
  destruct b as [fr payload bk].
  destruct (IsRequest f) eqn:Hreq, (is_Group f) eqn:Hg, (is_OEM f) eqn:Ho.
  all: ser_norm; intros region Hlen.
  all: repeat (destruct region as [|? region]; [simpl in Hlen; lia|]).
  all: destruct region; [|simpl in Hlen; lia].
  all: clear Hlen; destruct (ComputeChecksums opts).
  all: repeat ser_step.
  all: unfold ret; rewrite ?subslice_to_end; simpl.
  all: reflexivity.
Qed.

Lemma subslice_split (l1 l2 l3 data : list Z) (lo hi : Z) :
  data = l1 ++ l2 ++ l3 -> lo = len l1 -> hi = len data - len l3 ->
  subslice data lo hi = l2.
Proof.
  intros -> -> ->. apply subslice_middle; [reflexivity|].
  rewrite !len_app. lia.
Qed.

Lemma subslice_head (l1 l2 data : list Z) (hi : Z) :
  data = l1 ++ l2 -> hi = len l1 -> subslice data 0 hi = l1.
Proof. intros -> ->. apply subslice_prefix. Qed.

(** The data header written by [SerializeTo] is read back by
    [decodeDataHeader]: [pre] stands for the six fixed bytes and the
    completion code, if any. *)
Lemma decodeDataHeader_wire (pre payload : list Z) (c : Z) (o : Operation)
    (m : Message) (df : DecodeFeedback) :
  Function (mOperation m) = Function o ->
  0 <= Body o < 256 ->
  0 <= Enterprise o < 2 ^ 24 ->
  (is_Group (Function o) = false -> Body o = 0) ->
  (is_Group (Function o) = true \/ is_OEM (Function o) = false ->
   Enterprise o = 0) ->
  decodeDataHeader (pre ++ (special_bytes o ++ payload) ++ [c]) (len pre)
    (m, df)
  = ((set_Payload payload
        (set_Contents (pre ++ special_bytes o)
           (set_Enterprise (Enterprise o) (set_Body (Body o) m))), df),
     Return tt).
Proof.
  intros Hf Hbody Hent Hnb Hne.
  pose proof (len_nonneg pre) as Hpre.
  pose proof (len_nonneg payload) as Hpay.
  pose proof (len_nonneg (special_bytes o)) as Hsp.
  set (data := pre ++ (special_bytes o ++ payload) ++ [c]).
  assert (Hlen : len data = len pre + len (special_bytes o) + len payload + 1).
  { unfold data. rewrite !len_app, len_cons, len_nil. lia. }
  rewrite decodeDataHeader_eval by lia.
  rewrite (subslice_split pre (special_bytes o ++ payload) [c] data)
    by (reflexivity || (rewrite len_cons, len_nil; lia)).
  assert (Hc : forall n, n = len (special_bytes o) ->
             subslice data 0 (len pre + n) = pre ++ special_bytes o).
  { intros n ->.
    apply (subslice_head (pre ++ special_bytes o) (payload ++ [c])).
    - unfold data. rewrite <- !app_assoc. reflexivity.
    - rewrite len_app. reflexivity. }
  assert (Hp : forall n, n = len (special_bytes o) ->
             subslice data (len pre + n) (len data - 1) = payload).
  { intros n ->.
    apply (subslice_split (pre ++ special_bytes o) payload [c]).
    - unfold data. rewrite <- !app_assoc. reflexivity.
    - rewrite len_app. reflexivity.
    - rewrite len_cons, len_nil. lia. }
  clearbody data. revert Hc Hp.
  unfold special_result, special_bytes. rewrite Hf.
  destruct (is_Group (Function o)) eqn:Hg.
  - intros Hc Hp. cbn [app].
    rewrite Hc, Hp by reflexivity.
    rewrite uint8_idemp, (uint8_small (Body o)) by assumption.
    rewrite (Hne (or_introl eq_refl)).
    destruct m as [bl [f0 b0 e0 c0] ? ? ? ? ? ? ? ?]. reflexivity.
  - destruct (is_OEM (Function o)) eqn:Ho.
    + intros Hc Hp. cbn [app].
      rewrite Hc, Hp by reflexivity.
      rewrite enterprise_little_endian by apply uint8_range.
      rewrite enterprise_bytes by assumption.
      rewrite (Hnb eq_refl).
      destruct m as [bl [f0 b0 e0 c0] ? ? ? ? ? ? ? ?]. reflexivity.
    + intros Hc Hp. cbn [app].
      rewrite Hc, Hp by reflexivity.
      rewrite (Hnb eq_refl), (Hne (or_intror eq_refl)).
      destruct m as [bl [f0 b0 e0 c0] ? ? ? ? ? ? ? ?]. reflexivity.
Qed.

(** Decoding what [SerializeTo] puts on the wire for a consistent message
    whose checksum fields hold the computed values. *)
Lemma decode_wire (m m0 : Message) (payload : list Z) (df : DecodeFeedback) :
  consistent m ->
  Checksum1 m = checksum (take 2 (header_bytes m)) ->
  Checksum2 m = checksum (drop 3 (header_bytes m) ++ payload) ->
  DecodeFromBytes (wire m payload) (m0, df)
  = ((mkMessage (mkBaseLayer (header_bytes m) payload) (mOperation m)
        (RemoteAddress m) (RemoteLUN m) (Checksum1 m) (LocalAddress m)
        (LocalLUN m) (Sequence m) (mCompletionCode m) (Checksum2 m), df),
     Return tt).
Proof.
  destruct m as [bl [f body ent cmd] ra rl c1 la ll sq cc c2].
  unfold consistent, wire, header_bytes.
  cbn [mBaseLayer mOperation RemoteAddress RemoteLUN Checksum1 LocalAddress
       LocalLUN Sequence mCompletionCode Checksum2 Function Body Enterprise
       Command].
  intros (Hra & Hf & Hrl & Hla & Hsq & Hll & Hcmd & Hcc & Hbody & Hent
          & Hreq0 & Hnb & Hne) Hc1 Hc2.
  set (o := mkOperation f body ent cmd) in *.
  remember (if IsRequest f then [] else [uint8 cc]) as ccpart eqn:Hccpart in *.
  remember (special_bytes o) as special eqn:Hspecial in *.
  remember (uint8 ra) as h0 eqn:Hh0 in *.
  remember (Z.lor (shl8 (uint8 f) 2) (uint8 rl)) as h1 eqn:Hh1 in *.
  remember (uint8 la) as h3 eqn:Hh3 in *.
  remember (Z.lor (shl8 (uint8 sq) 2) (uint8 ll)) as h4 eqn:Hh4 in *.
  remember (uint8 cmd) as h5 eqn:Hh5 in *.
  change (take 2 ([h0; h1; c1; h3; h4; h5] ++ ccpart ++ special))
    with [h0; h1] in Hc1.
  change (drop 3 ([h0; h1; c1; h3; h4; h5] ++ ccpart ++ special))
    with ([h3; h4; h5] ++ ccpart ++ special) in Hc2.
  replace (([h0; h1; c1; h3; h4; h5] ++ ccpart ++ special)
           ++ payload ++ [c2])
    with (h0 :: h1 :: c1 :: h3 :: h4 :: h5
          :: (ccpart ++ special ++ payload) ++ [c2]).
  2:{ cbn [app]. rewrite <- !app_assoc. reflexivity. }
  rewrite DecodeFromBytes_eval. cbv zeta.
  assert (H1 : uint8 c1 = checksum [h0; h1]).
  { rewrite Hc1. apply uint8_small, checksum_range. }
  rewrite H1, Z.eqb_refl. cbn [negb].
  assert (H2 : uint8 c2
               = checksum (h3 :: h4 :: h5 :: ccpart ++ special ++ payload)).
  { rewrite Hc2, uint8_small by apply checksum_range.
    cbn [app]. rewrite <- !app_assoc. reflexivity. }
  rewrite H2, Z.eqb_refl. cbn [negb].
  rewrite pack6_2 in Hh1, Hh4 by assumption.
  assert (Hfun : uint8 (Z.shiftr h1 2) = f)
    by (rewrite Hh1; apply unpack6; assumption).
  rewrite Hfun.
  assert (Hrl' : uint8 (Z.land h1 0x3) = rl)
    by (rewrite Hh1; apply unpack2; assumption).
  assert (Hsq' : uint8 (Z.shiftr h4 2) = sq)
    by (rewrite Hh4; apply unpack6; assumption).
  assert (Hll' : uint8 (Z.land h4 0x3) = ll)
    by (rewrite Hh4; apply unpack2; assumption).
  assert (Hra' : uint8 h0 = ra)
    by (rewrite Hh0, uint8_idemp; apply uint8_small; assumption).
  assert (Hla' : uint8 h3 = la)
    by (rewrite Hh3, uint8_idemp; apply uint8_small; assumption).
  assert (Hcmd' : uint8 h5 = cmd)
    by (rewrite Hh5, uint8_idemp; apply uint8_small; assumption).
  assert (Hc1' : uint8 c1 = c1)
    by (rewrite Hc1; apply uint8_small, checksum_range).
  assert (Hc2' : uint8 c2 = c2)
    by (rewrite Hc2; apply uint8_small, checksum_range).
  clear H1 H2 Hc1 Hc2 Hh0 Hh1 Hh3 Hh4 Hh5.
  destruct (IsRequest f) eqn:Hreq; subst ccpart special.
  - rewrite decodeRequest_eval.
    change (h0 :: h1 :: c1 :: h3 :: h4 :: h5
            :: ([] ++ special_bytes o ++ payload) ++ [c2])
      with ([h0; h1; c1; h3; h4; h5] ++ (special_bytes o ++ payload) ++ [c2]).
    change 6 with (len [h0; h1; c1; h3; h4; h5]).
    rewrite (decodeDataHeader_wire _ _ _ o)
      by first [exact Hfun | assumption].
    destruct m0 as [bl0 [f0 b0 e0 n0] ? ? ? ? ? ? ? ?].
    lazy beta iota zeta delta
      [header1 header2 set_Payload set_Contents set_Enterprise set_Body
       set_CompletionCode set_Checksum2 set_Command set_LocalLUN set_Sequence
       set_LocalAddress set_Checksum1 set_RemoteLUN set_Function
       set_RemoteAddress mBaseLayer mOperation RemoteAddress RemoteLUN
       Checksum1 LocalAddress LocalLUN Sequence mCompletionCode Checksum2
       Function Body Enterprise Command Contents Payload].
    rewrite Hfun, Hrl', Hsq', Hll', Hra', Hla', Hcmd', Hc1', Hc2'.
    rewrite (Hreq0 eq_refl). reflexivity.
  - rewrite (decodeResponse_eval _ (uint8 cc)) by reflexivity.
    change (h0 :: h1 :: c1 :: h3 :: h4 :: h5
            :: ([uint8 cc] ++ special_bytes o ++ payload) ++ [c2])
      with ([h0; h1; c1; h3; h4; h5; uint8 cc]
            ++ (special_bytes o ++ payload) ++ [c2]).
    change 7 with (len [h0; h1; c1; h3; h4; h5; uint8 cc]).
    rewrite (decodeDataHeader_wire _ _ _ o)
      by first [exact Hfun | assumption].
    destruct m0 as [bl0 [f0 b0 e0 n0] ? ? ? ? ? ? ? ?].
    lazy beta iota zeta delta
      [header1 header2 set_Payload set_Contents set_Enterprise set_Body
       set_CompletionCode set_Checksum2 set_Command set_LocalLUN set_Sequence
       set_LocalAddress set_Checksum1 set_RemoteLUN set_Function
       set_RemoteAddress mBaseLayer mOperation RemoteAddress RemoteLUN
       Checksum1 LocalAddress LocalLUN Sequence mCompletionCode Checksum2
       Function Body Enterprise Command Contents Payload].
    rewrite Hfun, Hrl', Hsq', Hll', Hra', Hla', Hcmd', Hc1', Hc2'.
    rewrite uint8_idemp, (uint8_small cc) by assumption. reflexivity.
Qed.

Lemma wire_span1 (m : Message) (payload : list Z) :
  subslice (wire m payload) 0 2 = take 2 (header_bytes m).
Proof. reflexivity. Qed.

Lemma wire_span2 (m : Message) (payload : list Z) :
  subslice (wire m payload) 3 (len (wire m payload) - 1)
  = drop 3 (header_bytes m) ++ payload.
Proof.
  apply (subslice_split (take 3 (header_bytes m)) _ [Checksum2 m]).
  - unfold wire. rewrite <- app_assoc, (app_assoc (take 3 _)), take_drop.
    reflexivity.
  - reflexivity.
  - reflexivity.
Qed.

Lemma wire_lookup_2 (m : Message) (payload : list Z) :
  wire m payload !! 2%nat = Some (Checksum1 m).
Proof. reflexivity. Qed.

Lemma wire_last (m : Message) (payload : list Z) :
  List.last (wire m payload) 0 = Checksum2 m.
Proof. unfold wire. rewrite app_assoc. apply List.last_last. Qed.

Lemma header_bytes_length (m : Message) :
  len (header_bytes m) = serializeLength m.
Proof.
  unfold header_bytes, special_bytes, serializeLength.
  destruct (IsRequest (Function (mOperation m))),
    (is_Group (Function (mOperation m))),
    (is_OEM (Function (mOperation m))); reflexivity.
Qed.

Lemma fix_checksums_fields (payload : list Z) (m : Message) :
  let m' := fix_checksums payload m in
  header_bytes m' = header_bytes (set_Checksum1 (Checksum1 m') m)
  /\ Checksum1 m' = checksum (take 2 (header_bytes m'))
  /\ Checksum2 m' = checksum (drop 3 (header_bytes m') ++ payload)
  /\ m' = set_Checksum2 (Checksum2 m') (set_Checksum1 (Checksum1 m') m).
Proof. destruct m as [bl [f body ent cmd] ? ? ? ? ? ? ? ?]. repeat split. Qed.

(** ** Checksum fields and serialization *)

(** C9. With checksum computation enabled, serialization succeeds and
    leaves the message with Checksum1 and Checksum2 replaced by the
    checksums of bytes 0..1 and of bytes 3..len-2 of what it wrote, and
    those are the bytes at offset 2 and at the end. With it disabled,
    serialization succeeds, leaves the message as it was, and writes the
    message's own Checksum1 and Checksum2 at offset 2 and at the end,
    whatever their values. *)
Theorem serialize_checksum_fields (m : Message) (b : SerializeBuffer)
    (fl : bool) :
  (exists b',
      let c1 := checksum (subslice (Bytes b') 0 2) in
      let c2 := checksum (subslice (Bytes b') 3 (len (Bytes b') - 1)) in
      SerializeTo (mkSerializeOptions fl true) (m, b)
      = ((set_Checksum2 c2 (set_Checksum1 c1 m), b'), Return tt)
      /\ Bytes b' !! 2%nat = Some c1
      /\ List.last (Bytes b') 0 = c2)
  /\ (exists b',
         SerializeTo (mkSerializeOptions fl false) (m, b) = ((m, b'), Return tt)
         /\ Bytes b' !! 2%nat = Some (Checksum1 m)
         /\ List.last (Bytes b') 0 = Checksum2 m).
Proof.
  split.
  - destruct (fix_checksums_fields (Bytes b) m) as (_ & H1 & H2 & Hm).
    cbv zeta in H1, H2, Hm.
    exists (mkSerializeBuffer
              (take (length (front b) - Z.to_nat (serializeLength m)) (front b))
              (wire (fix_checksums (Bytes b) m) (Bytes b)) (drop 1 (back b))).
    cbv zeta. cbn [Bytes].
    rewrite wire_span1, wire_span2, <- H1, <- H2, <- Hm.
    split; [apply SerializeTo_eval|].
    split; [apply wire_lookup_2|apply wire_last].
  - exists (mkSerializeBuffer
              (take (length (front b) - Z.to_nat (serializeLength m)) (front b))
              (wire m (Bytes b)) (drop 1 (back b))).
    cbn [Bytes].
    split; [apply SerializeTo_eval|].
    split; [apply wire_lookup_2|apply wire_last].
Qed.

(** ** Round trip *)

(** C1. For every consistent message (request or response; normal, Group
    or OEM function), every payload already in the buffer and whatever
    stale bytes the buffer holds: serializing with checksum computation
    enabled succeeds and only replaces the two checksum fields; decoding
    the bytes produced, into any message, succeeds without the truncated
    flag and yields the original's Operation, addresses, LUNs, sequence
    number and completion code, the payload as [Payload], the header as
    [Contents], and the two checksums, which are those of the spans
    they cover. *)
Theorem serialize_decode_roundtrip (m m0 : Message) (b : SerializeBuffer)
    (fl : bool) (df : DecodeFeedback) :
  consistent m ->
  exists c1 c2 b',
    SerializeTo (mkSerializeOptions fl true) (m, b)
    = ((set_Checksum2 c2 (set_Checksum1 c1 m), b'), Return tt)
    /\ c1 = checksum (subslice (Bytes b') 0 2)
    /\ c2 = checksum (subslice (Bytes b') 3 (len (Bytes b') - 1))
    /\ DecodeFromBytes (Bytes b') (m0, df)
       = ((mkMessage
             (mkBaseLayer (subslice (Bytes b') 0 (serializeLength m)) (Bytes b))
             (mOperation m) (RemoteAddress m) (RemoteLUN m) c1
             (LocalAddress m) (LocalLUN m) (Sequence m) (mCompletionCode m)
             c2, df),
          Return tt).
Proof.
  intros Hm.
  destruct (fix_checksums_fields (Bytes b) m) as (Hh & H1 & H2 & Hfix).
  cbv zeta in Hh, H1, H2, Hfix.
  set (m' := fix_checksums (Bytes b) m) in *.
  exists (Checksum1 m'), (Checksum2 m'),
    (mkSerializeBuffer
       (take (length (front b) - Z.to_nat (serializeLength m)) (front b))
       (wire m' (Bytes b)) (drop 1 (back b))).
  cbn [Bytes].
  split; [rewrite <- Hfix; apply SerializeTo_eval|].
  split; [rewrite wire_span1; exact H1|].
  split; [rewrite wire_span2; exact H2|].
  assert (Hm' : consistent m').
  { rewrite Hfix. destruct m as [bl [f body ent cmd] ? ? ? ? ? ? ? ?].
    exact Hm. }
  rewrite (decode_wire m' m0 (Bytes b) df Hm' H1 H2).
  replace (subslice (wire m' (Bytes b)) 0 (serializeLength m))
    with (header_bytes m').
  2:{ symmetry. apply (subslice_head _ (Bytes b ++ [Checksum2 m'])).
      - reflexivity.
      - rewrite header_bytes_length. rewrite Hfix.
        destruct m as [bl [f body ent cmd] ? ? ? ? ? ? ? ?]. reflexivity. }
  rewrite Hfix at 2 3 4 5 6 7 8.
  destruct m as [bl [f body ent cmd] ? ? ? ? ? ? ? ?]. reflexivity.
Qed.

(** ** The next layer *)

(** C6. A message whose completion code is not the normal one has the
    opaque payload as next layer, whatever its operation; with the normal
    completion code the next layer is the operation's entry in
    [operationLayerTypes], and the opaque payload when it has none. *)
Theorem NextLayerType_spec (m : Message) :
  (mCompletionCode m <> CompletionCodeNormal ->
   NextLayerType m = LayerTypePayload)
  /\ (mCompletionCode m = CompletionCodeNormal ->
      (forall layer,
          operationLayerTypes !! mOperation m = Some layer ->
          NextLayerType m = layer)
      /\ (operationLayerTypes !! mOperation m = None ->
          NextLayerType m = LayerTypePayload)).
Proof.
  unfold NextLayerType, Operation_NextLayerType. split.
  - intros Hcc. rewrite (proj2 (Z.eqb_neq _ _) Hcc). reflexivity.
  - intros Hcc. rewrite (proj2 (Z.eqb_eq _ _) Hcc). cbn [negb].
    split.
    + intros layer Hl. rewrite Hl. reflexivity.
    + intros Hl. rewrite Hl. reflexivity.
Qed.

(** ** The decoder and the wire format *)

(** [decodeDataHeader] at the end of the prefix [pre] of a message whose
    last byte is [c]. *)
Lemma decodeDataHeader_split (pre region : list Z) (c : Z) (m : Message)
    (df : DecodeFeedback) :
  decodeDataHeader (pre ++ region ++ [c]) (len pre) (m, df) =
    let m0 := set_Enterprise 0 (set_Body 0 m) in
    if is_Group (Function (mOperation m)) then
      match region with
      | [] => ((m0, true), Error ErrBodyCode)
      | b :: payload =>
          ((set_Payload payload
              (set_Contents (pre ++ [b]) (set_Body (uint8 b) m0)), df),
           Return tt)
      end
    else if is_OEM (Function (mOperation m)) then
      match region with
      | e0 :: e1 :: e2 :: payload =>
          ((set_Payload payload
              (set_Contents (pre ++ [e0; e1; e2])
                 (set_Enterprise
                    (Z.lor (Z.lor (uint32 e0) (shl32 (uint32 e1) 8))
                           (shl32 (uint32 e2) 16)) m0)), df),
           Return tt)
      | _ => ((m0, true), Error ErrOEMEN)
      end
    else ((set_Payload region (set_Contents pre m0), df), Return tt).
Proof.
  pose proof (len_nonneg pre) as Hpre.
  pose proof (len_nonneg region) as Hreg.
  set (data := pre ++ region ++ [c]).
  assert (Hlen : len data = len pre + len region + 1).
  { unfold data. rewrite !len_app, len_cons, len_nil. lia. }
  rewrite decodeDataHeader_eval by lia.
  rewrite (subslice_split pre region [c] data)
    by (reflexivity || (rewrite len_cons, len_nil; lia)).
  assert (Hc : forall sp rest n, region = sp ++ rest -> n = len sp ->
             subslice data 0 (len pre + n) = pre ++ sp).
  { intros sp rest n -> ->.
    apply (subslice_head (pre ++ sp) (rest ++ [c])).
    - unfold data. rewrite <- !app_assoc. reflexivity.
    - rewrite len_app. reflexivity. }
  assert (Hp : forall sp rest n, region = sp ++ rest -> n = len sp ->
             subslice data (len pre + n) (len data - 1) = rest).
  { intros sp rest n -> ->.
    apply (subslice_split (pre ++ sp) rest [c]).
    - unfold data. rewrite <- !app_assoc. reflexivity.
    - rewrite len_app. reflexivity.
    - rewrite len_cons, len_nil. lia. }
  clearbody data. unfold special_result. cbv zeta.
  destruct (is_Group (Function (mOperation m))).
  - destruct region as [|b payload]; [reflexivity|].
    rewrite (Hc [b] payload 1 eq_refl eq_refl),
      (Hp [b] payload 1 eq_refl eq_refl).
    reflexivity.
  - destruct (is_OEM (Function (mOperation m))).
    + destruct region as [|e0 [|e1 [|e2 payload]]]; try reflexivity.
      rewrite (Hc [e0; e1; e2] payload 3 eq_refl eq_refl),
        (Hp [e0; e1; e2] payload 3 eq_refl eq_refl).
      reflexivity.
    + rewrite (Hc [] region 0 eq_refl eq_refl),
        (Hp [] region 0 eq_refl eq_refl).
      rewrite app_nil_r. reflexivity.
Qed.

Ltac msg_compute :=
  lazy beta iota zeta delta
    [header1 header2 set_Payload set_Contents set_Enterprise set_Body
     set_CompletionCode set_Checksum2 set_Command set_LocalLUN set_Sequence
     set_LocalAddress set_Checksum1 set_RemoteLUN set_Function
     set_RemoteAddress mBaseLayer mOperation RemoteAddress RemoteLUN
     Checksum1 LocalAddress LocalLUN Sequence mCompletionCode Checksum2
     Function Body Enterprise Command Contents Payload].

Lemma header_Function (d0 d1 d2 d3 d4 d5 l : Z) (cc : CompletionCode)
    (m : Message) :
  Function (mOperation (set_CompletionCode cc
                          (header2 d3 d4 d5 l (header1 d0 d1 d2 m))))
  = uint8 (Z.shiftr d1 2).
Proof. reflexivity. Qed.

(** Every well-formed message decodes, into any message, to its content. *)
Lemma parses_complete (data : list Z) (m' : Message) :
  parses data m' ->
  forall (m : Message) (df : DecodeFeedback),
    DecodeFromBytes data (m, df) = ((m', df), Return tt).
Proof.
  intros Hp m df.
  destruct Hp as [d0 d1 d2 d3 d4 d5 l sp payload body ent H1 H2 Hreq Hsp
                 |d0 d1 d2 d3 d4 d5 c l sp payload body ent H1 H2 Hreq Hsp].
  - rewrite DecodeFromBytes_eval. cbv zeta.
    rewrite (proj2 (Z.eqb_eq _ _) H1), (proj2 (Z.eqb_eq _ _) H2), Hreq.
    cbn [negb].
    rewrite decodeRequest_eval.
    change (d0 :: d1 :: d2 :: d3 :: d4 :: d5 :: (sp ++ payload) ++ [l])
      with ([d0; d1; d2; d3; d4; d5] ++ (sp ++ payload) ++ [l]).
    change 6 with (len [d0; d1; d2; d3; d4; d5]).
    rewrite decodeDataHeader_split. cbv zeta. rewrite header_Function.
    destruct m as [bl [f0 b0 e0 n0] ? ? ? ? ? ? ? ?].
    destruct Hsp as [b Hg|e0' e1' e2' Hg Ho|Hg Ho]; rewrite Hg, ?Ho;
      cbn [app]; msg_compute; reflexivity.
  - rewrite (DecodeFromBytes_eval d0 d1 d2 d3 d4 d5 l (c :: sp ++ payload)).
    cbv zeta.
    rewrite (proj2 (Z.eqb_eq _ _) H1), (proj2 (Z.eqb_eq _ _) H2), Hreq.
    cbn [negb].
    rewrite (decodeResponse_eval _ c) by reflexivity.
    change (d0 :: d1 :: d2 :: d3 :: d4 :: d5 :: (c :: sp ++ payload) ++ [l])
      with ([d0; d1; d2; d3; d4; d5; c] ++ (sp ++ payload) ++ [l]).
    change 7 with (len [d0; d1; d2; d3; d4; d5; c]).
    rewrite decodeDataHeader_split. cbv zeta. rewrite header_Function.
    destruct m as [bl [f0 b0 e0 n0] ? ? ? ? ? ? ? ?].
    destruct Hsp as [b Hg|e0' e1' e2' Hg Ho|Hg Ho]; rewrite Hg, ?Ho;
      cbn [app]; msg_compute; reflexivity.
Qed.

(** The outcome of [decodeDataHeader] on a region, read as a special
    part followed by the payload. *)
Lemma decodeDataHeader_inv (pre region : list Z) (c : Z) (m m' : Message)
    (df df' : DecodeFeedback) :
  decodeDataHeader (pre ++ region ++ [c]) (len pre) (m, df)
  = ((m', df'), Return tt) ->
  df' = df
  /\ exists sp payload body ent,
      region = sp ++ payload
      /\ special_part (Function (mOperation m)) sp body ent
      /\ m' = set_Payload payload
                (set_Contents (pre ++ sp)
                   (set_Enterprise ent (set_Body body m))).
Proof.
  rewrite decodeDataHeader_split. cbv zeta.
  destruct (is_Group (Function (mOperation m))) eqn:Hg.
  - destruct region as [|b payload]; [discriminate|].
    intros [= <- <-]. split; [reflexivity|].
    exists [b], payload, (uint8 b), 0.
    split; [reflexivity|]. split; [apply special_group; exact Hg|].
    destruct m as [bl [f0 b0 e0 n0] ? ? ? ? ? ? ? ?]. reflexivity.
  - destruct (is_OEM (Function (mOperation m))) eqn:Ho.
    + destruct region as [|e0 [|e1 [|e2 payload]]]; try discriminate.
      intros [= <- <-]. split; [reflexivity|].
      exists [e0; e1; e2], payload, 0. eexists.
      split; [reflexivity|].
      split; [apply special_oem; assumption|].
      destruct m as [bl [f0 b0 e0' n0] ? ? ? ? ? ? ? ?]. reflexivity.
    + intros [= <- <-]. split; [reflexivity|].
      exists [], region, 0, 0.
      split; [reflexivity|]. split; [apply special_none; assumption|].
      rewrite app_nil_r.
      destruct m as [bl [f0 b0 e0 n0] ? ? ? ? ? ? ? ?]. reflexivity.
Qed.

(** Whatever decodes successfully is a well-formed message, and the
    result is its content. *)
Lemma parses_sound (data : list Z) (m m' : Message) (df df' : DecodeFeedback) :
  DecodeFromBytes data (m, df) = ((m', df'), Return tt) ->
  parses data m' /\ df' = df.
Proof.
  intros Hdec.
  destruct (Nat.lt_ge_cases (length data) 7) as [Hshort|Hlong].
  { rewrite DecodeFromBytes_short in Hdec by assumption. discriminate. }
  destruct (long_shape data Hlong)
    as (d0 & d1 & d2 & d3 & d4 & d5 & mid & l & ->).
  rewrite DecodeFromBytes_eval in Hdec. cbv zeta in Hdec.
  destruct (uint8 d2 =? checksum [d0; d1]) eqn:H1; [|discriminate].
  destruct (uint8 l =? checksum (d3 :: d4 :: d5 :: mid)) eqn:H2;
    [|discriminate].
  cbn [negb] in Hdec.
  apply Z.eqb_eq in H1. apply Z.eqb_eq in H2.
  destruct (IsRequest (uint8 (Z.shiftr d1 2))) eqn:Hreq.
  - rewrite decodeRequest_eval in Hdec.
    change (d0 :: d1 :: d2 :: d3 :: d4 :: d5 :: mid ++ [l])
      with ([d0; d1; d2; d3; d4; d5] ++ mid ++ [l]) in Hdec.
    change 6 with (len [d0; d1; d2; d3; d4; d5]) in Hdec.
    apply decodeDataHeader_inv in Hdec.
    destruct Hdec as (-> & sp & payload & body & ent & -> & Hsp & ->).
    rewrite header_Function in Hsp.
    split; [|reflexivity].
    destruct m as [bl [f0 b0 e0 n0] ? ? ? ? ? ? ? ?].
    exact (parses_request d0 d1 d2 d3 d4 d5 l sp payload body ent
             H1 H2 Hreq Hsp).
  - destruct mid as [|c mid].
    { rewrite (decodeResponse_eval _ l) in Hdec by reflexivity.
      rewrite decodeDataHeader_7_of_7 in Hdec by reflexivity.
      discriminate. }
    rewrite (decodeResponse_eval _ c) in Hdec by reflexivity.
    change (d0 :: d1 :: d2 :: d3 :: d4 :: d5 :: (c :: mid) ++ [l])
      with ([d0; d1; d2; d3; d4; d5; c] ++ mid ++ [l]) in Hdec.
    change 7 with (len [d0; d1; d2; d3; d4; d5; c]) in Hdec.
    apply decodeDataHeader_inv in Hdec.
    destruct Hdec as (-> & sp & payload & body & ent & -> & Hsp & ->).
    rewrite header_Function in Hsp.
    split; [|reflexivity].
    destruct m as [bl [f0 b0 e0 n0] ? ? ? ? ? ? ? ?].
    exact (parses_response d0 d1 d2 d3 d4 d5 c l sp payload body ent
             H1 H2 Hreq Hsp).
Qed.

(** ** What a successful decode guarantees *)

(** X1. A successful decode does not depend on the message decoded into:
    decoding the same bytes into any other message, with any feedback
    state, succeeds with the same result and leaves the feedback alone. *)
Theorem decode_result_independent_of_receiver (data : list Z)
    (m1 m' : Message) (df1 df' : DecodeFeedback) :
  DecodeFromBytes data (m1, df1) = ((m', df'), Return tt) ->
  df' = df1
  /\ forall (m2 : Message) (df2 : DecodeFeedback),
      DecodeFromBytes data (m2, df2) = ((m', df2), Return tt).
Proof.
  intros Hdec. apply parses_sound in Hdec. destruct Hdec as [Hp ->].
  split; [reflexivity|]. intros m2 df2. apply parses_complete. exact Hp.
Qed.

Lemma parses_layout (data : list Z) (m' : Message) :
  parses data m' ->
  Contents (mBaseLayer m') ++ Payload (mBaseLayer m') ++ [List.last data 0]
  = data
  /\ Checksum1 m' = uint8 (nth 2 data 0)
  /\ Checksum1 m' = checksum (take 2 data)
  /\ Checksum2 m' = uint8 (List.last data 0)
  /\ Checksum2 m'
     = checksum (drop 3 (Contents (mBaseLayer m')) ++ Payload (mBaseLayer m')).
Proof.
  intros Hp.
  destruct Hp as [d0 d1 d2 d3 d4 d5 l sp payload body ent H1 H2 Hreq Hsp
                 |d0 d1 d2 d3 d4 d5 c l sp payload body ent H1 H2 Hreq Hsp].
  - cbn [mBaseLayer Contents Payload Checksum1 Checksum2].
    assert (Hlast : List.last
                      (d0 :: d1 :: d2 :: d3 :: d4 :: d5 :: (sp ++ payload) ++ [l])
                      0 = l).
    { change (d0 :: d1 :: d2 :: d3 :: d4 :: d5 :: (sp ++ payload) ++ [l])
        with ((d0 :: d1 :: d2 :: d3 :: d4 :: d5 :: sp ++ payload) ++ [l]).
      apply List.last_last. }
    rewrite Hlast. split.
    { cbn [app]. rewrite <- !app_assoc. reflexivity. }
    split; [reflexivity|]. split; [exact H1|]. split; [reflexivity|].
    exact H2.
  - cbn [mBaseLayer Contents Payload Checksum1 Checksum2].
    assert (Hlast : List.last
                      (d0 :: d1 :: d2 :: d3 :: d4 :: d5 :: c
                       :: (sp ++ payload) ++ [l]) 0 = l).
    { change (d0 :: d1 :: d2 :: d3 :: d4 :: d5 :: c :: (sp ++ payload) ++ [l])
        with ((d0 :: d1 :: d2 :: d3 :: d4 :: d5 :: c :: sp ++ payload) ++ [l]).
      apply List.last_last. }
    rewrite Hlast. split.
    { cbn [app]. rewrite <- !app_assoc. reflexivity. }
    split; [reflexivity|]. split; [exact H1|]. split; [reflexivity|].
    exact H2.
Qed.

(** X2. After a successful decode, [Contents], [Payload] and the last
    byte partition the input in this order, and the two checksum fields
    hold the bytes found at offset 2 and at the end, which equal the
    checksums of bytes 0..1 and of everything between offset 3 and the
    last byte. *)
Theorem decode_partitions_input (data : list Z) (m m' : Message)
    (df df' : DecodeFeedback) :
  DecodeFromBytes data (m, df) = ((m', df'), Return tt) ->
  Contents (mBaseLayer m') ++ Payload (mBaseLayer m') ++ [List.last data 0]
  = data
  /\ Checksum1 m' = uint8 (nth 2 data 0)
  /\ Checksum1 m' = checksum (take 2 data)
  /\ Checksum2 m' = uint8 (List.last data 0)
  /\ Checksum2 m'
     = checksum (drop 3 (Contents (mBaseLayer m')) ++ Payload (mBaseLayer m')).
Proof.
  intros Hdec. apply parses_sound in Hdec. destruct Hdec as [Hp _].
  apply parses_layout. exact Hp.
Qed.

Lemma special_part_length (f : NetworkFunction) (sp : list Z)
    (body : BodyCode) (ent : iana_Enterprise) :
  special_part f sp body ent ->
  len sp = (if is_Group f then 1 else if is_OEM f then 3 else 0).
Proof. intros [b Hg|e0 e1 e2 Hg Ho|Hg Ho]; rewrite Hg, ?Ho; reflexivity. Qed.

(** X3. The decoder and the encoder agree on the header length: after a
    successful decode, [Contents] has exactly [serializeLength] bytes for
    the decoded message, and the input has that many bytes, plus the
    payload, plus one. *)
Theorem decode_header_length (data : list Z) (m m' : Message)
    (df df' : DecodeFeedback) :
  DecodeFromBytes data (m, df) = ((m', df'), Return tt) ->
  len (Contents (mBaseLayer m')) = serializeLength m'
  /\ len data = serializeLength m' + len (Payload (mBaseLayer m')) + 1.
Proof.
  intros Hdec. apply parses_sound in Hdec. destruct Hdec as [Hp _].
  assert (Hc : len (Contents (mBaseLayer m')) = serializeLength m').
  { destruct Hp as [d0 d1 d2 d3 d4 d5 l sp payload body ent H1 H2 Hreq Hsp
                   |d0 d1 d2 d3 d4 d5 c l sp payload body ent H1 H2 Hreq Hsp];
      unfold serializeLength;
      cbn [mBaseLayer Contents mOperation Function];
      rewrite Hreq; cbn [negb];
      rewrite len_app, (special_part_length _ _ _ _ Hsp);
      destruct (is_Group (uint8 (Z.shiftr d1 2)));
      try destruct (is_OEM (uint8 (Z.shiftr d1 2))); reflexivity. }
  split; [exact Hc|].
  rewrite <- Hc.
  destruct (parses_layout data m' Hp) as (Hdata & _).
  rewrite <- Hdata at 1. rewrite !len_app, len_cons, len_nil. lia.
Qed.

Lemma byte_repack (d : Z) :
  0 <= d < 256 ->
  Z.lor (shl8 (uint8 (uint8 (Z.shiftr d 2))) 2) (uint8 (uint8 (Z.land d 0x3)))
  = d.
Proof.
  intros Hd.
  rewrite Z.shiftr_div_pow2 by lia. change 0x3 with (Z.ones 2).
  rewrite Z.land_ones by lia. change (2 ^ 2) with 4.
  assert (H1 : 0 <= d / 4 < 64) by (Z.div_mod_to_equations; lia).
  assert (H2 : 0 <= d mod 4 < 4) by (Z.div_mod_to_equations; lia).
  rewrite !uint8_idemp.
  rewrite pack6_2 by assumption.
  Z.div_mod_to_equations. lia.
Qed.

Lemma byte_fields_range (d : Z) :
  0 <= d < 256 ->
  0 <= uint8 (Z.shiftr d 2) < 64 /\ 0 <= uint8 (Z.land d 0x3) < 4.
Proof.
  intros Hd.
  rewrite Z.shiftr_div_pow2 by lia. change 0x3 with (Z.ones 2).
  rewrite Z.land_ones by lia. change (2 ^ 2) with 4.
  rewrite !uint8_small by (Z.div_mod_to_equations; lia).
  Z.div_mod_to_equations. lia.
Qed.

Lemma enterprise_unpack (e0 e1 e2 : Z) :
  0 <= e0 < 256 -> 0 <= e1 < 256 -> 0 <= e2 < 256 ->
  let en := Z.lor (Z.lor (uint32 e0) (shl32 (uint32 e1) 8))
                  (shl32 (uint32 e2) 16) in
  0 <= en < 2 ^ 24
  /\ uint8 (uint32 en) = e0
  /\ uint8 (Z.shiftr (uint32 en) 8) = e1
  /\ uint8 (Z.shiftr (uint32 en) 16) = e2.
Proof.
  intros H0 H1 H2 en. unfold en.
  rewrite enterprise_little_endian by assumption.
  assert (Hr : 0 <= e0 + 256 * e1 + 65536 * e2 < 2 ^ 24) by lia.
  split; [exact Hr|].
  rewrite uint32_small by lia.
  rewrite !Z.shiftr_div_pow2 by lia. unfold uint8.
  change (2 ^ 8) with 256. change (2 ^ 16) with 65536.
  repeat split; Z.div_mod_to_equations; lia.
Qed.

Ltac split_bytes :=
  unfold is_bytes in *;
  repeat match goal with
         | H : Forall _ (_ :: _) |- _ =>
             let H1 := fresh "Hb" in
             apply Forall_cons_1 in H; destruct H as [H1 H]
         | H : Forall _ (_ ++ _) |- _ =>
             let H1 := fresh "Hb" in
             apply Forall_app in H; destruct H as [H1 H]
         end.

Ltac msg_fields :=
  cbn [mBaseLayer mOperation RemoteAddress RemoteLUN Checksum1 LocalAddress
       LocalLUN Sequence mCompletionCode Checksum2 Function Body Enterprise
       Command Contents Payload].

(** The content of a well-formed message of bytes, written back: [ccl]
    is the completion-code byte of a response, or nothing. *)
Lemma reserialize_fields (d0 d1 d2 d3 d4 d5 l : Z) (ccl sp payload : list Z)
    (cc : CompletionCode) (body : BodyCode) (ent : iana_Enterprise) :
  is_bytes (d0 :: d1 :: d2 :: d3 :: d4 :: d5 :: ccl ++ sp ++ [l]) ->
  uint8 d2 = checksum [d0; d1] ->
  uint8 l = checksum (d3 :: d4 :: d5 :: ccl ++ sp ++ payload) ->
  special_part (uint8 (Z.shiftr d1 2)) sp body ent ->
  (IsRequest (uint8 (Z.shiftr d1 2)) = true /\ ccl = [] /\ cc = 0
   \/ IsRequest (uint8 (Z.shiftr d1 2)) = false
      /\ exists c, ccl = [c] /\ cc = uint8 c) ->
  let m' :=
    mkMessage (mkBaseLayer ([d0; d1; d2; d3; d4; d5] ++ ccl ++ sp) payload)
      (mkOperation (uint8 (Z.shiftr d1 2)) body ent (uint8 d5))
      (uint8 d0) (uint8 (Z.land d1 0x3)) (uint8 d2) (uint8 d3)
      (uint8 (Z.land d4 0x3)) (uint8 (Z.shiftr d4 2)) cc (uint8 l) in
  consistent m'
  /\ header_bytes m' = [d0; d1; d2; d3; d4; d5] ++ ccl ++ sp
  /\ fix_checksums payload m' = m'
  /\ wire m' payload = [d0; d1; d2; d3; d4; d5] ++ ccl ++ sp ++ payload ++ [l].
Proof.
  intros Hb H1 H2 Hsp Hcc m'.
  split_bytes.
  destruct (byte_fields_range d1) as [Hf1 Hl1]; [assumption|].
  destruct (byte_fields_range d4) as [Hf4 Hl4]; [assumption|].
  assert (Hl : uint8 l = l) by (apply uint8_small; assumption).
  assert (Hccl : (if IsRequest (uint8 (Z.shiftr d1 2)) then []
                  else [uint8 cc]) = ccl /\ 0 <= cc < 256
                 /\ (IsRequest (uint8 (Z.shiftr d1 2)) = true -> cc = 0)).
  { destruct Hcc as [(-> & -> & ->)|(-> & c & -> & ->)].
    - repeat split; first [lia | congruence | intros [?|?]; congruence | intros; lia].
    - split_bytes. rewrite uint8_idemp, (uint8_small c) by assumption.
      repeat split; first [lia | congruence | intros [?|?]; congruence | intros; lia]. }
  destruct Hccl as (Hccl & Hccr & Hcc0).
  assert (Hspb : special_bytes
                   (mkOperation (uint8 (Z.shiftr d1 2)) body ent (uint8 d5))
                 = sp
                 /\ 0 <= body < 256 /\ 0 <= ent < 2 ^ 24
                 /\ (is_Group (uint8 (Z.shiftr d1 2)) = false -> body = 0)
                 /\ (is_Group (uint8 (Z.shiftr d1 2)) = true
                     \/ is_OEM (uint8 (Z.shiftr d1 2)) = false -> ent = 0)).
  { unfold special_bytes. msg_fields.
    destruct Hsp as [b Hg|e0 e1 e2 Hg Ho|Hg Ho]; rewrite Hg, ?Ho.
    - split_bytes. rewrite uint8_idemp, (uint8_small b) by assumption.
      repeat split; first [lia | congruence | intros [?|?]; congruence | intros; lia].
    - split_bytes.
      destruct (enterprise_unpack e0 e1 e2) as (Hr & -> & -> & ->);
        try assumption.
      repeat split; first [lia | congruence | intros [?|?]; congruence | intros; lia].
    - repeat split; first [lia | congruence | intros [?|?]; congruence | intros; lia]. }
  destruct Hspb as (Hspb & Hbr & Her & Hbzero & Hezero).
  assert (Hhdr : forall c1 c2,
             header_bytes
               (mkMessage
                  (mkBaseLayer ([d0; d1; d2; d3; d4; d5] ++ ccl ++ sp) payload)
                  (mkOperation (uint8 (Z.shiftr d1 2)) body ent (uint8 d5))
                  (uint8 d0) (uint8 (Z.land d1 0x3)) c1 (uint8 d3)
                  (uint8 (Z.land d4 0x3)) (uint8 (Z.shiftr d4 2)) cc c2)
             = [d0; d1; c1; d3; d4; d5] ++ ccl ++ sp).
  { intros c1 c2. unfold header_bytes. msg_fields.
    rewrite Hccl, Hspb, !byte_repack, !uint8_idemp by assumption.
    rewrite (uint8_small d0), (uint8_small d3), (uint8_small d5)
      by assumption.
    reflexivity. }
  split.
  { unfold consistent, m'. msg_fields.
    pose proof (uint8_range d0). pose proof (uint8_range d3).
    pose proof (uint8_range d5).
    repeat (split; [first [assumption | apply uint8_range]|]).
    exact Hezero. }
  split.
  { unfold m'. rewrite Hhdr, (uint8_small d2) by assumption. reflexivity. }
  split.
  { unfold m', fix_checksums, set_Checksum1, set_Checksum2. cbv zeta.
    msg_fields. rewrite !Hhdr. cbn [app take drop].
    rewrite <- H1, <- app_assoc, <- H2. reflexivity. }
  unfold wire, m'. msg_fields.
  rewrite Hhdr, Hl, (uint8_small d2) by assumption.
  cbn [app]. rewrite <- !app_assoc. reflexivity.
Qed.

(** A well-formed message of bytes is written back as it was read. *)
Lemma parses_reserialize (data : list Z) (m' : Message) :
  parses data m' -> is_bytes data ->
  consistent m'
  /\ header_bytes m' = Contents (mBaseLayer m')
  /\ fix_checksums (Payload (mBaseLayer m')) m' = m'
  /\ wire m' (Payload (mBaseLayer m')) = data.
Proof.
  intros Hp Hb.
  destruct Hp as [d0 d1 d2 d3 d4 d5 l sp payload body ent H1 H2 Hreq Hsp
                 |d0 d1 d2 d3 d4 d5 c l sp payload body ent H1 H2 Hreq Hsp].
  - assert (Hb' : is_bytes (d0 :: d1 :: d2 :: d3 :: d4 :: d5 :: [] ++ sp ++ [l])).
    { split_bytes. unfold is_bytes. cbn [app].
      repeat (apply Forall_cons_2; [assumption|]).
      apply Forall_app. split; [assumption|].
      apply Forall_cons_2; [assumption|]. apply Forall_nil_2. }
    destruct (reserialize_fields d0 d1 d2 d3 d4 d5 l [] sp payload 0 body ent
                Hb' H1 H2 Hsp (or_introl (conj Hreq (conj eq_refl eq_refl))))
      as (Hc & Hh & Hf & Hw).
    msg_fields. split; [exact Hc|]. split; [exact Hh|]. split; [exact Hf|].
    etransitivity; [exact Hw|].
    cbn [app]. rewrite <- !app_assoc. reflexivity.
  - assert (Hb' : is_bytes (d0 :: d1 :: d2 :: d3 :: d4 :: d5
                            :: [c] ++ sp ++ [l])).
    { split_bytes. unfold is_bytes. cbn [app].
      repeat (apply Forall_cons_2; [assumption|]).
      apply Forall_app. split; [assumption|].
      apply Forall_cons_2; [assumption|]. apply Forall_nil_2. }
    destruct (reserialize_fields d0 d1 d2 d3 d4 d5 l [c] sp payload (uint8 c)
                body ent Hb' H1 H2 Hsp
                (or_intror (conj Hreq (ex_intro _ c (conj eq_refl eq_refl)))))
      as (Hc & Hh & Hf & Hw).
    msg_fields. split; [exact Hc|]. split; [exact Hh|]. split; [exact Hf|].
    etransitivity; [exact Hw|].
    cbn [app]. rewrite <- !app_assoc. reflexivity.
Qed.

(** X4. Decoding and then serializing gives the input back: for an input
    of bytes that decodes successfully, [SerializeTo] of the decoded
    message in front of the decoded payload produces exactly the input,
    whether or not checksums are recomputed, and leaves the message as
    decoded. *)
Theorem decode_serialize_roundtrip (data : list Z) (m m' : Message)
    (df df' : DecodeFeedback) (opts : SerializeOptions) (fr bk : list Z) :
  is_bytes data ->
  DecodeFromBytes data (m, df) = ((m', df'), Return tt) ->
  exists fr' bk',
    SerializeTo opts
      (m', mkSerializeBuffer fr (Payload (mBaseLayer m')) bk)
    = ((m', mkSerializeBuffer fr' data bk'), Return tt).
Proof.
  intros Hb Hdec. apply parses_sound in Hdec. destruct Hdec as [Hp _].
  destruct (parses_reserialize data m' Hp Hb) as (_ & _ & Hfix & Hwire).
  rewrite SerializeTo_eval. cbv zeta. cbn [Bytes front back].
  assert (Hs : serialized opts (Payload (mBaseLayer m')) m' = m').
  { unfold serialized. destruct (ComputeChecksums opts);
      [exact Hfix|reflexivity]. }
  rewrite Hs, Hwire. eexists _, _. reflexivity.
Qed.

(** X5. Every message decoded from bytes is consistent: its fields fit
    their places on the wire, a request has the normal completion code,
    and Body and Enterprise are zero unless the function carries them. *)
Theorem decoded_message_is_consistent (data : list Z) (m m' : Message)
    (df df' : DecodeFeedback) :
  is_bytes data ->
  DecodeFromBytes data (m, df) = ((m', df'), Return tt) ->
  consistent m'.
Proof.
  intros Hb Hdec. apply parses_sound in Hdec. destruct Hdec as [Hp _].
  destruct (parses_reserialize data m' Hp Hb) as (Hc & _). exact Hc.
Qed.

Lemma decodeDataHeader_flag (pre region : list Z) (c : Z) (m : Message)
    (df : DecodeFeedback) :
  let r := decodeDataHeader (pre ++ region ++ [c]) (len pre) (m, df) in
  match r.2 with
  | Error e => r.1.2 = (if is_truncation e then true else df)
  | _ => r.1.2 = df
  end.
Proof.
  cbv zeta. rewrite decodeDataHeader_split. cbv zeta.
  destruct (is_Group (Function (mOperation m))).
  - destruct region; reflexivity.
  - destruct (is_OEM (Function (mOperation m))); [|reflexivity].
    destruct region as [|e0 [|e1 [|e2 region]]]; reflexivity.
Qed.

(** X6. The truncated flag is set exactly when decoding fails for lack
    of bytes (input shorter than 7, no body code, no enterprise number):
    in those cases it is set, and on success, on a checksum error and on
    a panic it is left as it was. *)
Theorem truncated_flag_tracks_truncation (data : list Z) (m : Message)
    (df : DecodeFeedback) :
  let r := DecodeFromBytes data (m, df) in
  match r.2 with
  | Error e => r.1.2 = (if is_truncation e then true else df)
  | _ => r.1.2 = df
  end.
Proof.
  cbv zeta.
  destruct (Nat.lt_ge_cases (length data) 7) as [Hshort|Hlong].
  { rewrite DecodeFromBytes_short by assumption. reflexivity. }
  destruct (long_shape data Hlong)
    as (d0 & d1 & d2 & d3 & d4 & d5 & mid & l & ->).
  rewrite DecodeFromBytes_eval. cbv zeta.
  destruct (negb (uint8 d2 =? checksum [d0; d1])); [reflexivity|].
  destruct (negb (uint8 l =? checksum (d3 :: d4 :: d5 :: mid)));
    [reflexivity|].
  destruct (IsRequest (uint8 (Z.shiftr d1 2))).
  - rewrite decodeRequest_eval.
    apply (decodeDataHeader_flag [d0; d1; d2; d3; d4; d5] mid l).
  - destruct mid as [|c mid].
    + rewrite (decodeResponse_eval _ l) by reflexivity.
      rewrite decodeDataHeader_7_of_7 by reflexivity. reflexivity.
    + rewrite (decodeResponse_eval _ c) by reflexivity.
      apply (decodeDataHeader_flag [d0; d1; d2; d3; d4; d5; c] mid l).
Qed.

(** ** More on the checksum *)

Lemma checksum_sum (data : list Z) :
  checksum data = (- (byte_sum data mod 256)) mod 256.
Proof.
  unfold checksum, neg8.
  pose proof (checksum_loop_sum data 0) as H.
  unfold uint8 in *. rewrite Z.add_0_l in H.
  rewrite <- (Z.sub_0_l (checksum_loop 0 data)).
  rewrite <- (Z.sub_0_l (byte_sum data mod 256)).
  rewrite <- (Zminus_mod_idemp_r 0 (checksum_loop 0 data)).
  rewrite H. reflexivity.
Qed.

Lemma checksum_eq_iff (l1 l2 : list Z) :
  checksum l1 = checksum l2 <-> byte_sum l1 mod 256 = byte_sum l2 mod 256.
Proof.
  rewrite !checksum_sum.
  pose proof (Z.mod_pos_bound (byte_sum l1) 256 ltac:(lia)) as H1.
  pose proof (Z.mod_pos_bound (byte_sum l2) 256 ltac:(lia)) as H2.
  revert H1 H2.
  generalize (byte_sum l1 mod 256) as a, (byte_sum l2 mod 256) as b.
  intros a b Ha Hb. split.
  - intros H. Z.div_mod_to_equations. lia.
  - intros ->. reflexivity.
Qed.

Lemma byte_sum_app (l1 l2 : list Z) :
  byte_sum (l1 ++ l2) = byte_sum l1 + byte_sum l2.
Proof.
  induction l1 as [|x l1 IH]; [reflexivity|].
  change (byte_sum ((x :: l1) ++ l2)) with (x + byte_sum (l1 ++ l2)).
  change (byte_sum (x :: l1)) with (x + byte_sum l1).
  rewrite IH. lia.
Qed.

Lemma byte_sum_insert (l : list Z) (j : nat) (a b : Z) :
  l !! j = Some a -> byte_sum (<[j:=b]> l) = byte_sum l - a + b.
Proof.
  revert j. induction l as [|x l IH]; intros j Hj; [discriminate|].
  destruct j as [|j].
  - injection Hj as ->.
    change (byte_sum (<[0%nat:=b]> (a :: l))) with (b + byte_sum l).
    change (byte_sum (a :: l)) with (a + byte_sum l). lia.
  - change (byte_sum (<[S j:=b]> (x :: l)))
      with (x + byte_sum (<[j:=b]> l)).
    change (byte_sum (x :: l)) with (x + byte_sum l).
    rewrite (IH j Hj). lia.
Qed.

(** Replacing one byte by a different byte changes the checksum. *)
Lemma checksum_insert_ne (l : list Z) (j : nat) (a b : Z) :
  l !! j = Some a -> 0 <= a < 256 -> 0 <= b < 256 -> b <> a ->
  checksum (<[j:=b]> l) <> checksum l.
Proof.
  intros Hj Ha Hb Hne Heq. apply checksum_eq_iff in Heq.
  rewrite (byte_sum_insert l j a b Hj) in Heq.
  revert Heq. generalize (byte_sum l) as s. intros s Heq.
  Z.div_mod_to_equations. lia.
Qed.

(** X7. Any byte sequence followed by its checksum has checksum zero,
    and the checksum of a concatenation is the 8-bit sum of the
    checksums of its parts. *)
Theorem checksum_of_checksummed (data l1 l2 : list Z) :
  checksum (data ++ [checksum data]) = 0
  /\ checksum (l1 ++ l2) = uint8 (checksum l1 + checksum l2).
Proof.
  split.
  - rewrite (checksum_sum (data ++ [checksum data])), byte_sum_app.
    change (byte_sum [checksum data]) with (checksum data + 0).
    rewrite checksum_sum.
    generalize (byte_sum data) as s. intros s.
    Z.div_mod_to_equations. lia.
  - rewrite (checksum_sum (l1 ++ l2)), byte_sum_app, !checksum_sum.
    unfold uint8.
    generalize (byte_sum l1) as s1, (byte_sum l2) as s2. intros s1 s2.
    Z.div_mod_to_equations. lia.
Qed.

Lemma parses_checksums (data : list Z) (m' : Message) :
  parses data m' ->
  exists d0 d1 d2 d3 d4 d5 mid l,
    data = d0 :: d1 :: d2 :: d3 :: d4 :: d5 :: mid ++ [l]
    /\ uint8 d2 = checksum [d0; d1]
    /\ uint8 l = checksum (d3 :: d4 :: d5 :: mid).
Proof.
  intros [d0 d1 d2 d3 d4 d5 l sp payload body ent H1 H2 Hreq Hsp
         |d0 d1 d2 d3 d4 d5 c l sp payload body ent H1 H2 Hreq Hsp].
  - exists d0, d1, d2, d3, d4, d5, (sp ++ payload), l. repeat split; assumption.
  - exists d0, d1, d2, d3, d4, d5, (c :: sp ++ payload), l.
    repeat split; assumption.
Qed.

Lemma decode_checksum1_fails (d0 d1 d2 d3 d4 d5 l : Z) (mid : list Z)
    (m : Message) (df : DecodeFeedback) :
  uint8 d2 <> checksum [d0; d1] ->
  (DecodeFromBytes (d0 :: d1 :: d2 :: d3 :: d4 :: d5 :: mid ++ [l]) (m, df)).2
  = Error (ErrChecksum1 (uint8 d2) (checksum [d0; d1])).
Proof.
  intros Hne. rewrite DecodeFromBytes_eval. cbv zeta.
  rewrite (proj2 (Z.eqb_neq _ _) Hne). reflexivity.
Qed.

Lemma decode_checksum2_fails (d0 d1 d2 d3 d4 d5 l : Z) (mid : list Z)
    (m : Message) (df : DecodeFeedback) :
  uint8 d2 = checksum [d0; d1] ->
  uint8 l <> checksum (d3 :: d4 :: d5 :: mid) ->
  (DecodeFromBytes (d0 :: d1 :: d2 :: d3 :: d4 :: d5 :: mid ++ [l]) (m, df)).2
  = Error (ErrChecksum2 (uint8 l) (checksum (d3 :: d4 :: d5 :: mid))).
Proof.
  intros Heq Hne. rewrite DecodeFromBytes_eval. cbv zeta.
  rewrite (proj2 (Z.eqb_eq _ _) Heq), (proj2 (Z.eqb_neq _ _) Hne).
  reflexivity.
Qed.

(** X8. Single-byte corruption is always detected: if an input of bytes
    decodes successfully and one of its bytes is replaced by a different
    byte, decoding fails with the checksum1 error when the byte is at
    offset 0, 1 or 2 and with the checksum2 error when it is at offset 3
    or later, whatever the message decoded into. *)
Theorem single_byte_corruption_detected (data : list Z) (i : nat) (a b : Z)
    (m0 m m' : Message) (df0 df df' : DecodeFeedback) :
  is_bytes data ->
  DecodeFromBytes data (m0, df0) = ((m', df'), Return tt) ->
  data !! i = Some a -> 0 <= b < 256 -> b <> a ->
  exists got want,
    got <> want
    /\ (DecodeFromBytes (<[i:=b]> data) (m, df)).2
       = Error (if (i <? 3)%nat then ErrChecksum1 got want
                else ErrChecksum2 got want).
Proof.
  intros Hb Hdec Hi Hbr Hne.
  apply parses_sound in Hdec. destruct Hdec as [Hp _].
  destruct (parses_checksums data m' Hp)
    as (d0 & d1 & d2 & d3 & d4 & d5 & mid & l & -> & H1 & H2).
  split_bytes.
  assert (Ha : 0 <= a < 256).
  { assert (Hall : Forall (fun b => 0 <= b < 256)
                     (d0 :: d1 :: d2 :: d3 :: d4 :: d5 :: mid ++ [l])).
    { repeat (apply Forall_cons_2; [assumption|]).
      apply Forall_app. split; [assumption|].
      apply Forall_cons_2; [assumption|]. apply Forall_nil_2. }
    exact (proj1 (Forall_lookup _ _) Hall i a Hi). }
  destruct i as [|[|[|j]]].
  - (* offset 0 *)
    injection Hi as ->.
    exists (uint8 d2), (checksum [b; d1]).
    assert (Hc : checksum [b; d1] <> checksum [a; d1])
      by (apply (checksum_insert_ne [a; d1] 0 a b); [reflexivity|lia..]).
    split; [congruence|].
    apply (decode_checksum1_fails b d1 d2 d3 d4 d5 l mid). congruence.
  - injection Hi as ->.
    exists (uint8 d2), (checksum [d0; b]).
    assert (Hc : checksum [d0; b] <> checksum [d0; a])
      by (apply (checksum_insert_ne [d0; a] 1 a b); [reflexivity|lia..]).
    split; [congruence|].
    apply (decode_checksum1_fails d0 b d2 d3 d4 d5 l mid). congruence.
  - injection Hi as ->.
    exists (uint8 b), (checksum [d0; d1]).
    assert (Hc : uint8 b <> checksum [d0; d1]).
    { rewrite <- H1, !uint8_small by assumption. exact Hne. }
    split; [exact Hc|].
    apply (decode_checksum1_fails d0 d1 b d3 d4 d5 l mid). exact Hc.
  - (* offset 3 or later: inside the second span, or the last byte *)
    change (S (S (S j)) <? 3)%nat with false. cbv iota.
    change (<[S (S (S j)):=b]>
              (d0 :: d1 :: d2 :: d3 :: d4 :: d5 :: mid ++ [l]))
      with (d0 :: d1 :: d2
            :: <[j:=b]> ((d3 :: d4 :: d5 :: mid) ++ [l])).
    change ((d0 :: d1 :: d2 :: d3 :: d4 :: d5 :: mid ++ [l]) !! S (S (S j)))
      with (((d3 :: d4 :: d5 :: mid) ++ [l]) !! j) in Hi.
    destruct (Nat.lt_ge_cases j (length (d3 :: d4 :: d5 :: mid)))
      as [Hlt|Hge].
    + rewrite lookup_app_l in Hi by exact Hlt.
      rewrite insert_app_l by exact Hlt.
      pose proof (checksum_insert_ne _ j a b Hi Ha Hbr Hne) as Hc.
      rewrite <- H2 in Hc.
      assert (Hshape : exists d3' d4' d5' mid',
                 <[j:=b]> (d3 :: d4 :: d5 :: mid) = d3' :: d4' :: d5' :: mid').
      { destruct j as [|[|[|k]]]; eexists _, _, _, _; reflexivity. }
      destruct Hshape as (d3' & d4' & d5' & mid' & Hs).
      rewrite Hs in Hc |- *.
      exists (uint8 l), (checksum (d3' :: d4' :: d5' :: mid')).
      split; [congruence|].
      apply (decode_checksum2_fails d0 d1 d2 d3' d4' d5' l mid');
        [exact H1|congruence].
    + assert (Hj : j = length (d3 :: d4 :: d5 :: mid)).
      { apply lookup_lt_Some in Hi. rewrite length_app in Hi.
        simpl in Hi, Hge |- *. lia. }
      rewrite Hj in Hi |- *.
      rewrite lookup_app_r in Hi by lia. rewrite Nat.sub_diag in Hi.
      injection Hi as ->.
      rewrite insert_app_r_alt by lia. rewrite Nat.sub_diag.
      change (<[0%nat:=b]> [a]) with [b].
      exists (uint8 b), (checksum (d3 :: d4 :: d5 :: mid)).
      assert (Hc : uint8 b <> checksum (d3 :: d4 :: d5 :: mid)).
      { rewrite <- H2, !uint8_small by assumption. exact Hne. }
      split; [exact Hc|].
      apply (decode_checksum2_fails d0 d1 d2 d3 d4 d5 b mid);
        [exact H1|exact Hc].
Qed.

(** ** More on serialization *)

Lemma serializeLength_bounds (m : Message) : 6 <= serializeLength m <= 10.
Proof.
  unfold serializeLength.
  destruct (negb (IsRequest (Function (mOperation m)))),
    (is_Group (Function (mOperation m))),
    (is_OEM (Function (mOperation m))); lia.
Qed.

Lemma serialized_fields (opts : SerializeOptions) (payload : list Z)
    (m : Message) :
  let m' := serialized opts payload m in
  mBaseLayer m' = mBaseLayer m /\ mOperation m' = mOperation m
  /\ RemoteAddress m' = RemoteAddress m /\ RemoteLUN m' = RemoteLUN m
  /\ LocalAddress m' = LocalAddress m /\ LocalLUN m' = LocalLUN m
  /\ Sequence m' = Sequence m /\ mCompletionCode m' = mCompletionCode m
  /\ serializeLength m' = serializeLength m.
Proof.
  unfold serialized, fix_checksums. cbv zeta.
  destruct (ComputeChecksums opts); repeat split.
Qed.

(** X9. [SerializeTo] never fails and never panics, for any message,
    buffer and options. It writes between 6 and 10 header bytes in front
    of the bytes already in the buffer and one byte behind them, leaves
    those bytes where they were, and changes no field of the message
    other than the two checksums. *)
Theorem serialize_layout (opts : SerializeOptions) (m : Message)
    (b : SerializeBuffer) :
  exists m' b',
    SerializeTo opts (m, b) = ((m', b'), Return tt)
    /\ 6 <= serializeLength m <= 10
    /\ len (Bytes b') = serializeLength m + len (Bytes b) + 1
    /\ subslice (Bytes b') (serializeLength m) (len (Bytes b') - 1) = Bytes b
    /\ mBaseLayer m' = mBaseLayer m /\ mOperation m' = mOperation m
    /\ RemoteAddress m' = RemoteAddress m /\ RemoteLUN m' = RemoteLUN m
    /\ LocalAddress m' = LocalAddress m /\ LocalLUN m' = LocalLUN m
    /\ Sequence m' = Sequence m /\ mCompletionCode m' = mCompletionCode m.
Proof.
  rewrite SerializeTo_eval. cbv zeta.
  eexists _, _. split; [reflexivity|]. cbn [Bytes].
  destruct (serialized_fields opts (Bytes b) m)
    as (H1 & H2 & H3 & H4 & H5 & H6 & H7 & H8 & H9).
  set (m' := serialized opts (Bytes b) m) in *.
  split; [apply serializeLength_bounds|].
  assert (Hlen : len (wire m' (Bytes b))
                 = serializeLength m + len (Bytes b) + 1).
  { unfold wire. rewrite !len_app, len_cons, len_nil, header_bytes_length.
    lia. }
  split; [exact Hlen|].
  split.
  { apply (subslice_split (header_bytes m') (Bytes b) [Checksum2 m']).
    - reflexivity.
    - rewrite header_bytes_length. symmetry. exact H9.
    - rewrite len_cons, len_nil. lia. }
  repeat split; assumption.
Qed.

(** X10. What [SerializeTo] produces does not depend on the stale bytes
    of the buffer; and with checksum computation enabled it does not
    depend on the checksum fields the message came with either. *)
Theorem serialize_output_determined (opts : SerializeOptions) (m : Message)
    (b1 b2 : SerializeBuffer) (c1 c2 : Z) :
  Bytes b1 = Bytes b2 ->
  let r1 := SerializeTo opts (m, b1) in
  let r2 := SerializeTo opts (m, b2) in
  let r3 := SerializeTo opts (set_Checksum2 c2 (set_Checksum1 c1 m), b2) in
  r1.1.1 = r2.1.1 /\ Bytes r1.1.2 = Bytes r2.1.2 /\ r1.2 = r2.2
  /\ (ComputeChecksums opts = true ->
      r3.1.1 = r2.1.1 /\ Bytes r3.1.2 = Bytes r2.1.2).
Proof.
  intros Hb r1 r2 r3. unfold r1, r2, r3.
  rewrite !SerializeTo_eval. cbv zeta. cbn [fst snd Bytes].
  rewrite Hb. repeat split.
  - intros. unfold serialized. rewrite H.
    destruct m as [bl [f body ent cmd] ? ? ? ? ? ? ? ?]. reflexivity.
  - unfold serialized. rewrite H.
    destruct m as [bl [f body ent cmd] ? ? ? ? ? ? ? ?]. reflexivity.
Qed.

Lemma decodeDataHeader_no_checksum_error (pre region : list Z) (c : Z)
    (m : Message) (df : DecodeFeedback) (e : DecodeError) :
  (decodeDataHeader (pre ++ region ++ [c]) (len pre) (m, df)).2 = Error e ->
  is_truncation e = true.
Proof.
  rewrite decodeDataHeader_split. cbv zeta.
  destruct (is_Group (Function (mOperation m))).
  - destruct region; [intros [= <-]; reflexivity|discriminate].
  - destruct (is_OEM (Function (mOperation m))); [|discriminate].
    destruct region as [|e0 [|e1 [|e2 region]]];
      first [discriminate | intros [= <-]; reflexivity].
Qed.

(** X11. The checksums that [SerializeTo] computes always verify: for
    every message, consistent or not, and every payload, decoding the
    bytes produced with checksum computation enabled never ends in a
    checksum error. *)
Theorem serialized_checksums_verify (m m0 : Message) (b : SerializeBuffer)
    (fl : bool) (df : DecodeFeedback) (got want : Z) :
  let bytes := Bytes (SerializeTo (mkSerializeOptions fl true) (m, b)).1.2 in
  (DecodeFromBytes bytes (m0, df)).2 <> Error (ErrChecksum1 got want)
  /\ (DecodeFromBytes bytes (m0, df)).2 <> Error (ErrChecksum2 got want).
Proof.
  intros bytes. unfold bytes. rewrite SerializeTo_eval. cbv zeta.
  cbn [fst snd Bytes]. unfold serialized. cbn [ComputeChecksums].
  destruct (fix_checksums_fields (Bytes b) m) as (_ & H1 & H2 & _).
  cbv zeta in H1, H2.
  set (m' := fix_checksums (Bytes b) m) in *.
  assert (Hw : exists h0 h1 h3 h4 h5 rest,
             header_bytes m' = h0 :: h1 :: Checksum1 m' :: h3 :: h4 :: h5 :: rest).
  { unfold header_bytes. eexists _, _, _, _, _, _. reflexivity. }
  destruct Hw as (h0 & h1 & h3 & h4 & h5 & rest & Hh).
  unfold wire. rewrite Hh in H1, H2 |- *.
  cbn [take drop] in H1, H2.
  replace ((h0 :: h1 :: Checksum1 m' :: h3 :: h4 :: h5 :: rest)
           ++ Bytes b ++ [Checksum2 m'])
    with (h0 :: h1 :: Checksum1 m' :: h3 :: h4 :: h5
          :: (rest ++ Bytes b) ++ [Checksum2 m'])
    by (cbn [app]; rewrite <- !app_assoc; reflexivity).
  rewrite DecodeFromBytes_eval. cbv zeta.
  assert (E1 : uint8 (Checksum1 m') = checksum [h0; h1])
    by (rewrite H1; apply uint8_small, checksum_range).
  assert (E2 : uint8 (Checksum2 m')
               = checksum (h3 :: h4 :: h5 :: rest ++ Bytes b))
    by (rewrite H2; apply uint8_small, checksum_range).
  rewrite (proj2 (Z.eqb_eq _ _) E1), (proj2 (Z.eqb_eq _ _) E2).
  cbn [negb].
  assert (Htail : forall e,
             (if IsRequest (uint8 (Z.shiftr h1 2))
              then decodeRequest
                     (h0 :: h1 :: Checksum1 m' :: h3 :: h4 :: h5
                      :: (rest ++ Bytes b) ++ [Checksum2 m'])
                     (header2 h3 h4 h5 (Checksum2 m')
                        (header1 h0 h1 (Checksum1 m') m0), df)
              else decodeResponse
                     (h0 :: h1 :: Checksum1 m' :: h3 :: h4 :: h5
                      :: (rest ++ Bytes b) ++ [Checksum2 m'])
                     (header2 h3 h4 h5 (Checksum2 m')
                        (header1 h0 h1 (Checksum1 m') m0), df)).2 = Error e ->
             is_truncation e = true).
  { intros e. destruct (IsRequest (uint8 (Z.shiftr h1 2))).
    - rewrite decodeRequest_eval.
      apply (decodeDataHeader_no_checksum_error
               [h0; h1; Checksum1 m'; h3; h4; h5] (rest ++ Bytes b)).
    - destruct (rest ++ Bytes b) as [|c mid].
      + rewrite (decodeResponse_eval _ (Checksum2 m')) by reflexivity.
        rewrite decodeDataHeader_7_of_7 by reflexivity. discriminate.
      + rewrite (decodeResponse_eval _ c) by reflexivity.
        apply (decodeDataHeader_no_checksum_error
                 [h0; h1; Checksum1 m'; h3; h4; h5; c] mid). }
  split; intros Hbad; apply Htail in Hbad; discriminate.
Qed.

(** ** When decoding succeeds *)

Lemma decodeDataHeader_succeeds_iff (pre region : list Z) (c : Z)
    (m : Message) (df : DecodeFeedback) :
  (exists m' df',
      decodeDataHeader (pre ++ region ++ [c]) (len pre) (m, df)
      = ((m', df'), Return tt))
  <-> (if is_Group (Function (mOperation m)) then 1
       else if is_OEM (Function (mOperation m)) then 3 else 0)
      <= len region.
Proof.
  rewrite decodeDataHeader_split. cbv zeta.
  pose proof (len_nonneg region) as Hn.
  destruct (is_Group (Function (mOperation m))).
  - destruct region as [|b payload].
    + rewrite len_nil. split; [intros (? & ? & [=])|lia].
    + rewrite len_cons. pose proof (len_nonneg payload).
      split; [lia|]. intros _. eexists _, _. reflexivity.
  - destruct (is_OEM (Function (mOperation m))).
    + destruct region as [|e0 [|e1 [|e2 payload]]];
        rewrite ?len_cons, ?len_nil.
      * split; [intros (? & ? & [=])|lia].
      * split; [intros (? & ? & [=])|lia].
      * split; [intros (? & ? & [=])|lia].
      * pose proof (len_nonneg payload).
        split; [lia|]. intros _. eexists _, _. reflexivity.
    + split; [lia|]. intros _. eexists _, _. reflexivity.
Qed.

(** X18. For an input of at least 7 bytes, decoding succeeds exactly when
    both checksum bytes match the checksums of their spans and the input
    is long enough for its header: 6 bytes, one more for a response's
    completion code, one more for a Group function's body code or three
    more for an OEM function's enterprise number, and the final checksum
    byte. *)
Theorem decode_succeeds_iff (data : list Z) (m : Message)
    (df : DecodeFeedback) :
  (7 <= length data)%nat ->
  let f := uint8 (Z.shiftr (nth 1 data 0) 2) in
  let start := if IsRequest f then 6 else 7 in
  let need := if is_Group f then 1 else if is_OEM f then 3 else 0 in
  (exists m' df', DecodeFromBytes data (m, df) = ((m', df'), Return tt))
  <-> uint8 (nth 2 data 0) = checksum (subslice data 0 2)
      /\ uint8 (List.last data 0) = checksum (subslice data 3 (len data - 1))
      /\ start + need + 1 <= len data.
Proof.
  intros Hlen.
  destruct (long_shape data Hlen)
    as (d0 & d1 & d2 & d3 & d4 & d5 & mid & l & ->).
  set (data := d0 :: d1 :: d2 :: d3 :: d4 :: d5 :: mid ++ [l]).
  assert (Hl : List.last data 0 = l).
  { unfold data.
    change (d0 :: d1 :: d2 :: d3 :: d4 :: d5 :: mid ++ [l])
      with ((d0 :: d1 :: d2 :: d3 :: d4 :: d5 :: mid) ++ [l]).
    apply List.last_last. }
  assert (Hd : len data = 7 + len mid).
  { unfold data. rewrite !len_cons, len_app, len_cons, len_nil. lia. }
  assert (Hs2 : subslice data 3 (len data - 1) = d3 :: d4 :: d5 :: mid).
  { apply (subslice_split [d0; d1; d2] (d3 :: d4 :: d5 :: mid) [l]);
      reflexivity. }
  change (nth 1 data 0) with d1. change (nth 2 data 0) with d2.
  change (subslice data 0 2) with [d0; d1].
  rewrite Hl, Hs2, Hd. cbv zeta.
  unfold data. rewrite DecodeFromBytes_eval. cbv zeta. fold data.
  pose proof (len_nonneg mid) as Hmid.
  destruct (Z.eqb_spec (uint8 d2) (checksum [d0; d1])) as [E1|E1];
    cbn [negb].
  2:{ split; [intros (? & ? & [=])|intros (? & _); contradiction]. }
  destruct (Z.eqb_spec (uint8 l) (checksum (d3 :: d4 :: d5 :: mid)))
    as [E2|E2]; cbn [negb].
  2:{ split; [intros (? & ? & [=])|intros (_ & ? & _); contradiction]. }
  destruct (IsRequest (uint8 (Z.shiftr d1 2))) eqn:Hreq.
  - rewrite decodeRequest_eval.
    change data with ([d0; d1; d2; d3; d4; d5] ++ mid ++ [l]).
    change 6 with (len [d0; d1; d2; d3; d4; d5]) at 1.
    rewrite decodeDataHeader_succeeds_iff, header_Function.
    split; [intros H; repeat split; try assumption; lia|].
    intros (_ & _ & H). lia.
  - destruct mid as [|c mid].
    + unfold data.
      rewrite (decodeResponse_eval _ l) by reflexivity.
      rewrite decodeDataHeader_7_of_7 by reflexivity.
      rewrite len_nil.
      split; [intros (? & ? & [=])|].
      intros (_ & _ & H).
      destruct (is_Group (uint8 (Z.shiftr d1 2)));
        [|destruct (is_OEM (uint8 (Z.shiftr d1 2)))]; lia.
    + unfold data.
      rewrite (decodeResponse_eval _ c) by reflexivity.
      change (d0 :: d1 :: d2 :: d3 :: d4 :: d5 :: (c :: mid) ++ [l])
        with ([d0; d1; d2; d3; d4; d5; c] ++ mid ++ [l]).
      change 7 with (len [d0; d1; d2; d3; d4; d5; c]) at 1.
      rewrite decodeDataHeader_succeeds_iff, header_Function.
      rewrite len_cons. pose proof (len_nonneg mid).
      split; [intros H'; repeat split; try assumption; lia|].
      intros (_ & _ & H'). lia.
Qed.

(** X19. Decoding panics on no input of at least eight bytes, and on no
    7-byte input whose function code is a request's. *)
Theorem decode_is_panic_free_from_8_bytes (data : list Z) (m : Message)
    (df : DecodeFeedback) (r : RuntimeError) :
  (8 <= length data)%nat \/
  ((7 <= length data)%nat /\
   IsRequest (uint8 (Z.shiftr (nth 1 data 0) 2)) = true) ->
  (DecodeFromBytes data (m, df)).2 <> Panic r.
Proof. apply decode_no_panic. Qed.

End CodecProperties.


(** ** Confidentiality-layer selection *)

Lemma copy_length (dst src : list Z) : length (copy dst src) = length dst.
Proof.
  unfold copy. rewrite length_app, length_take, length_drop. lia.
Qed.

Lemma copy_long (dst src : list Z) :
  (length dst <= length src)%nat -> copy dst src = take (length dst) src.
Proof.
  intros Hle. unfold copy. rewrite drop_ge by assumption. apply app_nil_r.
Qed.

Section ConfidentialityProperties.

Variable ConfidentialityAlgorithmNone : Z.
Variable ConfidentialityAlgorithmAESCBC128 : Z.
Variable Layer : Type.
Variable E : Type.
Variable NewAES128CBC : list Z -> option Layer * option E.

(** C8. With the two identifiers distinct (they are cases of one switch)
    and a cipher constructor that accepts every 16-byte key:
    [algorithmCipher] returns no layer and no error for None; for
    AES-CBC-128 it returns the layer that [NewAES128CBC] builds from the
    16-byte key into which [K(2)] was copied (the first 16 bytes of
    [K(2)] when it has at least 16); for every other identifier it
    returns no layer and the unsupported-algorithm error naming the
    identifier. So it returns without error exactly for None and
    AES-CBC-128. *)
Theorem algorithmCipher_spec (a : Z) (g : AdditionalKeyMaterialGenerator) :
  ConfidentialityAlgorithmNone <> ConfidentialityAlgorithmAESCBC128 ->
  (forall key, length key = 16%nat ->
               exists l, NewAES128CBC key = (Some l, None)) ->
  let cipher :=
    algorithmCipher ConfidentialityAlgorithmNone
      ConfidentialityAlgorithmAESCBC128 Layer E NewAES128CBC in
  let key := copy (replicate 16 0) (K g 2) in
  length key = 16%nat
  /\ ((16 <= length (K g 2))%nat -> key = take 16 (K g 2))
  /\ (a = ConfidentialityAlgorithmNone -> cipher a g = (None, None))
  /\ (a = ConfidentialityAlgorithmAESCBC128 ->
      exists l, NewAES128CBC key = (Some l, None)
                /\ cipher a g = (Some l, None))
  /\ (a <> ConfidentialityAlgorithmNone ->
      a <> ConfidentialityAlgorithmAESCBC128 ->
      cipher a g = (None, Some (ErrUnsupportedAlgorithm a)))
  /\ ((cipher a g).2 = None <->
      a = ConfidentialityAlgorithmNone
      \/ a = ConfidentialityAlgorithmAESCBC128).
Proof.
  intros Hdistinct Hctor cipher key.
  assert (Hlen : length key = 16%nat) by apply copy_length.
  assert (Hnone : a = ConfidentialityAlgorithmNone -> cipher a g = (None, None)).
  { intros ->. unfold cipher, algorithmCipher.
    rewrite Z.eqb_refl. reflexivity. }
  assert (Haes : a = ConfidentialityAlgorithmAESCBC128 ->
                 exists l, NewAES128CBC key = (Some l, None)
                           /\ cipher a g = (Some l, None)).
  { intros ->. destruct (Hctor key Hlen) as [l Hl]. exists l.
    split; [exact Hl|]. unfold cipher, algorithmCipher.
    rewrite (proj2 (Z.eqb_neq _ _)) by congruence.
    rewrite Z.eqb_refl. cbv zeta. fold key. rewrite Hl. reflexivity. }
  assert (Hother : a <> ConfidentialityAlgorithmNone ->
                   a <> ConfidentialityAlgorithmAESCBC128 ->
                   cipher a g = (None, Some (ErrUnsupportedAlgorithm a))).
  { intros H1 H2. unfold cipher, algorithmCipher.
    rewrite !(proj2 (Z.eqb_neq _ _)) by assumption. reflexivity. }
  split; [exact Hlen|].
  split; [intros Hlong; apply (copy_long (replicate 16 0)); exact Hlong|].
  split; [exact Hnone|]. split; [exact Haes|]. split; [exact Hother|].
  split.
  - intros Hok.
    destruct (Z.eq_dec a ConfidentialityAlgorithmNone) as [|H1]; [left; assumption|].
    destruct (Z.eq_dec a ConfidentialityAlgorithmAESCBC128) as [|H2];
      [right; assumption|].
    rewrite (Hother H1 H2) in Hok. discriminate.
  - intros [Ha|Ha].
    + rewrite (Hnone Ha). reflexivity.
    + destruct (Haes Ha) as (l & _ & ->). reflexivity.
Qed.

End ConfidentialityProperties.

Lemma copy_zero_padded (n : nat) (src : list Z) :
  copy (replicate n 0) src = take n (src ++ replicate n 0).
Proof.
  unfold copy. rewrite length_replicate, take_app, drop_replicate,
    take_replicate.
  f_equal. f_equal. lia.
Qed.

Lemma padded_key_prefix (n : nat) (l1 l2 : list Z) :
  take n l1 = take n l2 ->
  take n (l1 ++ replicate n 0) = take n (l2 ++ replicate n 0).
Proof.
  intros Heq. rewrite !take_app, Heq.
  assert (Hlen : length (take n l1) = length (take n l2)) by (rewrite Heq; reflexivity).
  rewrite !length_take in Hlen.
  f_equal. f_equal. lia.
Qed.

Section CipherKey.

Variable ConfidentialityAlgorithmNone : Z.
Variable ConfidentialityAlgorithmAESCBC128 : Z.
Variable Layer : Type.
Variable E : Type.
Variable NewAES128CBC : list Z -> option Layer * option E.

(** X20. For AES-CBC-128 the key handed to [NewAES128CBC] is the first
    16 bytes of [K(2)] followed by zeros: a shorter [K(2)] is padded with
    zero bytes, a longer one is cut. What the constructor returns is
    passed on, its layer as it is and its error too, so a constructor
    failure is never reported as an unsupported algorithm. Two
    generators whose [K(2)] agree on the first 16 bytes give the same
    result for every algorithm. *)
Theorem algorithmCipher_key (g : AdditionalKeyMaterialGenerator) :
  ConfidentialityAlgorithmNone <> ConfidentialityAlgorithmAESCBC128 ->
  let cipher :=
    algorithmCipher ConfidentialityAlgorithmNone
      ConfidentialityAlgorithmAESCBC128 Layer E NewAES128CBC in
  let key := take 16 (K g 2 ++ replicate 16 0) in
  length key = 16%nat
  /\ (cipher ConfidentialityAlgorithmAESCBC128 g).1 = (NewAES128CBC key).1
  /\ (cipher ConfidentialityAlgorithmAESCBC128 g).2
     = match (NewAES128CBC key).2 with
       | None => None
       | Some e => Some (ErrConstructor e)
       end
  /\ (forall a g', take 16 (K g' 2) = take 16 (K g 2) ->
                   cipher a g' = cipher a g).
Proof.
  intros Hdistinct cipher key.
  assert (Haes : forall g0,
             cipher ConfidentialityAlgorithmAESCBC128 g0
             = match NewAES128CBC (take 16 (K g0 2 ++ replicate 16 0)) with
               | (l, None) => (l, None)
               | (l, Some e) => (l, Some (ErrConstructor e))
               end).
  { intros g0. unfold cipher, algorithmCipher.
    rewrite (proj2 (Z.eqb_neq _ _)) by congruence.
    rewrite Z.eqb_refl. cbv zeta. rewrite copy_zero_padded. reflexivity. }
  split.
  { unfold key. rewrite length_take, length_app, length_replicate. lia. }
  split.
  { rewrite Haes. fold key. destruct (NewAES128CBC key) as [l [e|]]; reflexivity. }
  split.
  { rewrite Haes. fold key. destruct (NewAES128CBC key) as [l [e|]]; reflexivity. }
  intros a g' Hpre.
  destruct (Z.eq_dec a ConfidentialityAlgorithmAESCBC128) as [->|Hne].
  - rewrite !Haes, (padded_key_prefix 16 _ _ Hpre). reflexivity.
  - unfold cipher, algorithmCipher.
    rewrite (proj2 (Z.eqb_neq a ConfidentialityAlgorithmAESCBC128)) by assumption.
    reflexivity.
Qed.

End CipherKey.

(** ** Map literals *)

Lemma foldl_insert_snoc {K V : Type} `{Countable K} (l : list (K * V))
    (k : K) (v : V) :
  foldl (fun t kv => <[kv.1 := kv.2]> t) (∅ : gmap K V) (l ++ [(k, v)])
  = <[k := v]> (foldl (fun t kv => <[kv.1 := kv.2]> t) ∅ l).
Proof. rewrite foldl_app. reflexivity. Qed.

(** Whatever a map literal yields for a key is one of its entries. *)
Lemma literal_lookup_Some {K V : Type} `{Countable K} (l : list (K * V))
    (k : K) (v : V) :
  foldl (fun t kv => <[kv.1 := kv.2]> t) (∅ : gmap K V) l !! k = Some v ->
  (k, v) ∈ l.
Proof.
  induction l as [|[k' v'] l IH] using rev_ind.
  - cbn. rewrite lookup_empty. discriminate.
  - rewrite foldl_insert_snoc, elem_of_app, list_elem_of_singleton.
    destruct (decide (k' = k)) as [->|Hne].
    + rewrite lookup_insert_eq. intros [= ->]. right. reflexivity.
    + rewrite lookup_insert_ne by exact Hne. intros Hl. left. apply IH, Hl.
Qed.

(** A key that is no entry's key is absent. *)
Lemma literal_lookup_None {K V : Type} `{Countable K} (l : list (K * V))
    (k : K) :
  k ∉ l.*1 ->
  foldl (fun t kv => <[kv.1 := kv.2]> t) (∅ : gmap K V) l !! k = None.
Proof.
  intros Hk.
  destruct (foldl (fun t kv => <[kv.1 := kv.2]> t) (∅ : gmap K V) l !! k)
    as [v|] eqn:Hl; [|reflexivity].
  apply literal_lookup_Some in Hl. exfalso. apply Hk.
  apply list_elem_of_fmap. exists (k, v). split; [reflexivity|exact Hl].
Qed.

(** With distinct keys, every entry is found. *)
Lemma literal_lookup_entry {K V : Type} `{Countable K} (l : list (K * V))
    (k : K) (v : V) :
  NoDup l.*1 -> (k, v) ∈ l ->
  foldl (fun t kv => <[kv.1 := kv.2]> t) (∅ : gmap K V) l !! k = Some v.
Proof.
  induction l as [|[k' v'] l IH] using rev_ind; intros Hnd Hin.
  - apply elem_of_nil in Hin. contradiction.
  - rewrite foldl_insert_snoc.
    rewrite fmap_app in Hnd. apply NoDup_app in Hnd.
    destruct Hnd as (Hnd & Hdisj & _).
    apply elem_of_app in Hin. destruct Hin as [Hin|Hin].
    + assert (Hne : k' <> k).
      { intros ->. apply (Hdisj k).
        - apply list_elem_of_fmap. exists (k, v). split; [reflexivity|exact Hin].
        - cbn. apply list_elem_of_singleton. reflexivity. }
      rewrite lookup_insert_ne by exact Hne. apply IH; assumption.
    + apply list_elem_of_singleton in Hin. injection Hin as -> ->.
      apply lookup_insert_eq.
Qed.

(** ** The operation table *)

Section OperationTable.
Context `{codes : NetworkFunctionCodes}.

(** X12. Whatever the function codes are, an operation that is given a
    layer other than the opaque payload is one of the eight entries of
    the table, with that layer; so its body code and enterprise number
    are zero, and the message layer itself is never the next layer. *)
Theorem structured_layer_is_table_entry (o : Operation) :
  Operation_NextLayerType o <> LayerTypePayload ->
  (o, Operation_NextLayerType o) ∈ operationLayerTypes_entries
  /\ Body o = 0 /\ Enterprise o = 0
  /\ Operation_NextLayerType o <> LayerTypeMessage.
Proof.
  unfold Operation_NextLayerType, operationLayerTypes.
  destruct (foldl (fun t kv => <[kv.1 := kv.2]> t) ∅
              operationLayerTypes_entries !! o) as [layer|] eqn:Hl;
    [|intros Hne; contradiction].
  intros _. apply literal_lookup_Some in Hl.
  split; [exact Hl|].
  unfold operationLayerTypes_entries in Hl.
  repeat (apply elem_of_cons in Hl; destruct Hl as [[= -> ->]|Hl];
          [repeat split; discriminate|]).
  apply elem_of_nil in Hl. contradiction.
Qed.

Lemma operationLayerTypes_keys_NoDup :
  NetworkFunctionChassisRsp <> NetworkFunctionAppRsp ->
  NoDup operationLayerTypes_entries.*1.
Proof.
  intros Hne. unfold operationLayerTypes_entries. cbn [fmap list_fmap fst].
  unfold OperationGetDeviceIDRsp, OperationGetChassisStatusRsp,
    OperationGetSystemGUIDRsp,
    OperationGetChannelAuthenticationCapabilitiesRsp,
    OperationGetSDRRepositoryInfoRsp, OperationGetSDRRsp,
    OperationGetSensorReadingRsp, OperationGetSessionInfoRsp.
  repeat (apply NoDup_cons_2;
          [rewrite ?elem_of_cons, elem_of_nil;
           intros Hin; decompose [or] Hin; congruence|]).
  apply NoDup_nil_2.
Qed.

(** X13. When the Chassis and App response codes differ (the only two
    entries with the same command number), every entry of the table is
    found: [Operation.NextLayerType] of each listed operation is the
    layer listed for it. *)
Theorem table_entries_are_found (o : Operation) (layer : LayerType) :
  NetworkFunctionChassisRsp <> NetworkFunctionAppRsp ->
  (o, layer) ∈ operationLayerTypes_entries ->
  Operation_NextLayerType o = layer.
Proof.
  intros Hne Hin. unfold Operation_NextLayerType, operationLayerTypes.
  rewrite (literal_lookup_entry _ o layer
             (operationLayerTypes_keys_NoDup Hne) Hin).
  reflexivity.
Qed.

End OperationTable.

(** ** Dialling *)

Lemma Contains_unfold (s substr : string) :
  Contains s substr
  = String.prefix substr s
    || match s with
       | EmptyString => false
       | String _ s' => Contains s' substr
       end.
Proof. destruct s; reflexivity. Qed.

Lemma Contains_suffix (s t substr : string) :
  String.prefix substr t = true -> Contains (String.append s t) substr = true.
Proof.
  intros Hp. induction s as [|c s IH].
  - change (String.append "" t) with t.
    rewrite Contains_unfold, Hp. reflexivity.
  - change (String.append (String c s) t) with (String c (String.append s t)).
    rewrite Contains_unfold, IH. apply orb_true_r.
Qed.

Lemma string_length_append (s t : string) :
  String.length (String.append s t) = (String.length s + String.length t)%nat.
Proof.
  induction s as [|c s IH]; [reflexivity|].
  change (S (String.length (String.append s t))
          = S (String.length s + String.length t)).
  rewrite IH. reflexivity.
Qed.

Lemma substring_append_skip (s t : string) (k n : nat) :
  String.substring (String.length s + k) n (String.append s t)
  = String.substring k n t.
Proof. induction s as [|c s IH]; [reflexivity|exact IH]. Qed.

Lemma HasSuffix_port (s : string) :
  HasSuffix (String.append s ":623") "]" = false.
Proof.
  unfold HasSuffix. rewrite string_length_append.
  change (String.length ":623") with 4%nat.
  change (String.length "]") with 1%nat.
  replace (String.length s + 4 - 1)%nat with (String.length s + 3)%nat by lia.
  rewrite substring_append_skip.
  apply andb_false_r.
Qed.

(** X14. The address [newTransport] hands to [transport.New] always
    contains a colon and never ends in a closing bracket; it is the
    address given, or that address followed by ":623"; and an address
    that went through once goes through unchanged, so the port is never
    appended twice. *)
Theorem newTransport_default_port (Transport Err : Type)
    (transport_New : string -> Transport * option Err) (addr : string) :
  exists a,
    newTransport Transport Err transport_New addr = transport_New a
    /\ (a = addr \/ a = String.append addr ":623")
    /\ Contains a ":" = true
    /\ HasSuffix a "]" = false
    /\ newTransport Transport Err transport_New a = transport_New a.
Proof.
  exists (with_default_port addr). unfold newTransport.
  assert (H : (with_default_port addr = addr
               \/ with_default_port addr = String.append addr ":623")
              /\ Contains (with_default_port addr) ":" = true
              /\ HasSuffix (with_default_port addr) "]" = false).
  { unfold with_default_port.
    destruct (Contains addr ":") eqn:Hc, (HasSuffix addr "]") eqn:Hs;
      cbn [negb orb].
    - split; [right; reflexivity|].
      split; [apply Contains_suffix; reflexivity|apply HasSuffix_port].
    - split; [left; reflexivity|]. split; assumption.
    - split; [right; reflexivity|].
      split; [apply Contains_suffix; reflexivity|apply HasSuffix_port].
    - split; [right; reflexivity|].
      split; [apply Contains_suffix; reflexivity|apply HasSuffix_port]. }
  destruct H as (Hor & Hc & Hs).
  split; [reflexivity|]. split; [exact Hor|]. split; [exact Hc|].
  split; [exact Hs|].
  f_equal. unfold with_default_port at 1. rewrite Hc, Hs. reflexivity.
Qed.

Lemma DialV2_step (Transport Err V2Sessionless : Type)
    (transport_New : string -> Transport * option Err)
    (newV2Sessionless : Transport -> Z -> V2Sessionless)
    (addr : string) (mt : Metrics) :
  let r := DialV2 Transport Err V2Sessionless transport_New newV2Sessionless
             addr mt in
  let ok := match (transport_New (with_default_port addr)).2 with
            | None => 1%nat
            | Some _ => 0%nat
            end in
  v2ConnectionOpenAttempts r.1 = S (v2ConnectionOpenAttempts mt)
  /\ v2ConnectionsOpen r.1 = (v2ConnectionsOpen mt + ok)%nat
  /\ v2ConnectionOpenFailures r.1
     = (v2ConnectionOpenFailures mt + (1 - ok))%nat.
Proof.
  unfold DialV2, newTransport. cbv zeta.
  destruct (transport_New (with_default_port addr)) as [t [err|]];
    cbn [fst snd v2ConnectionOpenAttempts v2ConnectionOpenFailures
         v2ConnectionsOpen]; repeat split; lia.
Qed.

(** X15. Over any sequence of [DialV2] calls, whatever [transport.New]
    returns each time: the attempts counter grows by the number of
    calls, the open-connections gauge by the number of calls that
    returned no error and the failures counter by the number that
    returned one; so attempts minus failures minus open connections
    stays what it was. *)
Theorem DialV2_counters (Transport Err V2Sessionless : Type)
    (newV2Sessionless : Transport -> Z -> V2Sessionless)
    (calls : list ((string -> Transport * option Err) * string))
    (mt : Metrics) :
  let mt' := dial_all newV2Sessionless calls mt in
  v2ConnectionOpenAttempts mt'
  = (v2ConnectionOpenAttempts mt + length calls)%nat
  /\ v2ConnectionsOpen mt' = (v2ConnectionsOpen mt + dial_successes calls)%nat
  /\ v2ConnectionOpenFailures mt'
     = (v2ConnectionOpenFailures mt
        + (length calls - dial_successes calls))%nat
  /\ (dial_successes calls <= length calls)%nat.
Proof.
  cbv zeta. revert mt.
  induction calls as [|[transport_New addr] calls IH]; intros mt.
  - cbn. repeat split; lia.
  - cbn [dial_all].
    destruct (DialV2_step Transport Err V2Sessionless transport_New
                newV2Sessionless addr mt) as (Ha & Ho & Hf).
    cbv zeta in Ha, Ho, Hf.
    destruct (IH (DialV2 Transport Err V2Sessionless transport_New
                    newV2Sessionless addr mt).1) as (IHa & IHo & IHf & IHle).
    rewrite IHa, IHo, IHf, Ha, Ho, Hf.
    unfold dial_successes in *. cbn [List.filter fst snd length].
    destruct (transport_New (with_default_port addr)).2;
      cbn [length]; repeat split; lia.
Qed.

(** ** Response validation *)

(** X16. [ValidateResponse] returns no error exactly when it was given
    no error and the normal completion code; an error it is given is
    returned as it is, whatever the completion code; and the completion
    code of every successfully decoded request passes. *)
Theorem ValidateResponse_spec {E : Type} (c : CompletionCode)
    (err : option E) :
  (ValidateResponse c err = None <-> err = None /\ c = CompletionCodeNormal)
  /\ (forall e, err = Some e -> ValidateResponse c err = Some (ErrGiven e))
  /\ (err = None -> c <> CompletionCodeNormal ->
      ValidateResponse c err = Some (ErrNonNormalCompletionCode c))
  /\ (forall `{codes : NetworkFunctionCodes} data m m' df df',
         DecodeFromBytes data (m, df) = ((m', df'), Return tt) ->
         IsRequest (Function (mOperation m')) = true ->
         ValidateResponse (mCompletionCode m') (@None E) = None).
Proof.
  unfold ValidateResponse. split; [|split; [|split; [|]]].
  - destruct err as [e|].
    + split; [discriminate|intros [? _]; discriminate].
    + destruct (Z.eqb_spec c CompletionCodeNormal) as [->|Hne]; cbn [negb].
      * split; [intros _; split; reflexivity|reflexivity].
      * split; [discriminate|intros [_ ?]; contradiction].
  - intros e ->. reflexivity.
  - intros -> Hne. rewrite (proj2 (Z.eqb_neq _ _) Hne). reflexivity.
  - intros codes data m m' df df' Hdec Hreq.
    apply parses_sound in Hdec. destruct Hdec as [Hp _].
    destruct Hp as [d0 d1 d2 d3 d4 d5 l sp payload body ent H1 H2 Hr Hsp
                   |d0 d1 d2 d3 d4 d5 c' l sp payload body ent H1 H2 Hr Hsp].
    + reflexivity.
    + cbn [mOperation Function] in Hreq. congruence.
Qed.

(** ** The command table of the chassis-control tool *)

Lemma cmdControls_keys_NoDup : NoDup cmdControls_entries.*1.
Proof.
  unfold cmdControls_entries. cbn [fmap list_fmap fst].
  repeat (apply NoDup_cons_2;
          [rewrite ?elem_of_cons, elem_of_nil;
           intros Hin; decompose [or] Hin;
           first [discriminate | contradiction]|]).
  apply NoDup_nil_2.
Qed.

(** X17. [lookupCommand] succeeds exactly on the six command names of
    the table, spelled as there, and then returns the control listed
    for the name; for every other string it returns the invalid-command
    error naming the string, together with the power-off control as a
    placeholder. *)
Theorem lookupCommand_spec (cmd : string) :
  (forall ctrl,
      lookupCommand cmd = (ctrl, None) <-> (cmd, ctrl) ∈ cmdControls_entries)
  /\ ((lookupCommand cmd).2 = None <-> cmd ∈ cmdControls_entries.*1)
  /\ (cmd ∉ cmdControls_entries.*1 ->
      lookupCommand cmd
      = (ChassisControlPowerOff, Some (ErrInvalidCommand cmd))).
Proof.
  unfold lookupCommand, cmdControls.
  assert (Hnone : cmd ∉ cmdControls_entries.*1 ->
                  foldl (fun t kv => <[kv.1 := kv.2]> t) ∅
                    cmdControls_entries !! cmd = None)
    by apply literal_lookup_None.
  destruct (foldl (fun t kv => <[kv.1 := kv.2]> t) ∅ cmdControls_entries
              !! cmd) as [ctrl0|] eqn:Hl.
  - pose proof (literal_lookup_Some _ _ _ Hl) as Hin.
    assert (Hkey : cmd ∈ cmdControls_entries.*1).
    { apply list_elem_of_fmap. exists (cmd, ctrl0). split; [reflexivity|exact Hin]. }
    split; [|split].
    + intros ctrl. split.
      * intros [= <-]. exact Hin.
      * intros Hin'.
        pose proof (literal_lookup_entry _ _ _ cmdControls_keys_NoDup Hin')
          as Hl'.
        rewrite Hl in Hl'. injection Hl' as ->. reflexivity.
    + split; [intros _; exact Hkey|reflexivity].
    + intros Hnot. contradiction.
  - split; [|split].
    + intros ctrl. split; [discriminate|].
      intros Hin.
      pose proof (literal_lookup_entry _ _ _ cmdControls_keys_NoDup Hin)
        as Hl'.
      rewrite Hl in Hl'. discriminate.
    + split; [discriminate|].
      intros Hkey. apply list_elem_of_fmap in Hkey.
      destruct Hkey as ([k v] & -> & Hin).
      pose proof (literal_lookup_entry _ _ _ cmdControls_keys_NoDup Hin)
        as Hl'.
      cbn [fst] in Hl. rewrite Hl in Hl'. discriminate.
    + reflexivity.
Qed.

(** * The properties at concrete inputs *)

Example scenario_A_serializes :
  SerializeTo (codes := ipmi_v2_codes) (mkSerializeOptions true true)
    (scenario_A, mkSerializeBuffer [0xaa; 0xbb; 0xcc; 0xdd; 0xee; 0xff; 0x11] [] [0x99])
  = ((set_Checksum2 0x33 (set_Checksum1 0xc8 scenario_A),
      mkSerializeBuffer [0xaa] scenario_A_wire []), Return tt).
Proof. vm_compute. reflexivity. Qed.

Example scenario_A_decodes :
  DecodeFromBytes (codes := ipmi_v2_codes) scenario_A_wire (stale_message, false)
  = ((scenario_A_decoded, false), Return tt).
Proof. vm_compute. reflexivity. Qed.

Example oem_response_round_trip :
  SerializeTo (codes := ipmi_v2_codes) (mkSerializeOptions true true)
    (oem_response, mkSerializeBuffer [] [0x11; 0x22] [])
  = ((set_Checksum2 0x8f (set_Checksum1 0xc2 oem_response),
      mkSerializeBuffer []
        [0x81; 0xbd; 0xc2; 0x20; 0xfe; 0x02; 0xc9; 0xb3; 0xa2; 0x00;
         0x11; 0x22; 0x8f] []), Return tt)
  /\ DecodeFromBytes (codes := ipmi_v2_codes)
       [0x81; 0xbd; 0xc2; 0x20; 0xfe; 0x02; 0xc9; 0xb3; 0xa2; 0x00;
        0x11; 0x22; 0x8f] (stale_message, false)
     = ((mkMessage
           (mkBaseLayer
              [0x81; 0xbd; 0xc2; 0x20; 0xfe; 0x02; 0xc9; 0xb3; 0xa2; 0x00]
              [0x11; 0x22])
           (mOperation oem_response) 0x81 1 0xc2 0x20 2 0x3f 0xc9 0x8f,
         false), Return tt).
Proof. vm_compute. split; reflexivity. Qed.

Example dcmi_request_round_trip :
  SerializeTo (codes := ipmi_v2_codes) (mkSerializeOptions true true)
    (dcmi_request, mkSerializeBuffer [] [0x05] [])
  = ((set_Checksum2 0x81 (set_Checksum1 0x30 dcmi_request),
      mkSerializeBuffer []
        [0x20; 0xb0; 0x30; 0x81; 0x1c; 0x01; 0xdc; 0x05; 0x81] []),
     Return tt)
  /\ DecodeFromBytes (codes := ipmi_v2_codes)
       [0x20; 0xb0; 0x30; 0x81; 0x1c; 0x01; 0xdc; 0x05; 0x81]
       (stale_message, false)
     = ((mkMessage
           (mkBaseLayer [0x20; 0xb0; 0x30; 0x81; 0x1c; 0x01; 0xdc] [0x05])
           (mOperation dcmi_request) 0x20 0 0x30 0x81 0 7 0 0x81,
         false), Return tt).
Proof. vm_compute. split; reflexivity. Qed.

Lemma serialize_decode_roundtrip_witness :
  exists c1 c2 b',
    SerializeTo (codes := ipmi_v2_codes) (mkSerializeOptions true true)
      (scenario_A, empty_buffer)
    = ((set_Checksum2 c2 (set_Checksum1 c1 scenario_A), b'), Return tt)
    /\ c1 = checksum (subslice (Bytes b') 0 2)
    /\ c2 = checksum (subslice (Bytes b') 3 (len (Bytes b') - 1))
    /\ DecodeFromBytes (codes := ipmi_v2_codes) (Bytes b') (stale_message, false)
       = ((mkMessage
             (mkBaseLayer
                (subslice (Bytes b') 0
                   (serializeLength (codes := ipmi_v2_codes) scenario_A))
                (Bytes empty_buffer))
             (mOperation scenario_A) (RemoteAddress scenario_A)
             (RemoteLUN scenario_A) c1 (LocalAddress scenario_A)
             (LocalLUN scenario_A) (Sequence scenario_A)
             (mCompletionCode scenario_A) c2, false),
          Return tt).
Proof.
  apply (serialize_decode_roundtrip (codes := ipmi_v2_codes)
           scenario_A stale_message empty_buffer true false).
  unfold consistent. simpl.
  repeat split; try lia; intros; try reflexivity; discriminate.
Defined.

Lemma checksum_failure_stops_decoding_witness :
  DecodeFromBytes (codes := ipmi_v2_codes) bad_checksum1_wire
    (stale_message, false)
  = ((header1 0x20 0x18 0x00 stale_message, false),
     Error (ErrChecksum1 0x00 0xc8)).
Proof.
  apply (proj1 (checksum_failure_stops_decoding (codes := ipmi_v2_codes)
                  bad_checksum1_wire stale_message false
                  ltac:(simpl; lia))).
  vm_compute. discriminate.
Defined.

(** C3 as stated fails: after a Checksum1 failure the message decoded
    into holds the input's address, function code and checksum. *)
Lemma checksum_failure_changes_message :
  exists m',
    DecodeFromBytes (codes := ipmi_v2_codes) bad_checksum1_wire
      (zero_message, false)
    = ((m', false), Error (ErrChecksum1 0x00 0xc8))
    /\ RemoteAddress m' = 0x20
    /\ Function (mOperation m') = 0x06
    /\ m' <> zero_message.
Proof.
  exists (mkMessage (mkBaseLayer [] []) (mkOperation 0x06 0 0 0) 0x20 0 0
            0 0 0 0 0).
  split; [vm_compute; reflexivity|].
  split; [reflexivity|]. split; [reflexivity|]. discriminate.
Qed.

Lemma decode_short_is_truncated_witness :
  exists e,
    DecodeFromBytes (codes := ipmi_v2_codes) [0x20; 0x18; 0xc8]
      (zero_message, false)
    = ((zero_message, true), Error e)
    /\ e = ErrTooShort 3
    /\ (forall got want, e <> ErrChecksum1 got want)
    /\ (forall got want, e <> ErrChecksum2 got want).
Proof.
  apply (decode_short_is_truncated (codes := ipmi_v2_codes)
           [0x20; 0x18; 0xc8] zero_message false).
  simpl. lia.
Defined.

Lemma NextLayerType_spec_witness :
  NextLayerType (codes := ipmi_v2_codes) failed_get_device_id
  = LayerTypePayload.
Proof.
  apply (proj1 (NextLayerType_spec (codes := ipmi_v2_codes)
                  failed_get_device_id)).
  simpl. unfold CompletionCodeNormal. lia.
Defined.

Example get_device_id_next_layer :
  NextLayerType (codes := ipmi_v2_codes)
    (set_CompletionCode 0 failed_get_device_id)
  = LayerTypeGetDeviceIDRsp
  /\ operationLayerTypes (codes := ipmi_v2_codes) !! mOperation scenario_A
     = None
  /\ NextLayerType (codes := ipmi_v2_codes) scenario_A = LayerTypePayload.
Proof. vm_compute. repeat split. Qed.

Lemma special_functions_consume_witness :
  decodeSpecialNetFns (codes := ipmi_v2_codes) [0xdc; 0x01]
    (group_request, false)
  = ((set_Body (uint8 0xdc) (set_Enterprise 0 (set_Body 0 group_request)),
      false), Return 1).
Proof.
  refine (proj1 (special_functions_consume (codes := ipmi_v2_codes)
                   [0xdc; 0x01] group_request false _ _ _ _) _).
  - simpl. lia.
  - simpl. lia.
  - simpl. lia.
  - simpl. lia.
  - left. reflexivity.
Defined.

Lemma decode_resets_conditional_fields_witness :
  let f := Function (mOperation scenario_A_decoded) in
  (f <> NetworkFunctionGroupReq (NetworkFunctionCodes := ipmi_v2_codes) ->
   f <> NetworkFunctionGroupRsp (NetworkFunctionCodes := ipmi_v2_codes) ->
   Body (mOperation scenario_A_decoded) = 0)
  /\ (f <> NetworkFunctionOEMReq (NetworkFunctionCodes := ipmi_v2_codes) ->
      f <> NetworkFunctionOEMRsp (NetworkFunctionCodes := ipmi_v2_codes) ->
      Enterprise (mOperation scenario_A_decoded) = 0)
  /\ (IsRequest f = true ->
      mCompletionCode scenario_A_decoded = CompletionCodeNormal).
Proof.
  apply (decode_resets_conditional_fields (codes := ipmi_v2_codes)
           scenario_A_wire stale_message scenario_A_decoded false false).
  vm_compute. reflexivity.
Defined.

Lemma algorithmCipher_spec_witness :
  exists l,
    sample_NewAES128CBC (copy (replicate 16 0) (K sample_generator 2))
    = (Some l, None)
    /\ algorithmCipher 0 1 (list Z) unit sample_NewAES128CBC 1 sample_generator
       = (Some l, None).
Proof.
  refine (proj1 (proj2 (proj2 (proj2
            (algorithmCipher_spec 0 1 (list Z) unit sample_NewAES128CBC 1
               sample_generator _ _)))) _).
  - lia.
  - intros key _. exists key. reflexivity.
  - reflexivity.
Defined.

Example sample_cipher_key :
  algorithmCipher 0 1 (list Z) unit sample_NewAES128CBC 1 sample_generator
  = (Some (replicate 16 0x42), None)
  /\ algorithmCipher 0 1 (list Z) unit sample_NewAES128CBC 0 sample_generator
     = (None, None)
  /\ algorithmCipher 0 1 (list Z) unit sample_NewAES128CBC 2 sample_generator
     = (None, Some (ErrUnsupportedAlgorithm 2)).
Proof. vm_compute. repeat split. Qed.

Lemma oem_response_wire_decodes :
  DecodeFromBytes (codes := ipmi_v2_codes) oem_response_wire
    (stale_message, true)
  = ((oem_response_decoded, true), Return tt).
Proof. vm_compute. reflexivity. Qed.

Lemma oem_response_wire_is_bytes : is_bytes oem_response_wire.
Proof. unfold is_bytes, oem_response_wire. repeat constructor; lia. Qed.

Lemma decode_result_independent_of_receiver_witness :
  true = true
  /\ forall (m2 : Message) (df2 : DecodeFeedback),
      DecodeFromBytes (codes := ipmi_v2_codes) oem_response_wire (m2, df2)
      = ((oem_response_decoded, df2), Return tt).
Proof.
  apply (decode_result_independent_of_receiver (codes := ipmi_v2_codes)
           oem_response_wire stale_message oem_response_decoded true true).
  exact oem_response_wire_decodes.
Defined.

Lemma decode_partitions_input_witness :
  Contents (mBaseLayer oem_response_decoded)
  ++ Payload (mBaseLayer oem_response_decoded)
  ++ [List.last oem_response_wire 0]
  = oem_response_wire
  /\ Checksum1 oem_response_decoded = uint8 (nth 2 oem_response_wire 0)
  /\ Checksum1 oem_response_decoded = checksum (take 2 oem_response_wire)
  /\ Checksum2 oem_response_decoded = uint8 (List.last oem_response_wire 0)
  /\ Checksum2 oem_response_decoded
     = checksum (drop 3 (Contents (mBaseLayer oem_response_decoded))
                 ++ Payload (mBaseLayer oem_response_decoded)).
Proof.
  apply (decode_partitions_input (codes := ipmi_v2_codes)
           oem_response_wire stale_message oem_response_decoded true true).
  exact oem_response_wire_decodes.
Defined.

Lemma decode_header_length_witness :
  len (Contents (mBaseLayer oem_response_decoded))
  = serializeLength (codes := ipmi_v2_codes) oem_response_decoded
  /\ len oem_response_wire
     = serializeLength (codes := ipmi_v2_codes) oem_response_decoded
       + len (Payload (mBaseLayer oem_response_decoded)) + 1.
Proof.
  apply (decode_header_length (codes := ipmi_v2_codes)
           oem_response_wire stale_message oem_response_decoded true true).
  exact oem_response_wire_decodes.
Defined.

Lemma decode_serialize_roundtrip_witness :
  exists fr' bk',
    SerializeTo (codes := ipmi_v2_codes) (mkSerializeOptions true false)
      (oem_response_decoded,
       mkSerializeBuffer [0xaa] (Payload (mBaseLayer oem_response_decoded))
         [0x99])
    = ((oem_response_decoded, mkSerializeBuffer fr' oem_response_wire bk'),
       Return tt).
Proof.
  apply (decode_serialize_roundtrip (codes := ipmi_v2_codes)
           oem_response_wire stale_message oem_response_decoded true true
           (mkSerializeOptions true false) [0xaa] [0x99]).
  - exact oem_response_wire_is_bytes.
  - exact oem_response_wire_decodes.
Defined.

Lemma decoded_message_is_consistent_witness :
  consistent (codes := ipmi_v2_codes) oem_response_decoded.
Proof.
  apply (decoded_message_is_consistent (codes := ipmi_v2_codes)
           oem_response_wire stale_message oem_response_decoded true true).
  - exact oem_response_wire_is_bytes.
  - exact oem_response_wire_decodes.
Defined.

Lemma single_byte_corruption_detected_witness :
  exists got want,
    got <> want
    /\ (DecodeFromBytes (codes := ipmi_v2_codes)
          (<[7%nat:=0x00]> oem_response_wire) (zero_message, false)).2
       = Error (if (7 <? 3)%nat then ErrChecksum1 got want
                else ErrChecksum2 got want).
Proof.
  apply (single_byte_corruption_detected (codes := ipmi_v2_codes)
           oem_response_wire 7%nat 0xb3 0x00 stale_message zero_message
           oem_response_decoded true false true).
  - exact oem_response_wire_is_bytes.
  - exact oem_response_wire_decodes.
  - reflexivity.
  - lia.
  - lia.
Defined.

Lemma serialize_output_determined_witness :
  let opts := mkSerializeOptions true true in
  let r1 := SerializeTo (codes := ipmi_v2_codes) opts
              (dcmi_request, used_buffer) in
  let r2 := SerializeTo (codes := ipmi_v2_codes) opts
              (dcmi_request, mkSerializeBuffer [] [0x05] []) in
  let r3 := SerializeTo (codes := ipmi_v2_codes) opts
              (set_Checksum2 0x5a (set_Checksum1 0xb7 dcmi_request),
               mkSerializeBuffer [] [0x05] []) in
  r1.1.1 = r2.1.1 /\ Bytes r1.1.2 = Bytes r2.1.2 /\ r1.2 = r2.2
  /\ (ComputeChecksums opts = true ->
      r3.1.1 = r2.1.1 /\ Bytes r3.1.2 = Bytes r2.1.2).
Proof.
  apply (serialize_output_determined (codes := ipmi_v2_codes)
           (mkSerializeOptions true true) dcmi_request used_buffer
           (mkSerializeBuffer [] [0x05] []) 0xb7 0x5a).
  reflexivity.
Defined.

Lemma decode_succeeds_iff_witness :
  exists m' df',
    DecodeFromBytes (codes := ipmi_v2_codes) oem_response_wire
      (zero_message, false)
    = ((m', df'), Return tt).
Proof.
  apply (proj2 (decode_succeeds_iff (codes := ipmi_v2_codes)
                  oem_response_wire zero_message false
                  ltac:(simpl; lia))).
  vm_compute. repeat split; intros H; discriminate H.
Defined.

Lemma decode_is_panic_free_from_8_bytes_witness :
  (DecodeFromBytes (codes := ipmi_v2_codes) scenario_A_wire
     (stale_message, false)).2
  <> Panic (SliceBoundsOutOfRange 7 6 7).
Proof.
  apply (decode_is_panic_free_from_8_bytes (codes := ipmi_v2_codes)
           scenario_A_wire stale_message false
           (SliceBoundsOutOfRange 7 6 7)).
  right. split; [simpl; lia|reflexivity].
Defined.

Lemma structured_layer_is_table_entry_witness :
  let o := OperationGetSDRRsp (codes := ipmi_v2_codes) in
  (o, Operation_NextLayerType (codes := ipmi_v2_codes) o)
    ∈ operationLayerTypes_entries (codes := ipmi_v2_codes)
  /\ Body o = 0 /\ Enterprise o = 0
  /\ Operation_NextLayerType (codes := ipmi_v2_codes) o <> LayerTypeMessage.
Proof.
  apply (structured_layer_is_table_entry (codes := ipmi_v2_codes)
           (OperationGetSDRRsp (codes := ipmi_v2_codes))).
  vm_compute. discriminate.
Defined.

Lemma table_entries_are_found_witness :
  Operation_NextLayerType (codes := ipmi_v2_codes)
    (OperationGetChassisStatusRsp (codes := ipmi_v2_codes))
  = LayerTypeGetChassisStatusRsp.
Proof.
  apply (table_entries_are_found (codes := ipmi_v2_codes)
           (OperationGetChassisStatusRsp (codes := ipmi_v2_codes))
           LayerTypeGetChassisStatusRsp).
  - simpl. lia.
  - unfold operationLayerTypes_entries. rewrite !elem_of_cons.
    right. left. reflexivity.
Defined.

Lemma ValidateResponse_spec_witness :
  ValidateResponse 0xc1 (@None unit)
  = Some (ErrNonNormalCompletionCode 0xc1).
Proof.
  apply (proj1 (proj2 (proj2 (ValidateResponse_spec (E := unit) 0xc1 None)))).
  - reflexivity.
  - unfold CompletionCodeNormal. lia.
Defined.

Lemma lookupCommand_spec_witness :
  lookupCommand "cycle" = (ChassisControlPowerCycle, None).
Proof.
  apply (proj2 (proj1 (lookupCommand_spec "cycle") ChassisControlPowerCycle)).
  unfold cmdControls_entries. rewrite !elem_of_cons.
  right. right. left. reflexivity.
Defined.

Example lookupCommand_rejects_other_spellings :
  lookupCommand "Cycle"
  = (ChassisControlPowerOff, Some (ErrInvalidCommand "Cycle"))
  /\ lookupCommand ""
     = (ChassisControlPowerOff, Some (ErrInvalidCommand "")).
Proof. vm_compute. split; reflexivity. Qed.

Lemma algorithmCipher_key_witness :
  (algorithmCipher 0 1 (list Z) unit rejecting_NewAES128CBC 1
     short_generator).2
  = match (rejecting_NewAES128CBC
             (take 16 (K short_generator 2 ++ replicate 16 0))).2 with
    | None => None
    | Some e => Some (ErrConstructor e)
    end.
Proof.
  apply (proj1 (proj2 (proj2
           (algorithmCipher_key 0 1 (list Z) unit rejecting_NewAES128CBC
              short_generator ltac:(lia))))).
Defined.

Example short_key_is_zero_padded :
  algorithmCipher 0 1 (list Z) unit sample_NewAES128CBC 1 short_generator
  = (Some (replicate 8 0x42 ++ replicate 8 0), None)
  /\ algorithmCipher 0 1 (list Z) unit rejecting_NewAES128CBC 1
       short_generator
     = (None, Some (ErrConstructor tt)).
Proof. vm_compute. split; reflexivity. Qed.
